(** * Campaign Caller dashboard (Steamlit_API.py): log store, gateway client,
      transcript evaluation and export

    A shallow embedding of the Streamlit script.  Python values that travel
    through [json] are modelled by the inductive [json]; every function of the
    script becomes a computation of the monad [M], which threads the
    observable world (the log file, the HTTP and chat requests issued, the
    widgets rendered, the session) and returns either a value or the Python
    exception that escaped.  What the script delegates to libraries and
    services (the JSON codec, the HTTP gateway, the chat model, TextBlob,
    the clock, the environment, the Unicode tables, and what pandas,
    matplotlib and Streamlit make of the data handed to them) is gathered in
    the class [Platform].

    Conventions of the model:
    - one run of the script is sequential; the gateway and the chat model
      answer as functions of the request they receive;
    - the log file is missing, unreadable, or holds a text; opening it for
      writing succeeds and [json.dump] writes the whole text;
    - a [string] holds the UTF-8 bytes of a Python [str]: slices count code
      points, and which characters outside ASCII are digits is left to the
      Unicode tables of the interpreter;
    - an int converts to and from its decimal text whatever its length: the
      interpreter's configurable ceiling on the digits of such a conversion
      is taken as lifted;
    - what Streamlit, pandas and matplotlib accept for a table or a chart
      is left to them;
    - the bytes of the exported workbook are represented by the frames
      written to its sheets: the xlsx encoding itself is not modelled. *)

From Stdlib Require Import ZArith List String Ascii Bool Lia.
From Stdlib Require Import DecimalString.
From Stdlib Require DecimalPos.
From Stdlib Require Import Floats.SpecFloat.
Import ListNotations.

Local Open Scope list_scope.
Local Open Scope string_scope.

Set Warnings "-register-all".

(** ** Python values *)

(** A value produced by [json.load]: [None], [bool], [int], [float], [str],
    [list] and [dict].  A dict keeps its keys in insertion order and never
    repeats one; the functions below look a key up from the front and do
    not rely on that. *)
Inductive json : Type :=
| JNull
| JBool (b : bool)
| JInt (n : Z)
| JFloat (f : spec_float)
| JStr (s : string)
| JArr (items : list json)
| JObj (fields : list (string * json)).

(** The exceptions that the modelled calls can raise, all of them
    subclasses of [Exception]. *)
Inductive exception : Type :=
| FileNotFoundError
| PermissionError
| JSONDecodeError
| AttributeError
| KeyError
| TypeError
| ValueError
| OverflowError
| StreamlitAPIException
| RequestException
| APIError.

(** What can end a run early: an exception, or the signal by which
    [st.rerun()] stops the script, which is no [Exception]. *)
Inductive exn : Type :=
| Exc (e : exception)
| RerunException.
Coercion Exc : exception >-> exn.

Inductive result (A : Type) : Type :=
| Return (a : A)
| Raise (e : exn).
Arguments Return {A} a.
Arguments Raise {A} e.

(** [except FileNotFoundError] *)
Definition is_FileNotFoundError (e : exn) : bool :=
  match e with Exc FileNotFoundError => true | _ => false end.

(** [except Exception] *)
Definition is_Exception (e : exn) : bool :=
  match e with Exc _ => true | RerunException => false end.

(** Truth value of a Python object, as [if x:] tests it. *)
Definition truthy (v : json) : bool :=
  match v with
  | JNull => false
  | JBool b => b
  | JInt n => negb (n =? 0)%Z
  | JFloat (S754_zero _) => false
  | JFloat _ => true
  | JStr s => negb (s =? "")
  | JArr l => match l with [] => false | _ => true end
  | JObj l => match l with [] => false | _ => true end
  end.

(** [isinstance(v, dict)] *)
Definition is_dict (v : json) : bool :=
  match v with JObj _ => true | _ => false end.

(** Lookup in a dict. *)
Fixpoint dict_lookup (k : string) (fs : list (string * json)) : option json :=
  match fs with
  | [] => None
  | (k', v) :: rest => if k' =? k then Some v else dict_lookup k rest
  end.

(** [d.get(k, default)] on a dict. *)
Definition dict_get (fs : list (string * json)) (k : string) (default : json) : json :=
  match dict_lookup k fs with Some v => v | None => default end.

(** [v.get(k, default)]: only a dict has the method. *)
Definition py_get (v : json) (k : string) (default : json) : result json :=
  match v with
  | JObj fs => Return (dict_get fs k default)
  | _ => Raise AttributeError
  end.

(** [v[k]] with a string key. *)
Definition py_getitem (v : json) (k : string) : result json :=
  match v with
  | JObj fs => match dict_lookup k fs with Some x => Return x | None => Raise KeyError end
  | _ => Raise TypeError
  end.

(** [logs.append(entry)]: only a list has the method. *)
Definition py_append (logs entry : json) : result json :=
  match logs with
  | JArr l => Return (JArr (l ++ [entry])%list)
  | _ => Raise AttributeError
  end.

(** ** Strings *)

Definition nl : string := String "010"%char EmptyString.

Definition is_digit_char (c : ascii) : bool :=
  ((48 <=? nat_of_ascii c) && (nat_of_ascii c <=? 57))%nat.

(** A [string] holds the UTF-8 bytes of a Python [str].  A byte below 128
    is an ASCII character; a byte from 128 to 191 continues the code point
    that a byte before it has started. *)
Definition is_ascii_char (c : ascii) : bool := (nat_of_ascii c <? 128)%nat.

Definition is_continuation (c : ascii) : bool :=
  ((128 <=? nat_of_ascii c) && (nat_of_ascii c <? 192))%nat.

Definition is_ascii (s : string) : bool :=
  forallb is_ascii_char (list_ascii_of_string s).

(** [s.isdigit()] on an ASCII string: non-empty and made of digits only. *)
Definition ascii_isdigit (s : string) : bool :=
  match s with
  | EmptyString => false
  | _ => forallb is_digit_char (list_ascii_of_string s)
  end.

(** [s[:n]]: the first [n] code points of [s], each with the bytes that
    continue it. *)
Fixpoint take_chars (n : nat) (s : string) : string :=
  match s with
  | EmptyString => EmptyString
  | String c rest =>
      if is_continuation c then String c (take_chars n rest)
      else
        match n with
        | O => EmptyString
        | S n' => String c (take_chars n' rest)
        end
  end.

(** The characters of a string: each code point with the bytes that
    continue it.  [chars_from s] gives the continuation bytes [s] starts
    with and the characters behind them. *)
Fixpoint chars_from (s : string) : string * list string :=
  match s with
  | EmptyString => (EmptyString, [])
  | String c rest =>
      let (more, l) := chars_from rest in
      if is_continuation c then (String c more, l)
      else (EmptyString, String c more :: l)
  end.

Definition chars (s : string) : list string :=
  match chars_from s with
  | (EmptyString, l) => l
  | (stray, l) => stray :: l
  end.

(** The items a [for] loop visits: the elements of a list, the keys of a
    dict, the characters of a string; other values are not iterable. *)
Definition py_iter (v : json) : result (list json) :=
  match v with
  | JArr l => Return l
  | JObj fs => Return (map (fun kv => JStr (fst kv)) fs)
  | JStr s => Return (map JStr (chars s))
  | _ => Raise TypeError
  end.

(** Value of a run of ASCII decimal digits, most significant first. *)
Definition digits_value (s : string) : Z :=
  fold_left (fun acc c => (acc * 10 + (Z.of_nat (nat_of_ascii c) - 48))%Z)
            (list_ascii_of_string s) 0%Z.

(** [str(n)] for an int. *)
Definition int_str (n : Z) : string := NilZero.string_of_int (Z.to_int n).

(** [s.endswith(suffix)] *)
Definition endswith (s suffix : string) : bool :=
  let n := String.length s in
  let m := String.length suffix in
  (m <=? n)%nat && (substring (n - m) m s =? suffix).

(** [sep.join(parts)] *)
Fixpoint join (sep : string) (parts : list string) : string :=
  match parts with
  | [] => ""
  | [p] => p
  | p :: rest => p ++ sep ++ join sep rest
  end.

(** [int(f)] for a float: truncation toward zero. *)
Definition float_int (f : spec_float) : result Z :=
  match f with
  | S754_zero _ => Return 0%Z
  | S754_infinity _ => Raise OverflowError
  | S754_nan => Raise ValueError
  | S754_finite s m e =>
      let a := if (0 <=? e)%Z then (Z.pos m * 2 ^ e)%Z else (Z.pos m / 2 ^ (- e))%Z in
      Return (if s then (- a)%Z else a)
  end.

(** [str(v)] and [repr(v)].  The quoting of a string by [repr] and the
    shortest decimal form of a float are left to the interpreter. *)
Section Repr.
Variable str_repr : string -> string.
Variable float_repr : spec_float -> string.

Fixpoint py_repr (v : json) : string :=
  match v with
  | JNull => "None"
  | JBool true => "True"
  | JBool false => "False"
  | JInt n => int_str n
  | JFloat f => float_repr f
  | JStr s => str_repr s
  | JArr l => "[" ++ join ", " (map py_repr l) ++ "]"
  | JObj fs =>
      "{" ++ join ", " (map (fun kv => match kv with
                                       | (k, x) => str_repr k ++ ": " ++ py_repr x
                                       end) fs) ++ "}"
  end.

Definition py_str (v : json) : string :=
  match v with
  | JStr s => s
  | _ => py_repr v
  end.

End Repr.

(** ** pandas frames and the workbook *)

(** A frame: column labels and rows of cells ([None] stands for a missing
    cell, pandas' NaN). *)
Record DataFrame : Type := {
  columns : list json;
  rows : list (list (option json)) }.

Definition workbook : Type := list (string * DataFrame).

(** The dicts of a list, when every element is one. *)
Fixpoint records_of (items : list json) : option (list (list (string * json))) :=
  match items with
  | [] => Some []
  | JObj fs :: rest =>
      match records_of rest with
      | Some rs => Some (fs :: rs)
      | None => None
      end
  | _ :: _ => None
  end.

Definition add_column (seen : list string) (k : string) : list string :=
  if existsb (String.eqb k) seen then seen else (seen ++ [k])%list.

(** Columns of a list of records: the keys in order of first appearance. *)
Definition record_columns (rs : list (list (string * json))) : list string :=
  fold_left (fun seen r => fold_left add_column (map fst r) seen) rs [].

(** [pd.DataFrame(records)] for a list of dicts: one row per record. *)
Definition frame_of_records (rs : list (list (string * json))) : DataFrame :=
  let cols := record_columns rs in
  {| columns := map JStr cols;
     rows := map (fun r => map (fun c => dict_lookup c r) cols) rs |}.

(** ** The world outside the script *)

Inductive http_method : Type := GET | POST.

Record request : Type := {
  req_method : http_method;
  req_url : string;
  req_headers : list (string * string);
  req_json : option json;
  req_timeout : option Z }.

Record response (T : Type) : Type := {
  resp_ok : bool;
  resp_body : T }.
Arguments resp_ok {T} r.
Arguments resp_body {T} r.

(** What [requests.get] and [requests.post] come back with: a response, or an
    exception (connection error, timeout). *)
Inductive http_outcome (T : Type) : Type :=
| Responded (r : response T)
| NoResponse (e : exception).
Arguments Responded {T} r.
Arguments NoResponse {T} e.

Record chat_request : Type := {
  chat_model : string;
  chat_messages : list (string * string);
  chat_temperature : string }.

(** What [groq_client.chat.completions.create] comes back with: the content
    of the first choice ([None] when the message has none), or an exception. *)
Inductive chat_outcome (T : Type) : Type :=
| Completion (content : option T)
| ChatFailed (e : exception).
Arguments Completion {T} content.
Arguments ChatFailed {T} e.

(** The file [call_logs.json]. *)
Inductive file (T : Type) : Type :=
| Missing
| Unreadable
| Content (t : T).
Arguments Missing {T}.
Arguments Unreadable {T}.
Arguments Content {T} t.

(** Libraries and services the script calls.  [text] is the type of
    serialized documents: the contents of the log file, the body of an HTTP
    response, the content of a chat completion. *)
Class Platform : Type := {
  text : Type;
  (** [json.load], [json.loads]: [None] when the text is not JSON *)
  json_loads : text -> option json;
  (** [json.dump(_, f, indent=2)] *)
  json_dumps : json -> text;
  (** [Response.json()] of requests: [None] when it raises *)
  response_json : text -> option json;
  (** [os.getenv] of the three credentials *)
  API_KEY : option string;
  ASSISTANT_ID : option string;
  PHONE_ID : option string;
  (** [datetime.utcnow().isoformat()] *)
  utcnow_isoformat : string;
  (** the voice gateway *)
  requests_send : request -> http_outcome text;
  (** the chat-completion endpoint *)
  groq_create : chat_request -> chat_outcome text;
  (** [TextBlob(t).sentiment], each score formatted with [:.2f] *)
  polarity_2f : string -> string;
  subjectivity_2f : string -> string;
  str_repr : string -> string;
  float_repr : spec_float -> string;
  (** [str.isdigit] and [int] on a string with characters outside ASCII:
      which of them are digits, and which digits are decimal ones, is in the
      Unicode tables of the interpreter.  [int_unicode] is [None] when [int]
      raises [ValueError], as it does on a digit that is no decimal (a
      superscript, a circled digit) *)
  isdigit_unicode : string -> bool;
  int_unicode : string -> option Z;
  (** the exception of a dict indexed by a slice: [TypeError] as long as a
      slice is unhashable, [KeyError] since Python 3.12 *)
  dict_slice_error : exception;
  (** [pd.DataFrame] on data that is not a list of dicts *)
  pd_DataFrame_other : json -> result DataFrame;
  (** lines 189-194, the bar chart of the labels and ratings, from
      [plt.subplots] to [st.pyplot]: [None] when matplotlib draws it, the
      exception otherwise (mathtext that does not parse in a label, a
      figure too tall to be rasterized) *)
  pyplot_error : list string -> list Z -> option exception;
  (** [st.dataframe]: [None] when Streamlit and pandas make a table of the
      value, the exception otherwise *)
  dataframe_error : json -> option exception }.

(** The codec law used by the round-trip properties: what [json.dump] writes,
    [json.load] reads back. *)
Class JsonRoundTrip (P : Platform) : Prop :=
  loads_dumps : forall j : json, json_loads (json_dumps j) = Some j.

(** Widgets, in the order the script renders them. *)
Inductive widget : Type :=
| StSidebarWrite (s : string)
| StSidebarButton (label : string)
| StTitle (s : string)
| StForm (key : string)
| StTextInput (label : string)
| StFormSubmitButton (label : string)
| StButton (label : string)
| StSuccess (s : string)
| StJson (j : json)
| StError (s : string)
| StException (e : exn)
| StInfo (s : string)
| StMarkdown (s : string)
| StSubheader (s : string)
| StText (s : string)
| StWrite (s : string)
| StProgress (score : Z)
| StPyplot (labels : list string) (ratings : list Z)
| StDownloadButton (label : string) (data : workbook) (file_name mime : string)
| StDataframe (j : json).

(** ** State and exceptions *)

(** A computation over a state [W] ends with a value or with a raised
    exception; the state reached is kept either way. *)
Definition StateExn (W A : Type) : Type := W -> W * result A.

Definition ret {W A : Type} (a : A) : StateExn W A :=
  fun w => (w, Return a).

Definition raise {W A : Type} (e : exn) : StateExn W A :=
  fun w => (w, Raise e).

Definition lift {W A : Type} (r : result A) : StateExn W A :=
  fun w => (w, r).

Definition bind {W A B : Type} (c : StateExn W A) (k : A -> StateExn W B) : StateExn W B :=
  fun w =>
    match c w with
    | (w', Return a) => k a w'
    | (w', Raise e) => (w', Raise e)
    end.

(** [try: body / except <catches> as e: handler e] *)
Definition try_except {W A : Type} (body : StateExn W A) (catches : exn -> bool)
           (handler : exn -> StateExn W A) : StateExn W A :=
  fun w =>
    match body w with
    | (w', Return a) => (w', Return a)
    | (w', Raise e) => if catches e then handler e w' else (w', Raise e)
    end.

(** [for x in l: s = body s x] *)
Fixpoint for_each {W S A : Type} (body : S -> A -> StateExn W S) (s : S) (l : list A)
  : StateExn W S :=
  match l with
  | [] => ret s
  | x :: rest => bind (body s x) (fun s' => for_each body s' rest)
  end.

Notation "x <- c1 ;; c2" := (bind c1 (fun x => c2))
  (at level 61, c1 at next level, right associativity).
Notation "c1 ;; c2" := (bind c1 (fun _ => c2))
  (at level 61, right associativity).

(** ** The script *)

(** What the user did in the page for one run of the script. *)
Record inputs : Type := {
  email : string;            (* st.text_input("Enter your Gmail address") *)
  login_clicked : bool;      (* st.button("Login") *)
  logout_clicked : bool;     (* st.sidebar.button("Logout") *)
  number : string;           (* st.text_input("Customer Number (+E.164)") *)
  submitted : bool;          (* st.form_submit_button("Start Call") *)
  call_id : string;          (* st.text_input("Enter Call ID to fetch") *)
  get_transcript : bool      (* st.button("Get Transcript") *) }.

Definition qa_questions : list string := [
  "Did the agent introduce themselves and identify the dealership during the introduction?";
  "Did the agent identify the reason for the call?";
  "Did the agent speak to the correct person?";
  "Did the agent verify the phone/email address?";
  "Did the agent verify the vehicle information?";
  "Did the agent ask for current mileage and was clear on campaign service (DFS/INA/Recall)?";
  "Did the agent recap the appointment and represent the dealership positively and with a sense of trust?";
  "Did the agent set urgency in scheduling an appointment as soon as possible?";
  "Was the agent professional throughout the call?";
  "Did the agent speak confidently?";
  "Did the agent display active listening skills?";
  "Did the agent sound upbeat, enthusiastic, and friendly?"
].

(** The prompt of lines 140-152. *)
Definition qa_prompt (transcript : string) : string :=
  let prompt :=
    "You are a call QA evaluator." ++ nl ++
    "Based on the transcript below, evaluate the following questions." ++ nl ++
    "Respond as a JSON list with each item containing:" ++ nl ++
    "- question" ++ nl ++
    "- rating (1–5 or 'N/A')" ++ nl ++
    "- explanation" ++ nl ++ nl ++
    "Rating Scale: 1 = Very Poor, 2 = Poor, 3 = Average, 4 = Good, 5 = Excellent, N/A = Not Applicable" ++ nl ++ nl ++
    "Transcript:" ++ nl ++ transcript ++ nl ++ nl ++
    "Questions:" ++ nl in
  fold_left (fun prompt q => prompt ++ "- " ++ q ++ nl) qa_questions prompt.

Definition qa_request (transcript : string) : chat_request :=
  {| chat_model := "llama3-70b-8192";
     chat_messages :=
       [("system", "You are a strict QA evaluator. Respond only in valid JSON.");
        ("user", qa_prompt transcript)];
     chat_temperature := "0.2" |}.

(** The row written to the QA sheet when there is no evaluation. *)
Definition placeholder_row : json :=
  JObj [("question", JStr "N/A"); ("rating", JStr "N/A");
        ("explanation", JStr "No evaluation performed")].

Definition xlsx_mime : string :=
  "application/vnd.openxmlformats-officedocument.spreadsheetml.sheet".

Section App.
Context {P : Platform}.

(** What one run of the script can read and change. *)
Record world : Type := {
  log_file : file text;               (* call_logs.json *)
  session_user : option string;       (* st.session_state.user *)
  requests_sent : list request;       (* HTTP requests issued, oldest first *)
  chats_sent : list chat_request;     (* chat completions requested *)
  rendered : list widget }.           (* widgets rendered, oldest first *)

Definition M (A : Type) : Type := StateExn world A.

(** The page with the widgets [xs] added below what it shows. *)
Definition render (xs : list widget) (w : world) : world :=
  {| log_file := log_file w;
     session_user := session_user w;
     requests_sent := requests_sent w;
     chats_sent := chats_sent w;
     rendered := (rendered w ++ xs)%list |}.

(** Any [st.*] call that renders a widget. *)
Definition st (x : widget) : M unit :=
  fun w => (render [x] w, Return tt).

Definition set_session_user (u : option string) : M unit :=
  fun w =>
    ({| log_file := log_file w;
        session_user := u;
        requests_sent := requests_sent w;
        chats_sent := chats_sent w;
        rendered := rendered w |}, Return tt).

(** [json.load(open(LOG_FILE))] *)
Definition json_load_log : M json :=
  fun w =>
    match log_file w with
    | Missing => (w, Raise FileNotFoundError)
    | Unreadable => (w, Raise PermissionError)
    | Content t =>
        match json_loads t with
        | Some j => (w, Return j)
        | None => (w, Raise JSONDecodeError)
        end
    end.

(** [with open(LOG_FILE, "w") as f: json.dump(logs, f, indent=2)] *)
Definition json_dump_log (logs : json) : M unit :=
  fun w =>
    ({| log_file := Content (json_dumps logs);
        session_user := session_user w;
        requests_sent := requests_sent w;
        chats_sent := chats_sent w;
        rendered := rendered w |}, Return tt).

(** [requests.get] / [requests.post]: one request goes out, and its outcome
    comes back. *)
Definition requests_call (r : request) : M (response text) :=
  fun w =>
    ({| log_file := log_file w;
        session_user := session_user w;
        requests_sent := (requests_sent w ++ [r])%list;
        chats_sent := chats_sent w;
        rendered := rendered w |},
     match requests_send r with
     | Responded resp => Return resp
     | NoResponse e => Raise e
     end).

(** [groq_client.chat.completions.create(...).choices[0].message.content] *)
Definition groq_call (r : chat_request) : M (option text) :=
  fun w =>
    ({| log_file := log_file w;
        session_user := session_user w;
        requests_sent := requests_sent w;
        chats_sent := (chats_sent w ++ [r])%list;
        rendered := rendered w |},
     match groq_create r with
     | Completion c => Return c
     | ChatFailed e => Raise e
     end).

Definition pstr (v : json) : string := py_str str_repr float_repr v.

(** [s.isdigit()]: non-empty and made of digits only. *)
Definition isdigit (s : string) : bool :=
  if is_ascii s then ascii_isdigit s else isdigit_unicode s.

(** [int(s)] for a string that [isdigit] holds of.  (The one call of the
    script is guarded by [isdigit]: signs, blanks and underscores, which
    [int] also accepts, do not reach it.) *)
Definition str_int (s : string) : result Z :=
  if is_ascii s then
    if ascii_isdigit s then Return (digits_value s) else Raise ValueError
  else
    match int_unicode s with
    | Some n => Return n
    | None => Raise ValueError
    end.

(** [int(v)] *)
Definition py_int (v : json) : result Z :=
  match v with
  | JInt n => Return n
  | JBool b => Return (if b then 1 else 0)%Z
  | JFloat f => float_int f
  | JStr s => str_int s
  | JNull | JArr _ | JObj _ => Raise TypeError
  end.

(** [q[:50] + "..."]: a string gives its first 50 characters and the dots;
    the slice of a list refuses the concatenation with a string; a dict takes
    the slice for a key; other values have no slice. *)
Definition slice50_dots (q : json) : result string :=
  match q with
  | JStr s => Return (take_chars 50 s ++ "...")
  | JObj _ => Raise dict_slice_error
  | JNull | JBool _ | JInt _ | JFloat _ | JArr _ => Raise TypeError
  end.

(** An environment variable inside an f-string, and as a JSON value. *)
Definition env_str (v : option string) : string :=
  match v with Some s => s | None => "None" end.

Definition env_json (v : option string) : json :=
  match v with Some s => JStr s | None => JNull end.

Definition HEADERS : list (string * string) :=
  [("Authorization", "Bearer " ++ env_str API_KEY);
   ("Content-Type", "application/json")].

(** *** Utility functions (lines 42-71) *)

Definition save_log (entry : json) : M unit :=
  logs <- try_except json_load_log is_FileNotFoundError (fun _ => ret (JArr [])) ;;
  logs <- lift (py_append logs entry) ;;
  json_dump_log logs.

Definition load_logs : M json :=
  try_except json_load_log (fun _ => true) (fun _ => ret (JArr [])).

Definition fetch_request (call_id : string) : request :=
  {| req_method := GET;
     req_url := "https://api.vapi.ai/call/" ++ call_id;
     req_headers := HEADERS;
     req_json := None;
     req_timeout := Some 10%Z |}.

Definition of_option (e : exn) (o : option json) : result json :=
  match o with Some j => Return j | None => Raise e end.

Definition fetch_call_details (call_id : string) : M json :=
  resp <- requests_call (fetch_request call_id) ;;
  if resp_ok resp then
    try_except (lift (of_option JSONDecodeError (response_json (resp_body resp))))
      is_Exception
      (fun _ =>
         try_except (lift (of_option JSONDecodeError (json_loads (resp_body resp))))
           is_Exception
           (fun _ =>
              st (StError "Could not parse API response as JSON.") ;;
              ret JNull))
  else
    st (StError "Failed to fetch call details.") ;;
    ret JNull.

(** *** Login (lines 74-82) *)

Definition login (i : inputs) : M unit :=
  st (StTitle "Login") ;;
  st (StTextInput "Enter your Gmail address") ;;
  st (StButton "Login") ;;
  if login_clicked i then
    if negb (email i =? "") && endswith (email i) "@gmail.com" then
      set_session_user (Some (email i)) ;;
      raise RerunException
    else
      st (StError "Please use a valid Gmail address")
  else ret tt.

(** *** Start of a call (lines 97-114) *)

Definition start_request (number : string) : request :=
  {| req_method := POST;
     req_url := "https://api.vapi.ai/call/phone";
     req_headers := HEADERS;
     req_json := Some (JObj [("assistantId", env_json ASSISTANT_ID);
                             ("phoneNumberId", env_json PHONE_ID);
                             ("customer", JObj [("number", JStr number)])]);
     req_timeout := None |}.

Definition log_entry (time : string) (call_id : json) (number : string) : json :=
  JObj [("time", JStr time); ("call_id", call_id); ("number", JStr number)].

Definition start_call (number : string) : M unit :=
  resp <- requests_call (start_request number) ;;
  if resp_ok resp then
    data <- lift (of_option JSONDecodeError (response_json (resp_body resp))) ;;
    st (StSuccess "Call initiated!") ;;
    st (StJson data) ;;
    id <- lift (py_get data "id" JNull) ;;
    save_log (log_entry utcnow_isoformat id number)
  else
    st (StError "Error: Unable to start call.").

(** *** Sentiment and QA evaluation (lines 125-201) *)

(** [score / 5], the true division of an int by 5, rounds the quotient to
    the nearest float and raises [OverflowError] when that is past the
    largest float: when |score| / 5 is 2^1024 - 2^970 or more. *)
Definition div5_overflows (score : Z) : bool :=
  (5 * (2 ^ 1024 - 2 ^ 970) <=? Z.abs score)%Z.

(** [st.progress(score / 5)]: the division first, then Streamlit refuses a
    value outside [0.0, 1.0].  Rounding is monotone and 0.0 and 1.0 are
    floats, so the quotient is within them exactly when the score is within
    0 and 5. *)
Definition st_progress (score : Z) : M unit :=
  if div5_overflows score then raise OverflowError
  else if ((0 <=? score) && (score <=? 5))%Z then st (StProgress score)
  else raise StreamlitAPIException.

(** Lines 189-194: the bar chart, built and handed to [st.pyplot]. *)
Definition st_pyplot (labels : list string) (ratings : list Z) : M unit :=
  match pyplot_error labels ratings with
  | None => st (StPyplot labels ratings)
  | Some e => raise e
  end.

(** Body of the loop of lines 170-185; [acc] holds [ratings] and [labels].
    The source evaluates [item['question']] and [item["rating"]] again where
    the values bound here are reused. *)
Definition render_item (acc : list Z * list string) (item : json)
  : M (list Z * list string) :=
  q <- lift (py_getitem item "question") ;;
  st (StMarkdown ("**Q:** " ++ pstr q)) ;;
  r <- lift (py_getitem item "rating") ;;
  st (StWrite ("**Rating:** " ++ pstr r)) ;;
  e <- lift (py_getitem item "explanation") ;;
  st (StWrite ("**Explanation:** " ++ pstr e)) ;;
  acc' <- (if isdigit (pstr r) then
             score <- lift (py_int r) ;;
             st_progress score ;;
             st (StMarkdown "**Rating Scale:** 1 = Very Poor | 2 = Poor | 3 = Average | 4 = Good | 5 = Excellent") ;;
             label <- lift (slice50_dots q) ;;
             ret ((fst acc ++ [score])%list, (snd acc ++ [label])%list)
           else
             st (StMarkdown "**Rating Scale:** N/A (Not Applicable)") ;;
             ret acc) ;;
  st (StMarkdown "---") ;;
  ret acc'.

(** Lines 166-194: the results, then the chart when a rating was numeric. *)
Definition render_results (parsed : json) : M unit :=
  st (StSubheader "📝 QA Evaluation Results") ;;
  items <- lift (py_iter parsed) ;;
  acc <- for_each render_item ([], []) items ;;
  match fst acc with
  | [] => ret tt
  | _ :: _ =>
      st (StSubheader "📈 Ratings Overview") ;;
      st_pyplot (snd acc) (fst acc)
  end.

(** The handler of lines 196-198. *)
Definition qa_failed (e : exn) : M unit :=
  st (StError "LLaMA evaluation failed.") ;;
  st (StException e).

(** [json.loads(response)] on the content of the completion. *)
Definition loads_content (response : option text) : result json :=
  match response with
  | None => Raise TypeError
  | Some t => of_option JSONDecodeError (json_loads t)
  end.

(** The [try] block of lines 154-198; the value is what the variable
    [parsed] holds afterwards.  [parsed] is assigned inside the block: an
    exception raised before the assignment leaves it at its initial [[]], one
    raised after it leaves the parsed response in place. *)
Definition evaluate_qa (transcript : string) : M json :=
  try_except
    (response <- groq_call (qa_request transcript) ;;
     parsed <- lift (loads_content response) ;;
     try_except (render_results parsed ;; ret parsed)
       is_Exception
       (fun e => qa_failed e ;; ret parsed))
    is_Exception
    (fun e => qa_failed e ;; ret (JArr [])).

(** [TextBlob(transcript)] takes a string only. *)
Definition text_blob (transcript : json) : result string :=
  match transcript with
  | JStr s => Return s
  | _ => Raise TypeError
  end.

(** Lines 125-201; the value is [parsed]. *)
Definition analyze_transcript (details : json) : M json :=
  transcript <- lift (py_get details "transcript" JNull) ;;
  if truthy transcript then
    st (StMarkdown "### 📄 Full Transcript") ;;
    st (StText (pstr transcript)) ;;
    st (StSubheader "😊 Sentiment Analysis") ;;
    blob <- lift (text_blob transcript) ;;
    st (StWrite ("**Polarity:** " ++ polarity_2f blob ++ " (−1 = Negative, +1 = Positive)")) ;;
    st (StWrite ("**Subjectivity:** " ++ subjectivity_2f blob ++ " (0 = Objective, 1 = Subjective)")) ;;
    st (StSubheader "📊 QA Evaluation via LLaMA 4") ;;
    evaluate_qa blob
  else
    st (StInfo "No transcript available for this call.") ;;
    ret (JArr []).

(** *** Export (lines 203-220) *)

(** [pd.DataFrame(data)]: a list of dicts gives one row per dict; [None]
    gives the empty frame; a bare scalar or string is refused; the other
    shapes (a dict, a list with elements that are no dicts) are left to
    pandas. *)
Definition pd_DataFrame (data : json) : result DataFrame :=
  match data with
  | JArr items =>
      match records_of items with
      | Some rs => Return (frame_of_records rs)
      | None => pd_DataFrame_other data
      end
  | JObj _ => pd_DataFrame_other data
  | JNull => Return {| columns := []; rows := [] |}
  | JBool _ | JInt _ | JFloat _ | JStr _ => Raise ValueError
  end.

(** Lines 205-220, the report builder: the two frames, written as the sheets
    [CallData] and [QA Evaluation] of one workbook, offered for download.
    The bytes handed to the button are represented by the workbook they
    encode. *)
Definition export_workbook (structured parsed : json) : M unit :=
  if truthy structured then
    df_call <- lift (pd_DataFrame (JArr [structured])) ;;
    df_qa <- lift (if truthy parsed then pd_DataFrame parsed
                   else pd_DataFrame (JArr [placeholder_row])) ;;
    st (StDownloadButton "📥 Download Full Analysis (CallData + QA)"
          [("CallData", df_call); ("QA Evaluation", df_qa)]
          "call_analysis.xlsx" xlsx_mime)
  else ret tt.

(** *** The transcript action (lines 122-222) *)

(** [details.get('analysis', {}).get('structuredData')] *)
Definition structured_data (details : json) : result json :=
  match py_get details "analysis" (JObj []) with
  | Return analysis => py_get analysis "structuredData" JNull
  | Raise e => Raise e
  end.

Definition show_transcript (call_id : string) : M unit :=
  details <- fetch_call_details call_id ;;
  if truthy details && is_dict details then
    parsed <- analyze_transcript details ;;
    structured <- lift (structured_data details) ;;
    export_workbook structured parsed
  else
    st (StError "Could not fetch details or invalid response.").

(** *** The saved logs (lines 224-231) *)

(** [st.dataframe(logs)] *)
Definition st_dataframe (logs : json) : M unit :=
  match dataframe_error logs with
  | None => st (StDataframe logs)
  | Some e => raise e
  end.

Definition show_logs : M unit :=
  st (StMarkdown "---") ;;
  st (StSubheader "📁 Saved Call Logs") ;;
  logs <- load_logs ;;
  if truthy logs then st_dataframe logs
  else st (StInfo "No calls logged yet.").

(** *** The page (lines 85-231) and the script (lines 233-237) *)

Definition session_state_user : M string :=
  fun w =>
    match session_user w with
    | Some u => (w, Return u)
    | None => (w, Raise AttributeError)
    end.

Definition app_main (i : inputs) : M unit :=
  user <- session_state_user ;;
  st (StSidebarWrite ("Logged in as: `" ++ user ++ "`")) ;;
  st (StSidebarButton "Logout") ;;
  (if logout_clicked i then
     set_session_user None ;;
     raise RerunException
   else ret tt) ;;
  st (StTitle "Campaign Caller") ;;
  st (StForm "call_form") ;;
  st (StTextInput "Customer Number (+E.164)") ;;
  st (StFormSubmitButton "Start Call") ;;
  (if submitted i then start_call (number i) else ret tt) ;;
  st (StMarkdown "---") ;;
  st (StSubheader "Fetch Call Transcripts") ;;
  st (StTextInput "Enter Call ID to fetch") ;;
  st (StButton "Get Transcript") ;;
  (if get_transcript i then show_transcript (call_id i) else ret tt) ;;
  show_logs.

Definition script (i : inputs) : M unit :=
  fun w =>
    match session_user w with
    | None => login i w
    | Some _ => app_main i w
    end.

(** The entries the log file holds: none when it is missing, the elements
    of the array it encodes; [None] when it is no array of JSON. *)
Definition stored_entries (w : world) : option (list json) :=
  match log_file w with
  | Missing => Some []
  | Unreadable => None
  | Content t =>
      match json_loads t with
      | Some (JArr l) => Some l
      | _ => None
      end
  end.

End App.

Arguments world P : clear implicits.

(** ** A laboratory platform

    A platform on which the script can be run inside Rocq: a document is
    either the JSON value it encodes or raw characters that are no JSON; the
    gateway and the chat model are given as functions of the request. *)
Module Lab.

Inductive doc : Type :=
| Raw (s : string)
| Doc (j : json).

Definition doc_loads (d : doc) : option json :=
  match d with
  | Doc j => Some j
  | Raw _ => None
  end.

(** The lab's [st.dataframe] makes a table of a list of dicts and of
    nothing else. *)
Definition table_error (logs : json) : option exception :=
  match logs with
  | JArr items =>
      match records_of items with
      | Some _ => None
      | None => Some StreamlitAPIException
      end
  | _ => Some StreamlitAPIException
  end.

(** The services are given; the codec works on [doc]; the lab's strings
    are ASCII, so that its interpreter knows no other digit. *)
Definition platform (gateway : request -> http_outcome doc)
           (model : chat_request -> chat_outcome doc) : Platform :=
  {| text := doc;
     json_loads := doc_loads;
     json_dumps := Doc;
     response_json := doc_loads;
     API_KEY := Some "key";
     ASSISTANT_ID := Some "assistant";
     PHONE_ID := Some "phone";
     utcnow_isoformat := "2024-05-01T12:00:00";
     requests_send := gateway;
     groq_create := model;
     polarity_2f := fun _ => "0.00";
     subjectivity_2f := fun _ => "0.00";
     str_repr := fun s => "'" ++ s ++ "'";
     float_repr := fun _ => "0.5";
     isdigit_unicode := fun _ => false;
     int_unicode := fun _ => None;
     dict_slice_error := TypeError;
     pd_DataFrame_other := fun _ => Raise ValueError;
     pyplot_error := fun _ _ => None;
     dataframe_error := table_error |}.

Definition gateway_down : request -> http_outcome doc :=
  fun _ => NoResponse RequestException.

Definition model_down : chat_request -> chat_outcome doc :=
  fun _ => ChatFailed APIError.

(** A gateway that answers every request with the same status and body. *)
Definition gateway_says (ok : bool) (body : doc) : request -> http_outcome doc :=
  fun _ => Responded {| resp_ok := ok; resp_body := body |}.

Definition model_says (content : doc) : chat_request -> chat_outcome doc :=
  fun _ => Completion (Some content).

(** No service reachable. *)
Definition offline : Platform := platform gateway_down model_down.

(** The gateway accepts the call and answers [{"id": "abc123"}]. *)
Definition accepting : Platform :=
  platform (gateway_says true (Doc (JObj [("id", JStr "abc123")]))) model_down.

(** The gateway answers with a page that is no JSON. *)
Definition garbled : Platform :=
  platform (gateway_says true (Raw "<html>")) model_down.

(** The call has the transcript of the specification's scenario and no
    analysis; the chat model answers with prose. *)
Definition transcript_only : Platform :=
  platform (gateway_says true (Doc (JObj [("transcript", JStr "Hello, this is...")])))
           (model_says (Raw "Sure! Here is my evaluation:")).

Definition item_without_explanation : json :=
  JObj [("question", JStr "Did the agent speak confidently?"); ("rating", JInt 4)].

(** The chat model answers with one item that has no explanation. *)
Definition incomplete_item : Platform :=
  platform gateway_down (model_says (Doc (JArr [item_without_explanation]))).

(** The chat model answers with two of the twelve questions, the tenth
    before the first, and a field nobody asked for. *)
Definition two_items : list json :=
  [JObj [("question", JStr "Did the agent speak confidently?");
         ("rating", JInt 4);
         ("explanation", JStr "Steady pace, no hesitation.");
         ("confidence", JStr "high")];
   JObj [("question", JStr "Did the agent introduce themselves and identify the dealership during the introduction?");
         ("rating", JStr "N/A");
         ("explanation", JStr "The recording starts after the greeting.")]].

Definition out_of_order : Platform :=
  platform gateway_down (model_says (Doc (JArr two_items))).


(** A logged-in session with the given log file and nothing done yet. *)
Definition fresh (P : Platform) (f : file (@text P)) : world P :=
  {| log_file := f;
     session_user := Some "agent@gmail.com";
     requests_sent := [];
     chats_sent := [];
     rendered := [] |}.

Definition entry1 : json :=
  JObj [("time", JStr "2024-04-30T09:00:00"); ("call_id", JStr "abc123");
        ("number", JStr "+15551234567")].

Definition entry2 : json :=
  JObj [("time", JStr "2024-05-01T12:00:00"); ("call_id", JStr "def456");
        ("number", JStr "+15557654321")].

End Lab.

(** * Vocabulary of the properties *)

(** ** Worlds reached along a run *)

(** The world once a request has gone out. *)
Definition sent {P : Platform} (r : request) (w : world P) : world P :=
  {| log_file := log_file w;
     session_user := session_user w;
     requests_sent := (requests_sent w ++ [r])%list;
     chats_sent := chats_sent w;
     rendered := rendered w |}.

(** The world once the chat model has been asked. *)
Definition asked {P : Platform} (r : chat_request) (w : world P) : world P :=
  {| log_file := log_file w;
     session_user := session_user w;
     requests_sent := requests_sent w;
     chats_sent := (chats_sent w ++ [r])%list;
     rendered := rendered w |}.

(** The world once the gateway has accepted the call and the two widgets
    of lines 106-107 are on the page. *)
Definition call_accepted {P : Platform} (number : string) (data : json) (w : world P)
  : world P :=
  {| log_file := log_file w;
     session_user := session_user w;
     requests_sent := (requests_sent w ++ [start_request number])%list;
     chats_sent := chats_sent w;
     rendered := ((rendered w ++ [StSuccess "Call initiated!"]) ++ [StJson data])%list |}.

(** ** The log *)

(** The log after [start_call] is the log before, or the log before with one
    whole entry behind it. *)
Definition unchanged_or_one_entry {P : Platform} (number : string) (w w' : world P) : Prop :=
  log_file w' = log_file w \/
  exists l id,
    stored_entries w = Some l /\
    log_file w' = Content (json_dumps (JArr (l ++ [log_entry utcnow_isoformat id number])%list)).

(** C1 as the specification words it: the gateway answers with success and
    one entry is appended, or it answers with a failure and the log is
    unchanged. *)
Definition start_call_as_specified {P : Platform} (number : string) (w : world P) : Prop :=
  (exists resp,
      requests_send (start_request number) = Responded resp /\
      resp_ok resp = true /\
      exists l id,
        log_file (fst (start_call number w))
        = Content (json_dumps (JArr (l ++ [log_entry utcnow_isoformat id number])%list))) \/
  (exists resp,
      requests_send (start_request number) = Responded resp /\
      resp_ok resp = false /\
      log_file (fst (start_call number w)) = log_file w).

(** A computation that never writes the log file. *)
Definition keeps_log {P : Platform} {A : Type} (c : M (P := P) A) : Prop :=
  forall w, log_file (fst (c w)) = log_file w.

(** A computation after which the log is what it was, or what it was with
    one entry behind it. *)
Definition appends_at_most_one {P : Platform} {A : Type} (c : M (P := P) A) : Prop :=
  forall w,
    log_file (fst (c w)) = log_file w \/
    exists l entry,
      stored_entries w = Some l /\
      log_file (fst (c w)) = Content (json_dumps (JArr (l ++ [entry])%list)).

(** ** The export *)

(** The QA sheet when no evaluation was run: the three headers and one row. *)
Definition placeholder_frame : DataFrame :=
  {| columns := [JStr "question"; JStr "rating"; JStr "explanation"];
     rows := [[Some (JStr "N/A"); Some (JStr "N/A");
               Some (JStr "No evaluation performed")]] |}.

(** The button of lines 215-220 for a given workbook. *)
Definition download_button (book : workbook) : widget :=
  StDownloadButton "📥 Download Full Analysis (CallData + QA)" book
                   "call_analysis.xlsx" xlsx_mime.

Definition is_download_button (x : widget) : bool :=
  match x with StDownloadButton _ _ _ _ => true | _ => false end.

(** What the export step adds to the page when there is no QA result:
    nothing, or the button with the placeholder QA sheet. *)
Definition export_widgets (structured : json) (df : DataFrame) : list widget :=
  if truthy structured
  then [download_button [("CallData", df); ("QA Evaluation", placeholder_frame)]]
  else [].

(** C7 as the specification words it: the export of empty structured data
    and an empty QA sequence offers a workbook whose QA sheet is the
    placeholder. *)
Definition empty_export_as_specified {P : Platform} (w : world P) : Prop :=
  exists call_sheet label file_name mime,
    In (StDownloadButton label
          [("CallData", call_sheet); ("QA Evaluation", placeholder_frame)]
          file_name mime)
       (rendered (fst (export_workbook (JObj []) (JArr []) w))).

(** C6 as the specification words it: for a call with a transcript and no
    structured data, the sentiment is shown, the chat model is asked for the
    QA evaluation, and a download button is offered. *)
Definition transcript_only_as_specified {P : Platform} (call_id transcript : string)
           (w : world P) : Prop :=
  In (StSubheader "😊 Sentiment Analysis")
     (rendered (fst (show_transcript call_id w))) /\
  In (qa_request transcript) (chats_sent (fst (show_transcript call_id w))) /\
  existsb is_download_button (rendered (fst (show_transcript call_id w))) = true.

(** ** The page, section by section *)

(** Lines 86-96, for a user who does not log out. *)
Definition page_top (user : string) : list widget :=
  [StSidebarWrite ("Logged in as: `" ++ user ++ "`");
   StSidebarButton "Logout";
   StTitle "Campaign Caller";
   StForm "call_form";
   StTextInput "Customer Number (+E.164)";
   StFormSubmitButton "Start Call"].

(** Lines 117-121. *)
Definition fetch_section : list widget :=
  [StMarkdown "---";
   StSubheader "Fetch Call Transcripts";
   StTextInput "Enter Call ID to fetch";
   StButton "Get Transcript"].

(** Lines 225-231, the section of the saved logs: what it puts on the page
    for a given log file, and how it ends.  Below the two headers comes the
    table of what the file decodes to, when that is truthy and Streamlit
    makes a table of it; the section raises what [st.dataframe] raises when
    it does not; and it shows the notice when the file is missing,
    unreadable or no JSON, or decodes to something falsy. *)
Definition logs_section {P : Platform} (w : world P) : list widget * result unit :=
  let notice :=
    ([StMarkdown "---"; StSubheader "📁 Saved Call Logs"; StInfo "No calls logged yet."],
     Return tt) in
  match log_file w with
  | Content t =>
      match json_loads t with
      | Some logs =>
          if truthy logs then
            match dataframe_error logs with
            | None =>
                ([StMarkdown "---"; StSubheader "📁 Saved Call Logs"; StDataframe logs],
                 Return tt)
            | Some e =>
                ([StMarkdown "---"; StSubheader "📁 Saved Call Logs"], Raise e)
            end
          else notice
      | None => notice
      end
  | Missing | Unreadable => notice
  end.

(** Lines 127-139: the transcript and its sentiment. *)
Definition transcript_widgets {P : Platform} (s : string) : list widget :=
  [StMarkdown "### 📄 Full Transcript";
   StText s;
   StSubheader "😊 Sentiment Analysis";
   StWrite ("**Polarity:** " ++ polarity_2f s ++ " (−1 = Negative, +1 = Positive)");
   StWrite ("**Subjectivity:** " ++ subjectivity_2f s ++ " (0 = Objective, 1 = Subjective)");
   StSubheader "📊 QA Evaluation via LLaMA 4"].

(** Lines 197-198: the report of a failed evaluation. *)
Definition qa_failure_widgets (e : exn) : list widget :=
  [StError "LLaMA evaluation failed."; StException e].

(** ** The QA results, item by item *)

Definition scale_legend : string :=
  "**Rating Scale:** 1 = Very Poor | 2 = Poor | 3 = Average | 4 = Good | 5 = Excellent".

(** An item goes through the loop body when it is a dict with the three
    fields and, in case its rating reads as digits, the rating is at most 5
    and the question is a string. *)
Definition renderable {P : Platform} (item : json) : bool :=
  match py_getitem item "question", py_getitem item "rating",
        py_getitem item "explanation" with
  | Return q, Return r, Return _ =>
      if isdigit (pstr r) then
        match py_int r, slice50_dots q with
        | Return score, Return _ => ((0 <=? score) && (score <=? 5))%Z
        | _, _ => false
        end
      else true
  | _, _, _ => false
  end.

(** The score and the label an item adds to the chart. *)
Definition item_rating {P : Platform} (item : json) : list (Z * string) :=
  match py_getitem item "question", py_getitem item "rating" with
  | Return q, Return r =>
      if isdigit (pstr r) then
        match py_int r, slice50_dots q with
        | Return score, Return label => [(score, label)]
        | _, _ => []
        end
      else []
  | _, _ => []
  end.

(** The widgets of one item: its three fields, the meter or the N/A
    legend, a rule. *)
Definition item_widgets {P : Platform} (item : json) : list widget :=
  match py_getitem item "question", py_getitem item "rating",
        py_getitem item "explanation" with
  | Return q, Return r, Return e =>
      [StMarkdown ("**Q:** " ++ pstr q);
       StWrite ("**Rating:** " ++ pstr r);
       StWrite ("**Explanation:** " ++ pstr e)]
      ++ (if isdigit (pstr r) then
            match py_int r with
            | Return score => [StProgress score; StMarkdown scale_legend]
            | Raise _ => []
            end
          else [StMarkdown "**Rating Scale:** N/A (Not Applicable)"])
      ++ [StMarkdown "---"]
  | _, _, _ => []
  end.

(** Lines 187-194: the chart, when an item had a numeric rating. *)
Definition chart_widgets (rated : list (Z * string)) : list widget :=
  match rated with
  | [] => []
  | _ :: _ => [StSubheader "📈 Ratings Overview"; StPyplot (map snd rated) (map fst rated)]
  end.

(** The exception of [st.pyplot] for the chart of the rated items, if
    there is a chart and matplotlib refuses it. *)
Definition chart_error {P : Platform} (rated : list (Z * string)) : option exception :=
  match rated with
  | [] => None
  | _ :: _ => pyplot_error (map snd rated) (map fst rated)
  end.

(** Everything lines 169-194 put on the page for a list of renderable
    items. *)
Definition results_widgets {P : Platform} (items : list json) : list widget :=
  (StSubheader "📝 QA Evaluation Results" :: flat_map item_widgets items
     ++ chart_widgets (flat_map item_rating items))%list.

(** An item that is a dict without one of the three fields. *)
Definition lacks_field (item : json) : bool :=
  match item with
  | JObj fs =>
      match dict_lookup "question" fs, dict_lookup "rating" fs,
            dict_lookup "explanation" fs with
      | Some _, Some _, Some _ => false
      | _, _, _ => true
      end
  | _ => false
  end.

(** What the loop body shows of such an item before it stops. *)
Definition widgets_before_KeyError {P : Platform} (item : json) : list widget :=
  match py_getitem item "question" with
  | Return q =>
      StMarkdown ("**Q:** " ++ pstr q) ::
      match py_getitem item "rating" with
      | Return r => [StWrite ("**Rating:** " ++ pstr r)]
      | Raise _ => []
      end
  | Raise _ => []
  end.

(** C5 as the specification words it: an answer that parses as JSON does
    not make the evaluation fail as a whole, even when an item lacks a
    field. *)
Definition qa_tolerant_as_specified {P : Platform} (transcript : string) (w : world P)
  : Prop :=
  ~ In (StError "LLaMA evaluation failed.") (rendered (fst (evaluate_qa transcript w))).

(** ** The frame of the rendering code *)

(** A widget other than the download button. *)
Definition plain (x : widget) : bool := negb (is_download_button x).

(** [w'] is [w] with plain widgets added to the page and nothing else
    changed. *)
Definition extends {P : Platform} (w w' : world P) : Prop :=
  log_file w' = log_file w /\
  session_user w' = session_user w /\
  requests_sent w' = requests_sent w /\
  chats_sent w' = chats_sent w /\
  exists new, rendered w' = (rendered w ++ new)%list /\ forallb plain new = true.

(** A result that is a value or an ordinary exception. *)
Definition ordinary {A : Type} (r : result A) : Prop :=
  forall e, r = Raise e -> is_Exception e = true.

(** A computation that touches nothing but the page, adds no download
    button to it, and raises, if it raises, an ordinary exception. *)
Definition tame {P : Platform} {A : Type} (c : M (P := P) A) : Prop :=
  forall w, extends w (fst (c w)) /\ ordinary (snd (c w)).

(** ** Vocabulary of the further properties *)

(** [w'] is [w] with no request sent, no chat asked and the log file left
    as it is: only the page and the session may differ. *)
Definition offline_step {P : Platform} (w w' : world P) : Prop :=
  requests_sent w' = requests_sent w /\
  chats_sent w' = chats_sent w /\
  log_file w' = log_file w.

(** How the loop body of lines 170-185 fails on an item: the widgets it has
    put on the page by then and the exception raised; [None] when the item
    goes through.  The body fails at a lookup of a field, at [int], at the
    division of a score past the range of floats, at the meter for a score
    outside the scale, or at the slice of the question. *)
Definition item_failure {P : Platform} (item : json) : option (list widget * exn) :=
  match py_getitem item "question" with
  | Raise e => Some ([], e)
  | Return q =>
      match py_getitem item "rating" with
      | Raise e => Some ([StMarkdown ("**Q:** " ++ pstr q)], e)
      | Return r =>
          match py_getitem item "explanation" with
          | Raise e =>
              Some ([StMarkdown ("**Q:** " ++ pstr q);
                     StWrite ("**Rating:** " ++ pstr r)], e)
          | Return x =>
              let shown := [StMarkdown ("**Q:** " ++ pstr q);
                            StWrite ("**Rating:** " ++ pstr r);
                            StWrite ("**Explanation:** " ++ pstr x)] in
              if isdigit (pstr r) then
                match py_int r with
                | Raise e => Some (shown, e)
                | Return score =>
                    if div5_overflows score then Some (shown, Exc OverflowError)
                    else if ((0 <=? score) && (score <=? 5))%Z then
                      match slice50_dots q with
                      | Raise e =>
                          Some ((shown ++ [StProgress score; StMarkdown scale_legend])%list, e)
                      | Return _ => None
                      end
                    else Some (shown, Exc StreamlitAPIException)
                end
              else None
          end
      end
  end.

(** Inputs and worlds for the examples of the further properties. *)
Module Runs.

Definition nothing_clicked : inputs :=
  {| email := "";
     login_clicked := false;
     logout_clicked := false;
     number := "";
     submitted := false;
     call_id := "";
     get_transcript := false |}.

(** The user typed an address and clicked "Login". *)
Definition login_click : inputs :=
  {| email := "agent@gmail.com";
     login_clicked := true;
     logout_clicked := false;
     number := "";
     submitted := false;
     call_id := "";
     get_transcript := false |}.

(** Every button of the page clicked at once. *)
Definition everything_clicked : inputs :=
  {| email := "agent@gmail.com";
     login_clicked := true;
     logout_clicked := true;
     number := "+15551234567";
     submitted := true;
     call_id := "abc123";
     get_transcript := true |}.

(** The user typed a number and clicked "Start Call". *)
Definition start_click : inputs :=
  {| email := "";
     login_clicked := false;
     logout_clicked := false;
     number := "+15551234567";
     submitted := true;
     call_id := "";
     get_transcript := false |}.

(** The gateway answers every request with success and the JSON list
    [["abc123"]]. *)
Definition answers_with_a_list : Platform :=
  Lab.platform (Lab.gateway_says true (Lab.Doc (JArr [JStr "abc123"]))) Lab.model_down.

(** The call has no transcript yet, and an analysis with structured
    data. *)
Definition outcome_only : Platform :=
  Lab.platform
    (Lab.gateway_says true
       (Lab.Doc (JObj [("transcript", JNull);
                       ("analysis",
                        JObj [("structuredData",
                               JObj [("appointment", JStr "booked")])])])))
    Lab.model_down.

(** The chat model rates one question 4 and the next one 7, above the
    scale. *)
Definition rating_above_scale : list json :=
  [JObj [("question", JStr "Did the agent speak confidently?");
         ("rating", JInt 4);
         ("explanation", JStr "Steady pace.")];
   JObj [("question", JStr "Was the agent professional throughout the call?");
         ("rating", JInt 7);
         ("explanation", JStr "Beyond expectations.")];
   JObj [("question", JStr "Did the agent display active listening skills?");
         ("rating", JInt 5);
         ("explanation", JStr "Repeated the request back.")]].

Definition overrated : Platform :=
  Lab.platform Lab.gateway_down (Lab.model_says (Lab.Doc (JArr rating_above_scale))).

(** The chat model wraps its answer in an object. *)
Definition wrapped_answer : json :=
  JObj [("evaluation", JArr Lab.two_items)].

Definition wrapping : Platform :=
  Lab.platform Lab.gateway_down (Lab.model_says (Lab.Doc wrapped_answer)).

(** Nobody is logged in. *)
Definition anonymous (P : Platform) (f : file (@text P)) : world P :=
  {| log_file := f;
     session_user := None;
     requests_sent := [];
     chats_sent := [];
     rendered := [] |}.

(** The call has no transcript and a null analysis. *)
Definition analysis_null : Platform :=
  Lab.platform
    (Lab.gateway_says true
       (Lab.Doc (JObj [("transcript", JNull); ("analysis", JNull)])))
    Lab.model_down.

(** The transcript comes as a list of turns, not as one string. *)
Definition turns : json :=
  JArr [JObj [("role", JStr "assistant"); ("text", JStr "Hello, this is...")]].

Definition transcript_in_turns : Platform :=
  Lab.platform (Lab.gateway_says true (Lab.Doc (JObj [("transcript", turns)])))
               Lab.model_down.

(** A call with a transcript and structured data. *)
Definition call_details : json :=
  JObj [("transcript", JStr "Hello, this is...");
        ("analysis", JObj [("structuredData", JObj [("appointment", JStr "booked")])])].

(** ... whose evaluation comes back with a rating above the scale. *)
Definition call_overrated : Platform :=
  Lab.platform (Lab.gateway_says true (Lab.Doc call_details))
               (Lab.model_says (Lab.Doc (JArr rating_above_scale))).

(** ... whose evaluation comes back as the JSON string ["N/A"]. *)
Definition call_unrated : Platform :=
  Lab.platform (Lab.gateway_says true (Lab.Doc call_details))
               (Lab.model_says (Lab.Doc (JStr "N/A"))).

(** No environment variable is set; the gateway accepts every call. *)
Definition unconfigured : Platform :=
  {| text := Lab.doc;
     json_loads := Lab.doc_loads;
     json_dumps := Lab.Doc;
     response_json := Lab.doc_loads;
     API_KEY := None;
     ASSISTANT_ID := None;
     PHONE_ID := None;
     utcnow_isoformat := "2024-05-01T12:00:00";
     requests_send := Lab.gateway_says true (Lab.Doc (JObj [("id", JStr "abc123")]));
     groq_create := Lab.model_down;
     polarity_2f := fun _ => "0.00";
     subjectivity_2f := fun _ => "0.00";
     str_repr := fun s => "'" ++ s ++ "'";
     float_repr := fun _ => "0.5";
     isdigit_unicode := fun _ => false;
     int_unicode := fun _ => None;
     dict_slice_error := TypeError;
     pd_DataFrame_other := fun _ => Raise ValueError;
     pyplot_error := fun _ _ => None;
     dataframe_error := Lab.table_error |}.

(** An interpreter whose Unicode tables are asked about one string only,
    the superscript two: a digit, and no decimal.  The chat model rates a
    question with it. *)
Definition superscript_rating : Platform :=
  {| text := Lab.doc;
     json_loads := Lab.doc_loads;
     json_dumps := Lab.Doc;
     response_json := Lab.doc_loads;
     API_KEY := Some "key";
     ASSISTANT_ID := Some "assistant";
     PHONE_ID := Some "phone";
     utcnow_isoformat := "2024-05-01T12:00:00";
     requests_send := Lab.gateway_down;
     groq_create :=
       Lab.model_says
         (Lab.Doc (JArr [JObj [("question", JStr "Did the agent speak confidently?");
                               ("rating", JStr "²");
                               ("explanation", JStr "Twice.")]]));
     polarity_2f := fun _ => "0.00";
     subjectivity_2f := fun _ => "0.00";
     str_repr := fun s => "'" ++ s ++ "'";
     float_repr := fun _ => "0.5";
     isdigit_unicode := fun s => s =? "²";
     int_unicode := fun _ => None;
     dict_slice_error := TypeError;
     pd_DataFrame_other := fun _ => Raise ValueError;
     pyplot_error := fun _ _ => None;
     dataframe_error := Lab.table_error |}.

End Runs.

(** ** Ratings and decimal numerals *)

(** Value of a decimal numeral read from its most significant digit, on top
    of what was read before. *)
Fixpoint uint_value (d : Decimal.uint) (acc : N) : N :=
  match d with
  | Decimal.Nil => acc
  | Decimal.D0 d => uint_value d (0 + 10 * acc)
  | Decimal.D1 d => uint_value d (1 + 10 * acc)
  | Decimal.D2 d => uint_value d (2 + 10 * acc)
  | Decimal.D3 d => uint_value d (3 + 10 * acc)
  | Decimal.D4 d => uint_value d (4 + 10 * acc)
  | Decimal.D5 d => uint_value d (5 + 10 * acc)
  | Decimal.D6 d => uint_value d (6 + 10 * acc)
  | Decimal.D7 d => uint_value d (7 + 10 * acc)
  | Decimal.D8 d => uint_value d (8 + 10 * acc)
  | Decimal.D9 d => uint_value d (9 + 10 * acc)
  end%N.

(** A QA item with its three fields. *)
Definition qa_item (question rating explanation : json) : json :=
  JObj [("question", question); ("rating", rating); ("explanation", explanation)].

(** The three lines every item starts with (lines 171-173). *)
Definition item_lines {P : Platform} (question rating explanation : json) : list widget :=
  [StMarkdown ("**Q:** " ++ pstr question);
   StWrite ("**Rating:** " ++ pstr rating);
   StWrite ("**Explanation:** " ++ pstr explanation)].

(** ** The traffic of a run *)

(** A computation that leaves a component of the world as it is. *)
Definition leaves {P : Platform} {A X : Type} (proj : world P -> X)
           (c : M (P := P) A) : Prop :=
  forall w, proj (fst (c w)) = proj w.

(** A computation that adds [out] to a trace of the world when it ends
    normally, and the part of [out] it got to when it raises. *)
Definition emits {P : Platform} {A X : Type} (proj : world P -> list X) (out : list X)
           (c : M (P := P) A) : Prop :=
  forall w,
    (exists k, proj (fst (c w)) = (proj w ++ firstn k out)%list) /\
    (forall a, snd (c w) = Return a -> proj (fst (c w)) = (proj w ++ out)%list).

(** The requests the two buttons of the page stand for, in the order of the
    page. *)
Definition requests_of_clicks {P : Platform} (i : inputs) : list request :=
  ((if submitted i then [start_request (number i)] else [])
   ++ (if get_transcript i then [fetch_request (call_id i)] else []))%list.

(** A computation that asks the chat model at most once, for a QA
    evaluation, and only when [clicked] holds. *)
Definition asks_at_most_once {P : Platform} {A : Type} (clicked : bool)
           (c : M (P := P) A) : Prop :=
  forall w,
    chats_sent (fst (c w)) = chats_sent w \/
    (clicked = true /\
     exists s, chats_sent (fst (c w)) = (chats_sent w ++ [qa_request s])%list).

(** ** The export of an evaluation *)

(** A value that is no container: a boolean, a number or a string. *)
Definition scalar (v : json) : bool :=
  match v with
  | JBool _ | JInt _ | JFloat _ | JStr _ => true
  | JNull | JArr _ | JObj _ => false
  end.

(** * Properties *)

(** ** The model at work on small inputs *)

Example isdigit_examples :
  isdigit (P := Lab.offline) "5" = true /\
  isdigit (P := Lab.offline) "007" = true /\
  isdigit (P := Lab.offline) "" = false /\
  isdigit (P := Lab.offline) "N/A" = false /\
  isdigit (P := Lab.offline) "-1" = false /\
  isdigit (P := Lab.offline) "4.0" = false.
Proof. repeat split. Qed.

Example take_chars_examples :
  take_chars 3 "abcdef" = "abc" /\ take_chars 3 "née Smith" = "née" /\
  take_chars 50 "short" = "short" /\ take_chars 0 "abc" = "" /\
  String.length (take_chars 3 "née Smith") = 4%nat.
Proof. repeat split. Qed.

Example chars_examples :
  chars "née" = ["n"; "é"; "e"] /\ chars "" = [] /\ chars "ab" = ["a"; "b"].
Proof. repeat split. Qed.

Example div5_overflows_examples :
  div5_overflows 7 = false /\ div5_overflows (10 ^ 308) = false /\
  div5_overflows (10 ^ 400) = true /\
  div5_overflows (5 * (2 ^ 1024 - 2 ^ 970) - 1) = false /\
  div5_overflows (5 * (2 ^ 1024 - 2 ^ 970)) = true.
Proof. repeat split; vm_compute; reflexivity. Qed.

Example digits_value_examples :
  digits_value "5" = 5%Z /\ digits_value "007" = 7%Z /\ digits_value "10" = 10%Z.
Proof. repeat split. Qed.

Example int_str_examples :
  int_str 0 = "0" /\ int_str 42 = "42" /\ int_str (-7) = "-7".
Proof. repeat split. Qed.

Example endswith_examples :
  endswith "agent@gmail.com" "@gmail.com" = true /\
  endswith "agent@example.com" "@gmail.com" = false /\
  endswith "com" "@gmail.com" = false.
Proof. repeat split. Qed.

Example truthy_examples :
  truthy JNull = false /\ truthy (JObj []) = false /\ truthy (JArr []) = false /\
  truthy (JStr "") = false /\ truthy (JInt 0) = false /\
  truthy (JArr [JNull]) = true /\ truthy (JStr "0") = true.
Proof. repeat split. Qed.

Example py_str_examples :
  pstr (P := Lab.offline) (JStr "N/A") = "N/A" /\
  pstr (P := Lab.offline) (JInt 4) = "4" /\
  pstr (P := Lab.offline) JNull = "None" /\
  pstr (P := Lab.offline) (JBool true) = "True" /\
  pstr (P := Lab.offline) (JArr [JInt 1; JStr "a"]) = "[1, 'a']" /\
  pstr (P := Lab.offline) (JObj [("k", JInt 1)]) = "{'k': 1}".
Proof. repeat split. Qed.

Example frame_of_records_example :
  frame_of_records [[("a", JInt 1); ("b", JInt 2)]; [("b", JInt 3); ("c", JInt 4)]]
  = {| columns := [JStr "a"; JStr "b"; JStr "c"];
       rows := [[Some (JInt 1); Some (JInt 2); None];
                [None; Some (JInt 3); Some (JInt 4)]] |}.
Proof. reflexivity. Qed.

Example login_accepts_gmail :
  login (P := Lab.offline)
    {| email := "agent@gmail.com"; login_clicked := true; logout_clicked := false;
       number := ""; submitted := false; call_id := ""; get_transcript := false |}
    {| log_file := Missing; session_user := None; requests_sent := [];
       chats_sent := []; rendered := [] |}
  = ({| log_file := Missing; session_user := Some "agent@gmail.com";
        requests_sent := []; chats_sent := [];
        rendered := [StTitle "Login"; StTextInput "Enter your Gmail address";
                     StButton "Login"] |},
     Raise RerunException).
Proof. reflexivity. Qed.

Example save_log_on_a_dict_raises :
  save_log Lab.entry2 (Lab.fresh Lab.offline (Content (Lab.Doc (JObj []))))
  = (Lab.fresh Lab.offline (Content (Lab.Doc (JObj []))), Raise AttributeError).
Proof. reflexivity. Qed.

Example rating_above_the_scale_fails :
  rendered (fst (evaluate_qa "Hello, this is..."
                   (Lab.fresh
                      (Lab.platform Lab.gateway_down
                         (Lab.model_says
                            (Lab.Doc (JArr [JObj [("question", JStr "Q");
                                                  ("rating", JInt 7);
                                                  ("explanation", JStr "E")]]))))
                      Missing)))
  = [StSubheader "📝 QA Evaluation Results";
     StMarkdown "**Q:** Q";
     StWrite "**Rating:** 7";
     StWrite "**Explanation:** E";
     StError "LLaMA evaluation failed.";
     StException StreamlitAPIException].
Proof. reflexivity. Qed.

Example superscript_rating_fails :
  rendered (fst (evaluate_qa "Hello, this is..." (Lab.fresh Runs.superscript_rating Missing)))
  = [StSubheader "📝 QA Evaluation Results";
     StMarkdown "**Q:** Did the agent speak confidently?";
     StWrite "**Rating:** ²";
     StWrite "**Explanation:** Twice.";
     StError "LLaMA evaluation failed.";
     StException ValueError].
Proof. reflexivity. Qed.

Example rating_past_the_floats_fails :
  rendered (fst (evaluate_qa "Hello, this is..."
                   (Lab.fresh
                      (Lab.platform Lab.gateway_down
                         (Lab.model_says
                            (Lab.Doc (JArr [JObj [("question", JStr "Q");
                                                  ("rating", JInt (10 ^ 400));
                                                  ("explanation", JStr "E")]]))))
                      Missing)))
  = [StSubheader "📝 QA Evaluation Results";
     StMarkdown "**Q:** Q";
     StWrite ("**Rating:** " ++ int_str (10 ^ 400));
     StWrite "**Explanation:** E";
     StError "LLaMA evaluation failed.";
     StException OverflowError].
Proof. vm_compute. reflexivity. Qed.

Example label_of_an_accented_question :
  slice50_dots (P := Lab.offline)
    (JStr "Était-ce que l'agent a présenté la concession à l'appelant dès le début ?")
  = Return "Était-ce que l'agent a présenté la concession à l'...".
Proof. reflexivity. Qed.

Example stray_entry_in_the_log :
  (exists e : exception,
      snd (script Runs.start_click
             (Lab.fresh Lab.accepting (Content (Lab.Doc (JArr [Lab.entry1; JInt 3])))))
      = Raise e) /\
  stored_entries
    (fst (script Runs.start_click
            (Lab.fresh Lab.accepting (Content (Lab.Doc (JArr [Lab.entry1; JInt 3]))))))
  = Some [Lab.entry1; JInt 3;
          log_entry "2024-05-01T12:00:00" (JStr "abc123") "+15551234567"].
Proof. split; [eexists|]; reflexivity. Qed.

(** ** Running a computation *)

Lemma render_render {P : Platform} (w : world P) xs ys :
  render ys (render xs w) = render (xs ++ ys) w.
Proof. unfold render. simpl. rewrite app_assoc. reflexivity. Qed.

Lemma bind_st {P : Platform} {A : Type} (x : widget) (k : unit -> M A) (w : world P) :
  bind (st x) k w = k tt (render [x] w).
Proof. reflexivity. Qed.

Lemma bind_lift_Return {P : Platform} {A B : Type} (a : A) (k : A -> M B) (w : world P) :
  bind (lift (Return a)) k w = k a w.
Proof. reflexivity. Qed.

Lemma bind_lift_Raise {P : Platform} {A B : Type} (e : exn) (k : A -> M B) (w : world P) :
  bind (lift (Raise e)) k w = (w, Raise e).
Proof. reflexivity. Qed.

Lemma bind_ret {P : Platform} {A B : Type} (a : A) (k : A -> M B) (w : world P) :
  bind (ret a) k w = k a w.
Proof. reflexivity. Qed.

Lemma rendered_render {P : Platform} (xs : list widget) (w : world P) :
  rendered (render xs w) = (rendered w ++ xs)%list.
Proof. reflexivity. Qed.

Lemma log_file_render {P : Platform} (xs : list widget) (w : world P) :
  log_file (render xs w) = log_file w.
Proof. reflexivity. Qed.

Lemma stored_entries_render {P : Platform} (xs : list widget) (w : world P) :
  stored_entries (render xs w) = stored_entries w.
Proof. reflexivity. Qed.

Lemma requests_render {P : Platform} (xs : list widget) (w : world P) :
  requests_sent (render xs w) = requests_sent w.
Proof. reflexivity. Qed.

Lemma chats_render {P : Platform} (xs : list widget) (w : world P) :
  chats_sent (render xs w) = chats_sent w.
Proof. reflexivity. Qed.

Lemma rendered_sent {P : Platform} (r : request) (w : world P) :
  rendered (sent r w) = rendered w.
Proof. reflexivity. Qed.

Lemma log_file_sent {P : Platform} (r : request) (w : world P) :
  log_file (sent r w) = log_file w.
Proof. reflexivity. Qed.

Lemma requests_sent_sent {P : Platform} (r : request) (w : world P) :
  requests_sent (sent r w) = (requests_sent w ++ [r])%list.
Proof. reflexivity. Qed.

Lemma chats_sent_sent {P : Platform} (r : request) (w : world P) :
  chats_sent (sent r w) = chats_sent w.
Proof. reflexivity. Qed.

Lemma rendered_asked {P : Platform} (r : chat_request) (w : world P) :
  rendered (asked r w) = rendered w.
Proof. reflexivity. Qed.

Lemma log_file_asked {P : Platform} (r : chat_request) (w : world P) :
  log_file (asked r w) = log_file w.
Proof. reflexivity. Qed.

Lemma requests_asked {P : Platform} (r : chat_request) (w : world P) :
  requests_sent (asked r w) = requests_sent w.
Proof. reflexivity. Qed.

Lemma chats_asked {P : Platform} (r : chat_request) (w : world P) :
  chats_sent (asked r w) = (chats_sent w ++ [r])%list.
Proof. reflexivity. Qed.

Create Rewrite HintDb project.

#[local] Hint Rewrite @rendered_render @log_file_render @requests_render @chats_render
  @rendered_sent @log_file_sent @requests_sent_sent @chats_sent_sent
  @rendered_asked @log_file_asked @requests_asked @chats_asked : project.

Lemma render_render_nil {P : Platform} (w : world P) : render [] w = w.
Proof. unfold render. rewrite app_nil_r. destruct w; reflexivity. Qed.

(** ** Log store *)

Lemma lab_round_trip gateway model : JsonRoundTrip (Lab.platform gateway model).
Proof. intro j. reflexivity. Qed.

Lemma save_log_missing {P : Platform} (w : world P) (entry : json) :
  log_file w = Missing ->
  save_log entry w =
    ({| log_file := Content (json_dumps (JArr [entry]));
        session_user := session_user w;
        requests_sent := requests_sent w;
        chats_sent := chats_sent w;
        rendered := rendered w |}, Return tt).
Proof.
  intros Hm. unfold save_log, bind, try_except, json_load_log.
  rewrite Hm. reflexivity.
Qed.

Lemma save_log_array {P : Platform} (w : world P) (entry : json) t l :
  log_file w = Content t -> json_loads t = Some (JArr l) ->
  save_log entry w =
    ({| log_file := Content (json_dumps (JArr (l ++ [entry])%list));
        session_user := session_user w;
        requests_sent := requests_sent w;
        chats_sent := chats_sent w;
        rendered := rendered w |}, Return tt).
Proof.
  intros Hc Hl. unfold save_log, bind, try_except, json_load_log.
  rewrite Hc, Hl. reflexivity.
Qed.

(** When the file holds no array of JSON and is not missing, [save_log]
    raises before it writes. *)
Lemma save_log_ill_formed {P : Platform} (w : world P) (entry : json) :
  stored_entries w = None ->
  exists e, save_log entry w = (w, Raise e).
Proof.
  unfold stored_entries, save_log, bind, try_except, json_load_log.
  destruct (log_file w) as [| |t]; try discriminate.
  - intros _. exists PermissionError. reflexivity.
  - destruct (json_loads t) as [j|].
    + destruct j; try discriminate; intros _; exists AttributeError; reflexivity.
    + intros _. exists JSONDecodeError. reflexivity.
Qed.

Lemma save_log_well_formed {P : Platform} (w : world P) (entry : json) l :
  stored_entries w = Some l ->
  save_log entry w =
    ({| log_file := Content (json_dumps (JArr (l ++ [entry])%list));
        session_user := session_user w;
        requests_sent := requests_sent w;
        chats_sent := chats_sent w;
        rendered := rendered w |}, Return tt).
Proof.
  unfold stored_entries. intros H.
  destruct (log_file w) as [| |t] eqn:Hf; try discriminate.
  - injection H as <-. now apply save_log_missing.
  - destruct (json_loads t) as [j|] eqn:Hl; try discriminate.
    destruct j; try discriminate. injection H as <-.
    now apply save_log_array with (t := t).
Qed.

Lemma load_logs_unchanged {P : Platform} (w : world P) :
  fst (load_logs w) = w.
Proof.
  unfold load_logs, try_except, json_load_log.
  destruct (log_file w) as [| |t]; try reflexivity.
  destruct (json_loads t); reflexivity.
Qed.

Lemma load_logs_returns {P : Platform} (w : world P) :
  exists logs, load_logs w = (w, Return logs).
Proof.
  unfold load_logs, try_except, json_load_log.
  destruct (log_file w) as [| |t]; try (eexists; reflexivity).
  destruct (json_loads t); eexists; reflexivity.
Qed.

(** C2: whatever the state of the store file, [load_logs] returns a value
    and raises nothing: the empty list when the file is missing, unreadable
    or holds no JSON, and the decoded content when it parses. *)
Theorem load_logs_never_raises {P : Platform} (w : world P) :
  exists logs,
    load_logs w = (w, Return logs) /\
    (log_file w = Missing -> logs = JArr []) /\
    (log_file w = Unreadable -> logs = JArr []) /\
    (forall t, log_file w = Content t -> json_loads t = None -> logs = JArr []) /\
    (forall t j, log_file w = Content t -> json_loads t = Some j -> logs = j).
Proof.
  unfold load_logs, try_except, json_load_log.
  destruct (log_file w) as [| |t] eqn:Hf.
  - exists (JArr []). repeat split; congruence.
  - exists (JArr []). repeat split; congruence.
  - destruct (json_loads t) as [j|] eqn:Hl.
    + exists j. repeat split; congruence.
    + exists (JArr []). repeat split; congruence.
Qed.

Lemma load_logs_never_raises_witness :
  load_logs (Lab.fresh Lab.offline
               (Content (Lab.Raw "{not json")))
  = (Lab.fresh Lab.offline
       (Content (Lab.Raw "{not json")), Return (JArr [])).
Proof.
  destruct (load_logs_never_raises
              (Lab.fresh Lab.offline
                 (Content (Lab.Raw "{not json"))))
    as [logs [Hrun [_ [_ [Hbad _]]]]].
  rewrite Hrun. f_equal. f_equal.
  exact (Hbad _ eq_refl eq_refl).
Defined.

(** C10: when the log file exists and its content is no JSON, [save_log]
    raises the decoding error to its caller and writes nothing (the world is
    the one it started from); the only failure of the read it absorbs is a
    missing file, which it treats as an empty log. *)
Theorem save_log_unparsable_store_raises {P : Platform} (w : world P) (entry : json) :
  (forall t, log_file w = Content t -> json_loads t = None ->
             save_log entry w = (w, Raise JSONDecodeError)) /\
  (log_file w = Missing ->
   snd (save_log entry w) = Return tt /\
   log_file (fst (save_log entry w)) = Content (json_dumps (JArr [entry]))).
Proof.
  split.
  - intros t Hc Hl. unfold save_log, bind, try_except, json_load_log.
    rewrite Hc, Hl. reflexivity.
  - intros Hm. rewrite (save_log_missing w entry Hm). split; reflexivity.
Qed.

Lemma save_log_unparsable_store_raises_witness :
  save_log Lab.entry2
    (Lab.fresh Lab.offline
       (Content (Lab.Raw "[{time: ")))
  = (Lab.fresh Lab.offline
       (Content (Lab.Raw "[{time: ")), Raise JSONDecodeError).
Proof.
  exact (proj1 (save_log_unparsable_store_raises
                  (Lab.fresh Lab.offline
                     (Content (Lab.Raw "[{time: "))) Lab.entry2)
               _ eq_refl eq_refl).
Defined.

(** C3: on a well-formed store (missing, or holding a list [l] of entries),
    [save_log entry] followed by [load_logs] returns [l ++ [entry]], a
    sequence whose last element is the appended entry. *)
Theorem save_then_load_round_trip {P : Platform} (RT : JsonRoundTrip P)
        (w : world P) (entry : json) (l : list json) :
  stored_entries w = Some l ->
  snd (save_log entry w) = Return tt /\
  snd (load_logs (fst (save_log entry w))) = Return (JArr (l ++ [entry])%list) /\
  last (l ++ [entry])%list JNull = entry.
Proof.
  intros Hl. rewrite (save_log_well_formed w entry l Hl).
  split; [reflexivity|]. split.
  - unfold load_logs, try_except, json_load_log. simpl.
    rewrite loads_dumps. reflexivity.
  - apply last_last.
Qed.

Lemma save_then_load_round_trip_witness :
  stored_entries (Lab.fresh Lab.offline
                    (Content (Lab.Doc (JArr [Lab.entry1]))))
  = Some [Lab.entry1] /\
  snd (load_logs
         (fst (save_log Lab.entry2
                 (Lab.fresh Lab.offline
                    (Content (Lab.Doc (JArr [Lab.entry1])))))))
  = Return (JArr [Lab.entry1; Lab.entry2]).
Proof.
  split; [reflexivity|].
  exact (proj1 (proj2 (save_then_load_round_trip
                  (lab_round_trip Lab.gateway_down Lab.model_down)
                  (Lab.fresh Lab.offline
                     (Content (Lab.Doc (JArr [Lab.entry1]))))
                  Lab.entry2 [Lab.entry1] eq_refl))).
Defined.

(** ** Gateway client *)

Lemma fetch_call_details_decoded {P : Platform} (call_id : string) (w : world P) resp j :
  requests_send (fetch_request call_id) = Responded resp ->
  resp_ok resp = true ->
  response_json (resp_body resp) = Some j ->
  fetch_call_details call_id w = (sent (fetch_request call_id) w, Return j).
Proof.
  intros Hs Hok Hj.
  unfold fetch_call_details, bind, requests_call, try_except, lift.
  rewrite Hs, Hok, Hj. reflexivity.
Qed.

(** C8: [fetch_call_details] sends exactly one request, a GET of the call's
    URL with a timeout of 10, whatever comes back (no retry).  On a
    non-success status it reports the failed fetch and returns [None]; on a
    success status with a body that neither [Response.json] nor [json.loads]
    can decode it reports the undecodable body and returns [None]. *)
Theorem fetch_call_details_single_attempt {P : Platform} (call_id : string) (w : world P) :
  requests_sent (fst (fetch_call_details call_id w))
  = (requests_sent w ++ [fetch_request call_id])%list /\
  req_method (fetch_request call_id) = GET /\
  req_url (fetch_request call_id) = "https://api.vapi.ai/call/" ++ call_id /\
  req_timeout (fetch_request call_id) = Some 10%Z /\
  (forall resp,
      requests_send (fetch_request call_id) = Responded resp ->
      resp_ok resp = false ->
      snd (fetch_call_details call_id w) = Return JNull /\
      rendered (fst (fetch_call_details call_id w))
      = (rendered w ++ [StError "Failed to fetch call details."])%list) /\
  (forall resp,
      requests_send (fetch_request call_id) = Responded resp ->
      resp_ok resp = true ->
      response_json (resp_body resp) = None ->
      json_loads (resp_body resp) = None ->
      snd (fetch_call_details call_id w) = Return JNull /\
      rendered (fst (fetch_call_details call_id w))
      = (rendered w ++ [StError "Could not parse API response as JSON."])%list).
Proof.
  split; [|split; [reflexivity|split; [reflexivity|split; [reflexivity|split]]]].
  - unfold fetch_call_details, bind, requests_call, try_except, lift.
    destruct (requests_send (fetch_request call_id)) as [resp|e]; [|reflexivity].
    destruct (resp_ok resp); [|reflexivity].
    destruct (response_json (resp_body resp)); [reflexivity|].
    destruct (json_loads (resp_body resp)); reflexivity.
  - intros resp Hs Hok.
    unfold fetch_call_details, bind, requests_call. rewrite Hs, Hok.
    split; reflexivity.
  - intros resp Hs Hok Hj Hl.
    unfold fetch_call_details, bind, requests_call, try_except, lift.
    rewrite Hs, Hok, Hj. simpl. rewrite Hl. split; reflexivity.
Qed.

Lemma fetch_call_details_single_attempt_witness :
  let w := Lab.fresh Lab.garbled Missing in
  snd (fetch_call_details "abc123" w) = Return JNull /\
  rendered (fst (fetch_call_details "abc123" w))
  = [StError "Could not parse API response as JSON."].
Proof.
  exact (proj2 (proj2 (proj2 (proj2 (proj2
           (fetch_call_details_single_attempt
              "abc123" (Lab.fresh Lab.garbled Missing))))))
           _ eq_refl eq_refl eq_refl eq_refl).
Defined.

(** ** Start of a call *)

Lemma start_call_accepted {P : Platform} (number : string) (w : world P) resp fs :
  requests_send (start_request number) = Responded resp ->
  resp_ok resp = true ->
  response_json (resp_body resp) = Some (JObj fs) ->
  start_call number w
  = save_log (log_entry utcnow_isoformat (dict_get fs "id" JNull) number)
      (call_accepted number (JObj fs) w).
Proof.
  intros Hs Hok Hj.
  unfold start_call at 1. unfold bind at 1. unfold requests_call.
  rewrite Hs, Hok. unfold bind at 1. unfold lift at 1. rewrite Hj. reflexivity.
Qed.

Lemma start_call_refused {P : Platform} (number : string) (w : world P) resp :
  requests_send (start_request number) = Responded resp ->
  resp_ok resp = false ->
  start_call number w
  = (render [StError "Error: Unable to start call."] (sent (start_request number) w),
     Return tt).
Proof.
  intros Hs Hok. unfold start_call, bind, requests_call. rewrite Hs, Hok. reflexivity.
Qed.

Lemma start_call_no_partial_entry {P : Platform} (number : string) (w : world P) :
  unchanged_or_one_entry number w (fst (start_call number w)).
Proof.
  destruct (requests_send (start_request number)) as [resp|e] eqn:Hs.
  - destruct (resp_ok resp) eqn:Hok.
    + destruct (response_json (resp_body resp)) as [data|] eqn:Hj.
      * destruct data as [| | | | |items|fs];
          try (left; unfold start_call, bind, requests_call, lift;
               rewrite Hs, Hok, Hj; reflexivity).
        rewrite (start_call_accepted number w resp fs Hs Hok Hj).
        destruct (stored_entries (call_accepted number (JObj fs) w)) as [l|] eqn:He.
        -- right. exists l, (dict_get fs "id" JNull). split; [exact He|].
           rewrite (save_log_well_formed _ _ l He). reflexivity.
        -- left. destruct (save_log_ill_formed _ (log_entry utcnow_isoformat
                             (dict_get fs "id" JNull) number) He) as [e Hr].
           rewrite Hr. reflexivity.
      * left. unfold start_call, bind, requests_call, lift.
        rewrite Hs, Hok, Hj. reflexivity.
    + left. rewrite (start_call_refused number w resp Hs Hok). reflexivity.
  - left. unfold start_call, bind, requests_call. rewrite Hs. reflexivity.
Qed.

(** The gateway accepts the call and returns its id, but the log file holds
    text that is no JSON: [save_log] raises, nothing is appended. *)
Lemma start_call_as_specified_fails :
  ~ start_call_as_specified "+15551234567"
      (Lab.fresh Lab.accepting (Content (Lab.Raw "[{time: "))).
Proof.
  intros [[resp [_ [_ [l [id H]]]]] | [resp [Hs [Hok _]]]].
  - vm_compute in H. discriminate H.
  - injection Hs as <-. discriminate Hok.
Qed.

(** C1, amended: [start_call] leaves the log either unchanged or longer
    by one whole entry [{time, call_id, number}].  The entry is appended
    when the gateway answers with success and a JSON object and the store is
    missing or holds a list; its [call_id] is the object's [id], or [None].
    On a non-success answer the failure is reported and the log is left
    unchanged. *)
Theorem start_call_log_effect {P : Platform} (RT : JsonRoundTrip P)
        (number : string) (w : world P) :
  unchanged_or_one_entry number w (fst (start_call number w)) /\
  (forall resp fs l,
      requests_send (start_request number) = Responded resp ->
      resp_ok resp = true ->
      response_json (resp_body resp) = Some (JObj fs) ->
      stored_entries w = Some l ->
      snd (start_call number w) = Return tt /\
      stored_entries (fst (start_call number w))
      = Some (l ++ [log_entry utcnow_isoformat (dict_get fs "id" JNull) number])%list) /\
  (forall resp,
      requests_send (start_request number) = Responded resp ->
      resp_ok resp = false ->
      snd (start_call number w) = Return tt /\
      log_file (fst (start_call number w)) = log_file w /\
      rendered (fst (start_call number w))
      = (rendered w ++ [StError "Error: Unable to start call."])%list).
Proof.
  split; [apply start_call_no_partial_entry|]. split.
  - intros resp fs l Hs Hok Hj Hl.
    rewrite (start_call_accepted number w resp fs Hs Hok Hj).
    assert (He : stored_entries (call_accepted number (JObj fs) w) = Some l) by exact Hl.
    rewrite (save_log_well_formed _ _ l He). split; [reflexivity|].
    unfold stored_entries. simpl. rewrite loads_dumps. reflexivity.
  - intros resp Hs Hok. rewrite (start_call_refused number w resp Hs Hok).
    repeat split.
Qed.

Lemma start_call_log_effect_witness :
  let w := Lab.fresh Lab.accepting Missing in
  snd (start_call "+15551234567" w) = Return tt /\
  stored_entries (fst (start_call "+15551234567" w))
  = Some [JObj [("time", JStr "2024-05-01T12:00:00");
                ("call_id", JStr "abc123");
                ("number", JStr "+15551234567")]].
Proof.
  exact (proj1 (proj2 (start_call_log_effect
                  (lab_round_trip _ _) "+15551234567"
                  (Lab.fresh Lab.accepting Missing)))
               _ [("id", JStr "abc123")] [] eq_refl eq_refl eq_refl eq_refl).
Defined.

(** ** Report builder *)

Lemma placeholder_sheet {P : Platform} :
  pd_DataFrame (JArr [placeholder_row]) = Return placeholder_frame.
Proof. reflexivity. Qed.

Lemma export_workbook_nothing {P : Platform} (structured parsed : json) (w : world P) :
  truthy structured = false ->
  export_workbook structured parsed w = (w, Return tt).
Proof. intros H. unfold export_workbook. rewrite H. reflexivity. Qed.

(** With [{}] and [[]] the guard of line 205 skips the export: the step
    succeeds and no workbook is built. *)
Lemma empty_export_builds_no_workbook :
  export_workbook (JObj []) (JArr []) (Lab.fresh Lab.offline Missing)
  = (Lab.fresh Lab.offline Missing, Return tt) /\
  ~ empty_export_as_specified (Lab.fresh Lab.offline Missing).
Proof.
  split; [reflexivity|].
  intros [call_sheet [label [file_name [mime H]]]]. exact H.
Qed.

(** C7, amended: the export step never raises for missing data.  With
    structured data that is empty or absent it succeeds and builds no
    workbook, whatever the QA results.  With a non-empty mapping of
    structured data and no QA result, it succeeds and offers a workbook of
    two sheets: [CallData] with one row of the structured fields, and
    [QA Evaluation] with exactly the one placeholder row. *)
Theorem export_workbook_placeholder {P : Platform} (w : world P)
        (structured parsed : json) :
  (truthy structured = false ->
   export_workbook structured parsed w = (w, Return tt)) /\
  (forall fs,
      structured = JObj fs -> fs <> [] -> truthy parsed = false ->
      snd (export_workbook structured parsed w) = Return tt /\
      rendered (fst (export_workbook structured parsed w))
      = (rendered w ++
         [download_button [("CallData", frame_of_records [fs]);
                           ("QA Evaluation", placeholder_frame)]])%list /\
      rows placeholder_frame
      = [[Some (JStr "N/A"); Some (JStr "N/A"); Some (JStr "No evaluation performed")]]).
Proof.
  split; [apply export_workbook_nothing|].
  intros fs -> Hne Hp. unfold export_workbook.
  destruct fs as [|f fs']; [contradiction|]. simpl truthy. cbv iota.
  rewrite Hp. repeat split.
Qed.

Lemma export_workbook_placeholder_witness :
  rendered (fst (export_workbook (JObj [("appointment", JStr "booked")]) (JArr [])
                   (Lab.fresh Lab.offline Missing)))
  = [download_button
       [("CallData",
         {| columns := [JStr "appointment"]; rows := [[Some (JStr "booked")]] |});
        ("QA Evaluation",
         {| columns := [JStr "question"; JStr "rating"; JStr "explanation"];
            rows := [[Some (JStr "N/A"); Some (JStr "N/A");
                      Some (JStr "No evaluation performed")]] |})]].
Proof.
  refine (proj1 (proj2 (proj2 (export_workbook_placeholder
                   (Lab.fresh Lab.offline Missing)
                   (JObj [("appointment", JStr "booked")]) (JArr []))
                [("appointment", JStr "booked")] eq_refl _ eq_refl))).
  discriminate.
Defined.

(** ** Frame of the rendering code

    The code that renders the QA results is [tame]; the lemmas below
    establish it combinator by combinator. *)

Create HintDb tame.

Lemma extends_refl {P : Platform} (w : world P) : extends w w.
Proof.
  repeat split. exists []. split; [symmetry; apply app_nil_r | reflexivity].
Qed.

Lemma extends_trans {P : Platform} (w1 w2 w3 : world P) :
  extends w1 w2 -> extends w2 w3 -> extends w1 w3.
Proof.
  intros [Hl1 [Hu1 [Hr1 [Hc1 [n1 [Hn1 Hp1]]]]]] [Hl2 [Hu2 [Hr2 [Hc2 [n2 [Hn2 Hp2]]]]]].
  repeat split; try congruence.
  exists (n1 ++ n2)%list. split.
  - rewrite Hn2, Hn1. symmetry. apply app_assoc.
  - rewrite forallb_app, Hp1, Hp2. reflexivity.
Qed.

Lemma ordinary_Return {A : Type} (a : A) : ordinary (Return a).
Proof. intros e H. discriminate H. Qed.

Lemma ordinary_Exc {A : Type} (e : exception) : ordinary (@Raise A e).
Proof. intros e' H. injection H as <-. reflexivity. Qed.

Lemma ordinary_py_getitem (v : json) (k : string) : ordinary (py_getitem v k).
Proof.
  destruct v; try apply ordinary_Exc. simpl.
  destruct (dict_lookup k fields); [apply ordinary_Return | apply ordinary_Exc].
Qed.

Lemma ordinary_py_int {P : Platform} (v : json) : ordinary (py_int v).
Proof.
  destruct v; simpl; try apply ordinary_Exc; try apply ordinary_Return.
  - destruct f; simpl; try apply ordinary_Exc; apply ordinary_Return.
  - unfold str_int. destruct (is_ascii s).
    + destruct (ascii_isdigit s); [apply ordinary_Return | apply ordinary_Exc].
    + destruct (int_unicode s); [apply ordinary_Return | apply ordinary_Exc].
Qed.

Lemma ordinary_slice50_dots {P : Platform} (v : json) : ordinary (slice50_dots v).
Proof. destruct v; simpl; try apply ordinary_Exc; apply ordinary_Return. Qed.

Lemma ordinary_py_iter (v : json) : ordinary (py_iter v).
Proof. destruct v; simpl; try apply ordinary_Exc; apply ordinary_Return. Qed.

#[local] Hint Resolve ordinary_Return ordinary_Exc ordinary_py_getitem ordinary_py_int
  ordinary_slice50_dots ordinary_py_iter : tame.

Lemma tame_ret {P : Platform} {A : Type} (a : A) : tame (P := P) (ret a).
Proof. intros w. split; [apply extends_refl | apply ordinary_Return]. Qed.

Lemma tame_raise {P : Platform} {A : Type} (e : exception) : tame (P := P) (@raise _ A e).
Proof. intros w. split; [apply extends_refl | apply ordinary_Exc]. Qed.

Lemma tame_lift {P : Platform} {A : Type} (r : result A) :
  ordinary r -> tame (P := P) (lift r).
Proof. intros Hr w. split; [apply extends_refl | exact Hr]. Qed.

Lemma tame_st {P : Platform} (x : widget) :
  plain x = true -> tame (P := P) (st x).
Proof.
  intros Hx w. split; [|apply ordinary_Return].
  repeat split. exists [x]. split; [reflexivity|]. simpl. rewrite Hx. reflexivity.
Qed.

Lemma tame_bind {P : Platform} {A B : Type} (c : M A) (k : A -> M (P := P) B) :
  tame c -> (forall a, tame (k a)) -> tame (bind c k).
Proof.
  intros Hc Hk w. unfold bind.
  destruct (Hc w) as [He Ho]. destruct (c w) as [w1 [a|e]]; simpl in *.
  - destruct (Hk a w1) as [He' Ho']. split; [|exact Ho'].
    eapply extends_trans; eassumption.
  - split; [assumption|].
    intros e' H. injection H as <-. apply (Ho e eq_refl).
Qed.

Lemma tame_try_except {P : Platform} {A : Type} (body : M (P := P) A) catches handler :
  tame body -> (forall e, tame (handler e)) -> tame (try_except body catches handler).
Proof.
  intros Hb Hh w. unfold try_except.
  destruct (Hb w) as [He Ho]. destruct (body w) as [w1 [a|e]]; simpl in *.
  - split; assumption.
  - destruct (catches e).
    + destruct (Hh e w1) as [He' Ho']. split; [|exact Ho'].
      eapply extends_trans; eassumption.
    + split; assumption.
Qed.

Lemma tame_for_each {P : Platform} {S A : Type} (body : S -> A -> M (P := P) S) :
  (forall s x, tame (body s x)) ->
  forall l s, tame (for_each body s l).
Proof.
  intros Hb l. induction l as [|x l IH]; intros s; simpl.
  - apply tame_ret.
  - apply tame_bind; [apply Hb | intros s'; apply IH].
Qed.

Lemma tame_if {P : Platform} {A : Type} (b : bool) (c1 c2 : M (P := P) A) :
  tame c1 -> tame c2 -> tame (if b then c1 else c2).
Proof. destruct b; auto. Qed.

#[local] Hint Resolve tame_ret tame_raise tame_lift tame_st tame_bind tame_try_except
  tame_for_each tame_if : tame.

Lemma tame_st_progress {P : Platform} (score : Z) : tame (P := P) (st_progress score).
Proof.
  unfold st_progress. apply tame_if; [apply tame_raise|].
  apply tame_if; [apply tame_st; reflexivity | apply tame_raise].
Qed.

Lemma tame_st_pyplot {P : Platform} labels ratings :
  tame (P := P) (st_pyplot labels ratings).
Proof.
  unfold st_pyplot. destruct (pyplot_error labels ratings);
    [apply tame_raise | apply tame_st; reflexivity].
Qed.

#[local] Hint Resolve tame_st_progress tame_st_pyplot : tame.

Lemma tame_render_item {P : Platform} acc (item : json) :
  tame (P := P) (render_item acc item).
Proof.
  unfold render_item.
  repeat (first [ apply tame_bind; [|intros ?]
                | apply tame_if
                | apply tame_st; reflexivity
                | solve [auto with tame] ]).
Qed.

Lemma tame_render_results {P : Platform} (parsed : json) :
  tame (P := P) (render_results parsed).
Proof.
  unfold render_results.
  apply tame_bind; [apply tame_st; reflexivity | intros _].
  apply tame_bind; [auto with tame | intros items].
  apply tame_bind; [apply tame_for_each; intros; apply tame_render_item | intros acc].
  destruct (fst acc); [apply tame_ret|].
  apply tame_bind; [apply tame_st; reflexivity | intros _].
  apply tame_st_pyplot.
Qed.

Lemma tame_qa_failed {P : Platform} (e : exn) : tame (P := P) (qa_failed e).
Proof.
  unfold qa_failed. apply tame_bind; [apply tame_st; reflexivity | intros _].
  apply tame_st; reflexivity.
Qed.

(** A [try] block whose handler is the one of lines 196-198 ends
    normally whatever its tame body does. *)
Lemma try_qa_failed {P : Platform} (body : M (P := P) json) (parsed : json) (w : world P) :
  tame body ->
  extends w (fst (try_except body is_Exception (fun e => qa_failed e ;; ret parsed) w)) /\
  exists v, snd (try_except body is_Exception (fun e => qa_failed e ;; ret parsed) w)
            = Return v.
Proof.
  intros Hb. unfold try_except.
  destruct (Hb w) as [He Ho]. destruct (body w) as [w1 [a|e]]; simpl in He, Ho.
  - split; [exact He | exists a; reflexivity].
  - rewrite (Ho e eq_refl). split; [|exists parsed; reflexivity].
    eapply extends_trans; [exact He|].
    apply (tame_bind (qa_failed e) (fun _ => ret parsed)).
    + apply tame_qa_failed.
    + intros _. apply tame_ret.
Qed.

(** Whatever the chat model answers, [evaluate_qa] asks it once, ends
    normally, and changes nothing but the page, to which it adds no
    download button. *)
Lemma evaluate_qa_outcome {P : Platform} (transcript : string) (w : world P) :
  exists w' parsed,
    evaluate_qa transcript w = (w', Return parsed) /\
    extends (asked (qa_request transcript) w) w'.
Proof.
  unfold evaluate_qa. unfold try_except at 1. unfold bind at 1. unfold groq_call.
  fold (asked (qa_request transcript) w).
  destruct (groq_create (qa_request transcript)) as [content|e].
  - unfold bind at 1. unfold lift at 1.
    destruct (loads_content content) as [parsed|e] eqn:Hc.
    + pose proof (try_qa_failed (render_results parsed ;; ret parsed) parsed
                    (asked (qa_request transcript) w)) as H.
      destruct H as [He [v Hv]].
      { apply tame_bind; [apply tame_render_results | intros _; apply tame_ret]. }
      destruct (try_except (render_results parsed;; ret parsed) is_Exception
                  (fun e => qa_failed e;; ret parsed) (asked (qa_request transcript) w))
        as [w2 r2].
      simpl in He, Hv. subst r2. exists w2, v. split; [reflexivity | exact He].
    + assert (Ho : is_Exception e = true).
      { destruct content as [t|]; simpl in Hc.
        - destruct (json_loads t); simpl in Hc; [discriminate Hc|].
          injection Hc as <-. reflexivity.
        - injection Hc as <-. reflexivity. }
      rewrite Ho.
      eexists _, (JArr []). split; [reflexivity|].
      apply (tame_bind (qa_failed e) (fun _ => ret (JArr []))).
      * apply tame_qa_failed.
      * intros _. apply tame_ret.
  - simpl is_Exception. cbv iota.
    eexists _, (JArr []). split; [reflexivity|].
    apply (tame_bind (qa_failed e) (fun _ => ret (JArr []))).
    + apply tame_qa_failed.
    + intros _. apply tame_ret.
Qed.

(** ** The transcript action *)

Lemma analyze_transcript_string {P : Platform} fs s (w : world P) :
  dict_lookup "transcript" fs = Some (JStr s) -> s <> "" ->
  analyze_transcript (JObj fs) w = evaluate_qa s (render (transcript_widgets s) w).
Proof.
  intros Ht Hs. unfold analyze_transcript. unfold bind at 1. unfold lift at 1.
  unfold py_get, dict_get. rewrite Ht. unfold truthy.
  destruct (String.eqb_spec s "") as [->|_]; [contradiction|]. cbv beta iota delta [negb].
  rewrite !bind_st. unfold text_blob. rewrite bind_lift_Return. rewrite !bind_st.
  rewrite !render_render. reflexivity.
Qed.

Lemma dict_lookup_nonempty k fs v : dict_lookup k fs = Some v -> truthy (JObj fs) = true.
Proof. destruct fs; [discriminate | reflexivity]. Qed.

Lemma plain_no_button (xs : list widget) :
  forallb plain xs = true -> existsb is_download_button xs = false.
Proof.
  induction xs as [|x xs IH]; [reflexivity|]. simpl. unfold plain at 1.
  destruct (is_download_button x); simpl; [discriminate | exact IH].
Qed.

Lemma show_transcript_details {P : Platform} (call_id : string) (w : world P) resp fs s :
  requests_send (fetch_request call_id) = Responded resp ->
  resp_ok resp = true ->
  response_json (resp_body resp) = Some (JObj fs) ->
  dict_lookup "transcript" fs = Some (JStr s) ->
  s <> "" ->
  exists w1 parsed,
    evaluate_qa s (render (transcript_widgets s) (sent (fetch_request call_id) w))
    = (w1, Return parsed) /\
    extends (asked (qa_request s)
               (render (transcript_widgets s) (sent (fetch_request call_id) w))) w1 /\
    show_transcript call_id w
    = (structured <- lift (structured_data (JObj fs)) ;;
       export_workbook structured parsed) w1.
Proof.
  intros Hs Hok Hj Ht Hne.
  destruct (evaluate_qa_outcome s
              (render (transcript_widgets s) (sent (fetch_request call_id) w)))
    as [w1 [parsed [Hq He]]].
  exists w1, parsed. split; [exact Hq|]. split; [exact He|].
  unfold show_transcript. unfold bind at 1.
  rewrite (fetch_call_details_decoded call_id w resp (JObj fs) Hs Hok Hj).
  rewrite (dict_lookup_nonempty _ _ _ Ht). cbv beta iota delta [andb is_dict].
  unfold bind at 1. fold (sent (fetch_request call_id) w).
  rewrite (analyze_transcript_string fs s _ Ht Hne), Hq. reflexivity.
Qed.

(** On the scenario of the specification the sentiment is shown and the
    evaluation is attempted, but the guard of line 205 leaves the page
    without any download button: there is no workbook at all. *)
Lemma transcript_only_offers_no_export :
  existsb is_download_button
    (rendered (fst (show_transcript "abc123" (Lab.fresh Lab.transcript_only Missing))))
  = false /\
  ~ transcript_only_as_specified "abc123" "Hello, this is..."
      (Lab.fresh Lab.transcript_only Missing).
Proof.
  split; [vm_compute; reflexivity|].
  intros [_ [_ H]]. vm_compute in H. discriminate H.
Qed.

(** C6, amended: when the details of the call carry a transcript and no
    structured data (no [analysis], or an [analysis] without
    [structuredData]), the action ends normally, the sentiment is shown, the
    chat model is asked once for the QA evaluation of the transcript, and no
    download button is offered: the export is attempted only when
    structured data is present. *)
Theorem transcript_without_structured_data {P : Platform} (call_id : string)
        (w : world P) resp fs s structured :
  requests_send (fetch_request call_id) = Responded resp ->
  resp_ok resp = true ->
  response_json (resp_body resp) = Some (JObj fs) ->
  dict_lookup "transcript" fs = Some (JStr s) ->
  s <> "" ->
  structured_data (JObj fs) = Return structured ->
  truthy structured = false ->
  exists w' new,
    show_transcript call_id w = (w', Return tt) /\
    chats_sent w' = (chats_sent w ++ [qa_request s])%list /\
    rendered w' = (rendered w ++ transcript_widgets s ++ new)%list /\
    existsb is_download_button (transcript_widgets s ++ new) = false.
Proof.
  intros Hs Hok Hj Ht Hne Hd Hf.
  destruct (show_transcript_details call_id w resp fs s Hs Hok Hj Ht Hne)
    as [w1 [parsed [_ [He Hrun]]]].
  destruct He as [_ [_ [_ [Hc [new [Hr Hp]]]]]].
  exists w1, new. split; [|split; [rewrite Hc; reflexivity|split]].
  - rewrite Hrun, Hd, bind_lift_Return. now apply export_workbook_nothing.
  - rewrite Hr. unfold asked, render, sent. cbn [rendered].
    symmetry. apply app_assoc.
  - rewrite existsb_app, (plain_no_button new Hp). reflexivity.
Qed.

Lemma transcript_without_structured_data_witness :
  exists w' new,
    show_transcript "abc123" (Lab.fresh Lab.transcript_only Missing) = (w', Return tt) /\
    chats_sent w' = [qa_request "Hello, this is..."] /\
    rendered w' = (transcript_widgets (P := Lab.transcript_only) "Hello, this is..." ++ new)%list /\
    existsb is_download_button
      (transcript_widgets (P := Lab.transcript_only) "Hello, this is..." ++ new) = false.
Proof.
  refine (transcript_without_structured_data "abc123"
            (Lab.fresh Lab.transcript_only Missing) _
            [("transcript", JStr "Hello, this is...")] "Hello, this is..." JNull
            eq_refl eq_refl eq_refl eq_refl _ eq_refl eq_refl).
  discriminate.
Defined.

(** ** QA evaluation *)

Lemma qa_failed_run {P : Platform} (e : exn) (w : world P) :
  qa_failed e w = (render (qa_failure_widgets e) w, Return tt).
Proof. unfold qa_failed. rewrite bind_st. unfold st. rewrite render_render. reflexivity. Qed.


Lemma show_logs_section {P : Platform} (w : world P) :
  show_logs w = (render (fst (logs_section w)) w, snd (logs_section w)).
Proof.
  unfold show_logs, logs_section. cbv zeta. rewrite !bind_st, render_render.
  unfold bind, load_logs, try_except, json_load_log. cbn [render log_file].
  fold (render ([StMarkdown "---"] ++ [StSubheader "📁 Saved Call Logs"]) w).
  destruct (log_file w) as [| |t];
    [cbv beta iota delta [ret st truthy fst snd]; rewrite render_render; reflexivity ..|].
  destruct (json_loads t) as [logs|];
    [|cbv beta iota delta [ret st truthy fst snd]; rewrite render_render; reflexivity].
  cbv beta iota. destruct (truthy logs);
    [|cbv beta iota delta [st fst snd]; rewrite render_render; reflexivity].
  unfold st_dataframe. destruct (dataframe_error logs);
    cbv beta iota delta [st raise fst snd]; [|rewrite render_render]; reflexivity.
Qed.


Lemma app_main_get_transcript {P : Platform} (i : inputs) (w : world P) user :
  session_user w = Some user ->
  logout_clicked i = false ->
  submitted i = false ->
  get_transcript i = true ->
  app_main i w
  = (show_transcript (call_id i) ;; show_logs) (render (page_top user ++ fetch_section) w).
Proof.
  intros Hu Hlo Hsub Hget. unfold app_main. unfold bind at 1.
  unfold session_state_user. rewrite Hu, Hlo, Hsub, Hget.
  rewrite !bind_st, bind_ret, !bind_st, bind_ret, !bind_st.
  rewrite !render_render. reflexivity.
Qed.

Lemma export_workbook_no_results {P : Platform} (structured : json) (df : DataFrame)
      (w : world P) :
  (truthy structured = true -> pd_DataFrame (JArr [structured]) = Return df) ->
  export_workbook structured (JArr []) w
  = (render (export_widgets structured df) w, Return tt).
Proof.
  intros Hdf. unfold export_workbook, export_widgets.
  destruct (truthy structured).
  - rewrite (Hdf eq_refl), bind_lift_Return. reflexivity.
  - unfold render, ret. rewrite app_nil_r. destruct w; reflexivity.
Qed.



(** *** What the loop renders, item by item *)

(** The float range starts far above the scale. *)
Lemma scale_below_float_range : (5 < 5 * (2 ^ 1024 - 2 ^ 970))%Z.
Proof. apply Z.ltb_lt. vm_compute. reflexivity. Qed.

Lemma div5_overflows_spec (score : Z) :
  div5_overflows score = true <-> (5 * (2 ^ 1024 - 2 ^ 970) <= Z.abs score)%Z.
Proof. unfold div5_overflows. apply Z.leb_le. Qed.

Lemma in_scale_no_overflow (score : Z) :
  ((0 <=? score) && (score <=? 5))%Z = true -> div5_overflows score = false.
Proof.
  intros H. apply andb_prop in H. destruct H as [H0 H5].
  apply Z.leb_le in H0. apply Z.leb_le in H5.
  destruct (div5_overflows score) eqn:Ho; [|reflexivity].
  apply div5_overflows_spec in Ho. pose proof scale_below_float_range as Hr.
  remember (5 * (2 ^ 1024 - 2 ^ 970))%Z as limit. lia.
Qed.

Section Items.
Context {P : Platform}.

Lemma render_item_renderable (acc : list Z * list string) (item : json) (w : world P) :
  renderable item = true ->
  render_item acc item w
  = (render (item_widgets item) w,
     Return ((fst acc ++ map fst (item_rating item))%list,
             (snd acc ++ map snd (item_rating item))%list)).
Proof.
  unfold renderable, render_item, item_widgets, item_rating.
  destruct (py_getitem item "question") as [q|]; [|discriminate].
  destruct (py_getitem item "rating") as [r|]; [|discriminate].
  destruct (py_getitem item "explanation") as [e|]; [|discriminate].
  rewrite bind_lift_Return, bind_st, bind_lift_Return, bind_st, bind_lift_Return, bind_st.
  destruct (isdigit (pstr r)).
  - destruct (py_int r) as [score|]; [|discriminate].
    destruct (slice50_dots q) as [label|]; [|discriminate].
    intros Hscore. unfold bind, lift, st_progress.
    rewrite (in_scale_no_overflow score Hscore), Hscore.
    unfold st, ret. rewrite !render_render. reflexivity.
  - intros _. unfold bind, st, ret.
    rewrite !render_render, !app_nil_r. destruct acc; reflexivity.
Qed.

Lemma for_each_renderable (items : list json) :
  forallb renderable items = true ->
  forall (acc : list Z * list string) (w : world P),
    for_each render_item acc items w
    = (render (flat_map item_widgets items) w,
       Return ((fst acc ++ map fst (flat_map item_rating items))%list,
               (snd acc ++ map snd (flat_map item_rating items))%list)).
Proof.
  induction items as [|item items IH]; intros Hall acc w.
  - simpl. rewrite render_render_nil, !app_nil_r. destruct acc; reflexivity.
  - simpl in Hall. apply andb_prop in Hall. destruct Hall as [Hitem Hall].
    simpl for_each. unfold bind. rewrite (render_item_renderable acc item w Hitem).
    rewrite (IH Hall). rewrite render_render. simpl flat_map.
    rewrite !map_app, !app_assoc. reflexivity.
Qed.

Lemma item_failure_none (item : json) :
  item_failure item = None <-> renderable item = true.
Proof.
  unfold item_failure, renderable.
  destruct (py_getitem item "question") as [q|]; [|split; discriminate].
  destruct (py_getitem item "rating") as [r|]; [|split; discriminate].
  destruct (py_getitem item "explanation") as [x|]; [|split; discriminate].
  cbv zeta. destruct (isdigit (pstr r)); [|split; reflexivity].
  destruct (py_int r) as [score|]; [|split; discriminate].
  destruct ((0 <=? score) && (score <=? 5))%Z eqn:Hscale.
  - rewrite (in_scale_no_overflow score Hscale).
    destruct (slice50_dots q); split; (reflexivity || discriminate).
  - destruct (div5_overflows score); destruct (slice50_dots q); split; discriminate.
Qed.

Lemma item_failure_ordinary (item : json) shown e :
  item_failure item = Some (shown, e) -> is_Exception e = true.
Proof.
  unfold item_failure.
  destruct (py_getitem item "question") as [q|e1] eqn:Hq.
  2:{ intros H. injection H as _ <-. exact (ordinary_py_getitem _ _ _ Hq). }
  destruct (py_getitem item "rating") as [r|e1] eqn:Hr.
  2:{ intros H. injection H as _ <-. exact (ordinary_py_getitem _ _ _ Hr). }
  destruct (py_getitem item "explanation") as [x|e1] eqn:Hx.
  2:{ intros H. injection H as _ <-. exact (ordinary_py_getitem _ _ _ Hx). }
  cbv zeta. destruct (isdigit (pstr r)); [|discriminate].
  destruct (py_int r) as [score|e1] eqn:Hi.
  2:{ intros H. injection H as _ <-. exact (ordinary_py_int _ _ Hi). }
  destruct (div5_overflows score).
  { intros H. injection H as _ <-. reflexivity. }
  destruct ((0 <=? score) && (score <=? 5))%Z.
  - destruct (slice50_dots q) as [label|e1] eqn:Hs; [discriminate|].
    intros H. injection H as _ <-. exact (ordinary_slice50_dots _ _ Hs).
  - intros H. injection H as _ <-. reflexivity.
Qed.

Lemma render_item_failure (acc : list Z * list string) (item : json)
      (w : world P) shown e :
  item_failure item = Some (shown, e) ->
  render_item acc item w = (render shown w, Raise e).
Proof.
  unfold item_failure, render_item.
  destruct (py_getitem item "question") as [q|e1].
  2:{ intros H. injection H as <- <-. rewrite bind_lift_Raise, render_render_nil.
      reflexivity. }
  rewrite bind_lift_Return, bind_st.
  destruct (py_getitem item "rating") as [r|e1].
  2:{ intros H. injection H as <- <-. rewrite bind_lift_Raise. reflexivity. }
  rewrite bind_lift_Return, bind_st.
  destruct (py_getitem item "explanation") as [x|e1].
  2:{ intros H. injection H as <- <-. rewrite bind_lift_Raise, render_render.
      reflexivity. }
  rewrite bind_lift_Return, bind_st. cbv zeta.
  destruct (isdigit (pstr r)); [|discriminate].
  destruct (py_int r) as [score|e1].
  2:{ intros H. injection H as <- <-. unfold bind, lift.
      rewrite !render_render. reflexivity. }
  unfold bind at 1. rewrite bind_lift_Return. unfold st_progress.
  destruct (div5_overflows score).
  { intros H. injection H as <- <-. unfold bind, lift, raise.
    rewrite !render_render. reflexivity. }
  destruct ((0 <=? score) && (score <=? 5))%Z.
  - destruct (slice50_dots q) as [label|e1]; [discriminate|].
    intros H. injection H as <- <-. unfold bind, lift, st.
    rewrite !render_render. reflexivity.
  - intros H. injection H as <- <-. unfold bind, lift, raise.
    rewrite !render_render. reflexivity.
Qed.

Lemma for_each_first_failure (good : list json) (bad : json)
      (rest : list json) shown e :
  forallb renderable good = true ->
  item_failure bad = Some (shown, e) ->
  forall (acc : list Z * list string) (w : world P),
    for_each render_item acc (good ++ bad :: rest)%list w
    = (render (flat_map item_widgets good ++ shown) w, Raise e).
Proof.
  intros Hgood Hbad. induction good as [|item good IH]; intros acc w.
  - simpl. unfold bind. rewrite (render_item_failure acc bad w shown e Hbad). reflexivity.
  - simpl in Hgood. apply andb_prop in Hgood. destruct Hgood as [Hitem Hgood].
    simpl. unfold bind. rewrite (render_item_renderable acc item w Hitem).
    fold (@bind (world P) (list Z * list string) (list Z * list string)).
    rewrite (IH Hgood). rewrite render_render, app_assoc. reflexivity.
Qed.

Lemma for_each_fails_at_head (bad : json) (rest : list json) shown e :
  item_failure bad = Some (shown, e) ->
  forall (acc : list Z * list string) (w : world P),
    for_each render_item acc (bad :: rest) w = (render shown w, Raise e).
Proof.
  intros Hbad acc w.
  exact (for_each_first_failure [] bad rest shown e eq_refl Hbad acc w).
Qed.

(** Every list of items goes through the loop as a whole, or splits at its
    first item that fails. *)
Lemma first_failure_split (items : list json) :
  forallb renderable items = true \/
  exists good bad rest shown e,
    items = (good ++ bad :: rest)%list /\
    forallb renderable good = true /\
    item_failure bad = Some (shown, e).
Proof.
  induction items as [|item items IH]; [left; reflexivity|].
  destruct (item_failure item) as [[shown e]|] eqn:Hf.
  - right. exists [], item, items, shown, e. repeat split. exact Hf.
  - apply item_failure_none in Hf. destruct IH as [Hall | [good [bad [rest [shown [e [-> [Hg Hb]]]]]]]].
    + left. simpl. rewrite Hf, Hall. reflexivity.
    + right. exists (item :: good), bad, rest, shown, e. repeat split.
      * simpl. rewrite Hf, Hg. reflexivity.
      * exact Hb.
Qed.

Lemma render_results_renderable (items : list json) (w : world P) :
  forallb renderable items = true ->
  chart_error (flat_map item_rating items) = None ->
  render_results (JArr items) w = (render (results_widgets items) w, Return tt).
Proof.
  intros Hall Hchart. unfold render_results, results_widgets.
  rewrite bind_st. unfold py_iter. rewrite bind_lift_Return.
  unfold bind at 1. rewrite (for_each_renderable items Hall). cbn [fst snd app].
  unfold chart_widgets. unfold chart_error in Hchart.
  destruct (flat_map item_rating items) as [|rated1 rated].
  - cbn [map]. unfold ret. rewrite render_render, app_nil_r. reflexivity.
  - cbn [map]. rewrite bind_st. unfold st_pyplot. cbn [map] in Hchart. rewrite Hchart.
    unfold st. rewrite !render_render. reflexivity.
Qed.

Lemma render_results_chart_refused (items : list json) (e : exception) (w : world P) :
  forallb renderable items = true ->
  chart_error (flat_map item_rating items) = Some e ->
  render_results (JArr items) w
  = (render (StSubheader "📝 QA Evaluation Results"
               :: flat_map item_widgets items ++ [StSubheader "📈 Ratings Overview"])%list w,
     Raise e).
Proof.
  intros Hall Hchart. unfold render_results.
  rewrite bind_st. unfold py_iter. rewrite bind_lift_Return.
  unfold bind at 1. rewrite (for_each_renderable items Hall). cbn [fst snd app].
  unfold chart_error in Hchart.
  destruct (flat_map item_rating items) as [|rated1 rated]; [discriminate Hchart|].
  cbn [map]. rewrite bind_st. unfold st_pyplot. cbn [map] in Hchart. rewrite Hchart.
  unfold raise. rewrite !render_render. reflexivity.
Qed.

Lemma render_results_first_failure (good : list json) (bad : json) (rest : list json)
      shown e (w : world P) :
  forallb renderable good = true ->
  item_failure bad = Some (shown, e) ->
  render_results (JArr (good ++ bad :: rest)%list) w
  = (render (StSubheader "📝 QA Evaluation Results"
               :: flat_map item_widgets good ++ shown)%list w,
     Raise e).
Proof.
  intros Hgood Hbad. unfold render_results.
  rewrite bind_st. unfold py_iter. rewrite bind_lift_Return.
  unfold bind at 1. rewrite (for_each_first_failure good bad rest shown e Hgood Hbad).
  rewrite render_render. reflexivity.
Qed.

(** A dict that lacks a field fails with [KeyError], the fields before the
    missing one being on the page. *)
Lemma item_failure_lacks_field (item : json) :
  lacks_field item = true ->
  item_failure item = Some (widgets_before_KeyError item, Exc KeyError).
Proof.
  unfold lacks_field, item_failure, widgets_before_KeyError.
  destruct item as [| | | | | |fs]; try discriminate. unfold py_getitem.
  destruct (dict_lookup "question" fs) as [q|]; [|reflexivity].
  destruct (dict_lookup "rating" fs) as [r|]; [|reflexivity].
  destruct (dict_lookup "explanation" fs) as [x|]; [discriminate | reflexivity].
Qed.

Lemma not_renderable_fails (item : json) :
  renderable item = false -> exists shown e, item_failure item = Some (shown, e).
Proof.
  intros Hr. destruct (item_failure item) as [[shown e]|] eqn:Hf.
  - exists shown, e. reflexivity.
  - apply item_failure_none in Hf. rewrite Hf in Hr. discriminate Hr.
Qed.

(** Every list of items goes through the loop as a whole, or has a first
    item that does not. *)
Lemma first_not_renderable (items : list json) :
  forallb renderable items = true \/
  exists good bad rest,
    items = (good ++ bad :: rest)%list /\
    forallb renderable good = true /\
    renderable bad = false.
Proof.
  induction items as [|item items IH]; [left; reflexivity|].
  destruct (renderable item) eqn:Hr.
  - destruct IH as [Hall | [good [bad [rest [-> [Hg Hb]]]]]].
    + left. simpl. rewrite Hr, Hall. reflexivity.
    + right. exists (item :: good), bad, rest. repeat split.
      * simpl. rewrite Hr, Hg. reflexivity.
      * exact Hb.
  - right. exists [], item, items. repeat split. exact Hr.
Qed.

Lemma evaluate_qa_parsed (s : string) (t : text) (parsed : json) (w : world P) :
  groq_create (qa_request s) = Completion (Some t) ->
  json_loads t = Some parsed ->
  evaluate_qa s w
  = try_except (render_results parsed ;; ret parsed) is_Exception
      (fun e => qa_failed e ;; ret parsed) (asked (qa_request s) w).
Proof.
  intros Hg Hl. unfold evaluate_qa. unfold try_except at 1. unfold bind at 1.
  unfold groq_call. rewrite Hg. unfold bind at 1. unfold lift at 1.
  unfold loads_content. rewrite Hl. cbv beta iota delta [of_option].
  fold (asked (qa_request s) w).
  destruct (try_except (render_results parsed;; ret parsed) is_Exception
              (fun e => qa_failed e;; ret parsed) (asked (qa_request s) w))
    as [w' [a|e]] eqn:Htry; [reflexivity|].
  destruct (try_qa_failed (render_results parsed ;; ret parsed) parsed
              (asked (qa_request s) w)) as [_ [v Hv]].
  { apply tame_bind; [apply tame_render_results | intros _; apply tame_ret]. }
  rewrite Htry in Hv. discriminate Hv.
Qed.

Lemma dict_lookup_extra (k k' : string) (v : json) (fs1 fs2 : list (string * json)) :
  k <> k' ->
  dict_lookup k' (fs1 ++ (k, v) :: fs2)%list = dict_lookup k' (fs1 ++ fs2)%list.
Proof.
  intros Hk. induction fs1 as [|[k1 v1] fs1 IH]; simpl.
  - destruct (String.eqb_spec k k'); [contradiction | reflexivity].
  - rewrite IH. reflexivity.
Qed.

End Items.

(** The model answers with valid JSON, one item without [explanation]: the
    lookup of line 173 raises [KeyError] and the whole evaluation is
    reported as failed. *)
Lemma missing_field_fails_evaluation :
  @json_loads Lab.incomplete_item (Lab.Doc (JArr [Lab.item_without_explanation]))
  = Some (JArr [Lab.item_without_explanation]) /\
  ~ qa_tolerant_as_specified (P := Lab.incomplete_item) "Hello, this is..."
      (Lab.fresh Lab.incomplete_item Missing).
Proof.
  split; [reflexivity|].
  intros H. apply H. vm_compute. do 3 right. left. reflexivity.
Qed.

(** C5, amended: an answer that parses as a JSON list is processed
    item by item, in the order received, without any reference to the
    rubric: items may be fewer, more or in another order than the twelve
    questions, and fields other than [question], [rating] and [explanation]
    are ignored.  There is no validation that repairs or skips an item.  An
    item goes through the loop body exactly when it is [renderable]: a dict
    with the three fields whose rating, if it reads as digits, converts to
    an int of at most 5 and comes with a question that is a string.  When
    every item goes through, each one is rendered, the chart follows if
    some rating was numeric, and the parsed list is the QA result; if
    matplotlib refuses the chart, the evaluation is reported as failed
    below the items.  Otherwise the first item that does not go through
    raises inside the [try] block, with [KeyError] when it lacks a field:
    the rendering stops there, the evaluation is reported as failed with
    that exception, the items behind it are not looked at, and the parsed
    list is kept.  Every list is in one of these cases. *)
Theorem evaluate_qa_item_by_item {P : Platform} (s : string) (t : text)
        (items : list json) (w : world P) :
  groq_create (qa_request s) = Completion (Some t) ->
  json_loads t = Some (JArr items) ->
  (forallb renderable items = true \/
   exists good bad rest,
     items = (good ++ bad :: rest)%list /\
     forallb renderable good = true /\
     renderable bad = false) /\
  (forallb renderable items = true ->
   (chart_error (flat_map item_rating items) = None ->
    evaluate_qa s w
    = (render (results_widgets items) (asked (qa_request s) w), Return (JArr items))) /\
   (forall e,
       chart_error (flat_map item_rating items) = Some e ->
       evaluate_qa s w
       = (render ((StSubheader "📝 QA Evaluation Results"
                     :: flat_map item_widgets items
                     ++ [StSubheader "📈 Ratings Overview"])
                  ++ qa_failure_widgets e)%list
            (asked (qa_request s) w),
          Return (JArr items)))) /\
  (forall good bad rest,
      items = (good ++ bad :: rest)%list ->
      forallb renderable good = true ->
      renderable bad = false ->
      exists shown e,
        evaluate_qa s w
        = (render ((StSubheader "📝 QA Evaluation Results"
                      :: flat_map item_widgets good ++ shown)
                   ++ qa_failure_widgets e)%list
             (asked (qa_request s) w),
           Return (JArr items)) /\
        is_Exception e = true /\
        (lacks_field bad = true ->
         shown = widgets_before_KeyError bad /\ e = Exc KeyError)) /\
  (forall fs1 fs2 k v,
      k <> "question" -> k <> "rating" -> k <> "explanation" ->
      item_widgets (JObj (fs1 ++ (k, v) :: fs2)%list) = item_widgets (JObj (fs1 ++ fs2)%list) /\
      item_rating (JObj (fs1 ++ (k, v) :: fs2)%list) = item_rating (JObj (fs1 ++ fs2)%list) /\
      renderable (JObj (fs1 ++ (k, v) :: fs2)%list) = renderable (JObj (fs1 ++ fs2)%list)).
Proof.
  intros Hg Hl. split; [apply first_not_renderable|]. split; [|split].
  - intros Hall. split.
    + intros Hchart. rewrite (evaluate_qa_parsed s t (JArr items) w Hg Hl).
      unfold try_except, bind.
      rewrite (render_results_renderable items _ Hall Hchart). reflexivity.
    + intros e Hchart. rewrite (evaluate_qa_parsed s t (JArr items) w Hg Hl).
      unfold try_except. unfold bind at 1.
      rewrite (render_results_chart_refused items e _ Hall Hchart).
      cbv beta iota delta [is_Exception]. unfold bind.
      rewrite qa_failed_run, render_render. reflexivity.
  - intros good bad rest -> Hgood Hbad.
    destruct (not_renderable_fails bad Hbad) as [shown [e Hf]].
    exists shown, e. split; [|split].
    + rewrite (evaluate_qa_parsed s t _ w Hg Hl).
      unfold try_except. unfold bind at 1.
      rewrite (render_results_first_failure good bad rest shown e _ Hgood Hf).
      rewrite (item_failure_ordinary bad shown e Hf).
      unfold bind. rewrite qa_failed_run, render_render. reflexivity.
    + exact (item_failure_ordinary bad shown e Hf).
    + intros Hlack. rewrite (item_failure_lacks_field bad Hlack) in Hf.
      injection Hf as <- <-. split; reflexivity.
  - intros fs1 fs2 k v Hq Hr He.
    unfold item_widgets, item_rating, renderable, py_getitem.
    rewrite !(dict_lookup_extra k _ v fs1 fs2) by assumption.
    repeat split.
Qed.

Lemma evaluate_qa_item_by_item_witness :
  rendered (fst (evaluate_qa "Hello, this is..." (Lab.fresh Lab.out_of_order Missing)))
  = [StSubheader "📝 QA Evaluation Results";
     StMarkdown "**Q:** Did the agent speak confidently?";
     StWrite "**Rating:** 4";
     StWrite "**Explanation:** Steady pace, no hesitation.";
     StProgress 4;
     StMarkdown "**Rating Scale:** 1 = Very Poor | 2 = Poor | 3 = Average | 4 = Good | 5 = Excellent";
     StMarkdown "---";
     StMarkdown "**Q:** Did the agent introduce themselves and identify the dealership during the introduction?";
     StWrite "**Rating:** N/A";
     StWrite "**Explanation:** The recording starts after the greeting.";
     StMarkdown "**Rating Scale:** N/A (Not Applicable)";
     StMarkdown "---";
     StSubheader "📈 Ratings Overview";
     StPyplot ["Did the agent speak confidently?..."] [4%Z]].
Proof.
  rewrite (proj1 (proj1 (proj2 (evaluate_qa_item_by_item (P := Lab.out_of_order)
                    "Hello, this is..." (Lab.Doc (JArr Lab.two_items)) Lab.two_items
                    (Lab.fresh Lab.out_of_order Missing) eq_refl eq_refl)) eq_refl)
                 eq_refl).
  reflexivity.
Defined.

(** ** The log file across a whole run *)

Create HintDb keeps.

Lemma keeps_ret {P : Platform} {A : Type} (a : A) : keeps_log (P := P) (ret a).
Proof. intros w. reflexivity. Qed.

Lemma keeps_raise {P : Platform} {A : Type} (e : exn) : keeps_log (P := P) (@raise _ A e).
Proof. intros w. reflexivity. Qed.

Lemma keeps_lift {P : Platform} {A : Type} (r : result A) : keeps_log (P := P) (lift r).
Proof. intros w. reflexivity. Qed.

Lemma keeps_st {P : Platform} (x : widget) : keeps_log (P := P) (st x).
Proof. intros w. reflexivity. Qed.

Lemma keeps_bind {P : Platform} {A B : Type} (c : M A) (k : A -> M (P := P) B) :
  keeps_log c -> (forall a, keeps_log (k a)) -> keeps_log (bind c k).
Proof.
  intros Hc Hk w. unfold bind. specialize (Hc w).
  destruct (c w) as [w1 [a|e]]; simpl in *; [|exact Hc].
  rewrite (Hk a w1). exact Hc.
Qed.

Lemma keeps_try_except {P : Platform} {A : Type} (body : M (P := P) A) catches handler :
  keeps_log body -> (forall e, keeps_log (handler e)) ->
  keeps_log (try_except body catches handler).
Proof.
  intros Hb Hh w. unfold try_except. specialize (Hb w).
  destruct (body w) as [w1 [a|e]]; simpl in *; [exact Hb|].
  destruct (catches e); [|exact Hb].
  rewrite (Hh e w1). exact Hb.
Qed.

Lemma keeps_if {P : Platform} {A : Type} (b : bool) (c1 c2 : M (P := P) A) :
  keeps_log c1 -> keeps_log c2 -> keeps_log (if b then c1 else c2).
Proof. destruct b; auto. Qed.

Lemma keeps_tame {P : Platform} {A : Type} (c : M (P := P) A) : tame c -> keeps_log c.
Proof. intros Hc w. destruct (Hc w) as [[Hl _] _]. exact Hl. Qed.

Lemma keeps_requests_call {P : Platform} (r : request) : keeps_log (P := P) (requests_call r).
Proof. intros w. reflexivity. Qed.

Lemma keeps_json_load_log {P : Platform} : keeps_log (P := P) json_load_log.
Proof.
  intros w. unfold json_load_log.
  destruct (log_file w) as [| |t] eqn:Hf; try exact Hf.
  destruct (json_loads t); exact Hf.
Qed.

Lemma keeps_set_session_user {P : Platform} (u : option string) :
  keeps_log (P := P) (set_session_user u).
Proof. intros w. reflexivity. Qed.

Lemma keeps_session_state_user {P : Platform} : keeps_log (P := P) session_state_user.
Proof. intros w. unfold session_state_user. destruct (session_user w); reflexivity. Qed.

#[local] Hint Resolve keeps_ret keeps_raise keeps_lift keeps_st keeps_bind keeps_try_except
  keeps_if keeps_requests_call keeps_json_load_log keeps_set_session_user
  keeps_session_state_user : keeps.

Lemma keeps_evaluate_qa {P : Platform} (s : string) : keeps_log (P := P) (evaluate_qa s).
Proof.
  intros w. destruct (evaluate_qa_outcome s w) as [w' [parsed [Hrun [Hl _]]]].
  rewrite Hrun. exact Hl.
Qed.

Lemma keeps_fetch_call_details {P : Platform} (call_id : string) :
  keeps_log (P := P) (fetch_call_details call_id).
Proof.
  unfold fetch_call_details.
  apply keeps_bind; [apply keeps_requests_call | intros resp].
  apply keeps_if; auto 10 with keeps.
Qed.

Lemma keeps_analyze_transcript {P : Platform} (details : json) :
  keeps_log (P := P) (analyze_transcript details).
Proof.
  unfold analyze_transcript.
  apply keeps_bind; [apply keeps_lift | intros transcript].
  apply keeps_if; [|auto with keeps].
  repeat (apply keeps_bind; [first [apply keeps_st | apply keeps_lift] | intros ?]).
  apply keeps_evaluate_qa.
Qed.

Lemma keeps_export_workbook {P : Platform} (structured parsed : json) :
  keeps_log (P := P) (export_workbook structured parsed).
Proof. unfold export_workbook. auto 10 with keeps. Qed.

Lemma keeps_show_transcript {P : Platform} (call_id : string) :
  keeps_log (P := P) (show_transcript call_id).
Proof.
  unfold show_transcript.
  apply keeps_bind; [apply keeps_fetch_call_details | intros details].
  apply keeps_if; [|apply keeps_st].
  apply keeps_bind; [apply keeps_analyze_transcript | intros parsed].
  apply keeps_bind; [apply keeps_lift | intros structured].
  apply keeps_export_workbook.
Qed.

Lemma keeps_load_logs {P : Platform} : keeps_log (P := P) load_logs.
Proof. intros w. rewrite load_logs_unchanged. reflexivity. Qed.

Lemma keeps_st_dataframe {P : Platform} (logs : json) :
  keeps_log (P := P) (st_dataframe logs).
Proof.
  unfold st_dataframe. destruct (dataframe_error logs);
    [apply keeps_raise | apply keeps_st].
Qed.

Lemma keeps_show_logs {P : Platform} : keeps_log (P := P) show_logs.
Proof.
  unfold show_logs.
  repeat (apply keeps_bind; [apply keeps_st | intros _]).
  apply keeps_bind; [apply keeps_load_logs | intros logs].
  apply keeps_if; [apply keeps_st_dataframe | apply keeps_st].
Qed.

Lemma keeps_login {P : Platform} (i : inputs) : keeps_log (P := P) (login i).
Proof. unfold login. auto 12 with keeps. Qed.

Lemma appends_keeps {P : Platform} {A : Type} (c : M (P := P) A) :
  keeps_log c -> appends_at_most_one c.
Proof. intros Hc w. left. apply Hc. Qed.

Lemma appends_after_keeps {P : Platform} {A B : Type} (c : M A) (k : A -> M (P := P) B) :
  keeps_log c -> (forall a, appends_at_most_one (k a)) -> appends_at_most_one (bind c k).
Proof.
  intros Hc Hk w. unfold bind. specialize (Hc w).
  destruct (c w) as [w1 [a|e]]; simpl in *; [|left; exact Hc].
  destruct (Hk a w1) as [Hsame | [l [entry [Hl Hw]]]].
  - left. congruence.
  - right. exists l, entry. split; [|exact Hw].
    unfold stored_entries in *. rewrite <- Hc. exact Hl.
Qed.

Lemma appends_then_keeps {P : Platform} {A B : Type} (c : M A) (k : A -> M (P := P) B) :
  appends_at_most_one c -> (forall a, keeps_log (k a)) -> appends_at_most_one (bind c k).
Proof.
  intros Hc Hk w. unfold bind. specialize (Hc w).
  destruct (c w) as [w1 [a|e]]; simpl in *; [|exact Hc].
  rewrite (Hk a w1). exact Hc.
Qed.

Lemma appends_start_call {P : Platform} (number : string) :
  appends_at_most_one (P := P) (start_call number).
Proof.
  intros w. destruct (start_call_no_partial_entry number w) as [H | [l [id [Hl Hw]]]].
  - left. exact H.
  - right. exists l, (log_entry utcnow_isoformat id number). split; assumption.
Qed.

Lemma appends_app_main {P : Platform} (i : inputs) : appends_at_most_one (P := P) (app_main i).
Proof.
  unfold app_main.
  apply appends_after_keeps; [apply keeps_session_state_user | intros user].
  do 2 (apply appends_after_keeps; [apply keeps_st | intros _]).
  apply appends_after_keeps; [auto with keeps | intros _].
  do 4 (apply appends_after_keeps; [apply keeps_st | intros _]).
  apply appends_then_keeps.
  - destruct (submitted i); [apply appends_start_call | apply appends_keeps, keeps_ret].
  - intros _.
    repeat (apply keeps_bind; [apply keeps_st | intros _]).
    apply keeps_bind; [|intros _; apply keeps_show_logs].
    apply keeps_if; [apply keeps_show_transcript | apply keeps_ret].
Qed.

Lemma appends_script {P : Platform} (i : inputs) : appends_at_most_one (P := P) (script i).
Proof.
  intros w. unfold script. destruct (session_user w).
  - apply appends_app_main.
  - left. apply keeps_login.
Qed.

(** C9: what is persisted stays persisted.  [load_logs] leaves the world
    as it found it.  [save_log] on a store holding the entries [l] writes
    [l] followed by the new entry, so that the store then holds
    [l ++ [entry]]; on a store that holds no list of entries it raises and
    leaves the file as it was.  And a whole run of the script, whatever the
    user did, leaves the entries [l] of the store in place, in their order,
    with at most one entry added behind them. *)
Theorem log_store_preserves_entries {P : Platform} (RT : JsonRoundTrip P)
        (w : world P) (entry : json) :
  fst (load_logs w) = w /\
  (forall l, stored_entries w = Some l ->
             log_file (fst (save_log entry w))
             = Content (json_dumps (JArr (l ++ [entry])%list)) /\
             stored_entries (fst (save_log entry w)) = Some (l ++ [entry])%list) /\
  (stored_entries w = None -> fst (save_log entry w) = w) /\
  (forall i l, stored_entries w = Some l ->
               stored_entries (fst (script i w)) = Some l \/
               exists e, stored_entries (fst (script i w)) = Some (l ++ [e])%list).
Proof.
  split; [apply load_logs_unchanged|]. split; [|split].
  - intros l Hl. rewrite (save_log_well_formed w entry l Hl).
    split; [reflexivity|]. unfold stored_entries. simpl.
    rewrite loads_dumps. reflexivity.
  - intros Hn. destruct (save_log_ill_formed w entry Hn) as [e He].
    rewrite He. reflexivity.
  - intros i l Hl. destruct (appends_script i w) as [Hsame | [l' [e [Hl' Hw]]]].
    + left. unfold stored_entries in *. rewrite Hsame. exact Hl.
    + right. exists e. rewrite Hl in Hl'. injection Hl' as <-.
      unfold stored_entries. rewrite Hw, loads_dumps. reflexivity.
Qed.

Lemma log_store_preserves_entries_witness :
  stored_entries
    (fst (save_log Lab.entry2
            (Lab.fresh Lab.offline (Content (Lab.Doc (JArr [Lab.entry1]))))))
  = Some [Lab.entry1; Lab.entry2].
Proof.
  exact (proj2 (proj1 (proj2 (log_store_preserves_entries
                  (lab_round_trip Lab.gateway_down Lab.model_down)
                  (Lab.fresh Lab.offline (Content (Lab.Doc (JArr [Lab.entry1]))))
                  Lab.entry2))
               [Lab.entry1] eq_refl)).
Defined.

(** * Further properties of the script *)

(** ** Strings *)

Lemma string_app_nil_r (s : string) : s ++ "" = s.
Proof. induction s as [|c s IH]; simpl; [reflexivity | now rewrite IH]. Qed.

Lemma string_app_assoc (a b c : string) : (a ++ b) ++ c = a ++ b ++ c.
Proof. induction a as [|x a IH]; simpl; [reflexivity | now rewrite IH]. Qed.

Lemma string_length_app (a b : string) :
  String.length (a ++ b) = (String.length a + String.length b)%nat.
Proof. induction a as [|x a IH]; simpl; [reflexivity | now rewrite IH]. Qed.

Lemma substring_whole (s : string) : substring 0 (String.length s) s = s.
Proof. induction s as [|c s IH]; simpl; [reflexivity | now rewrite IH]. Qed.

Lemma substring_after (pre s : string) (m : nat) :
  substring (String.length pre) m (pre ++ s) = substring 0 m s.
Proof. induction pre as [|c pre IH]; simpl; [reflexivity | exact IH]. Qed.

Lemma substring_split (s : string) (k : nat) :
  (k <= String.length s)%nat ->
  substring 0 k s ++ substring k (String.length s - k) s = s.
Proof.
  revert k. induction s as [|c s IH]; intros k Hk.
  - simpl in Hk. assert (k = 0%nat) by lia. subst k. reflexivity.
  - destruct k as [|k].
    + simpl. now rewrite substring_whole.
    + simpl in Hk. simpl. rewrite IH by lia. reflexivity.
Qed.

(** [s.endswith(suffix)] holds exactly of the strings [name ++ suffix]. *)
Lemma endswith_spec (s suffix : string) :
  endswith s suffix = true <-> exists name, s = name ++ suffix.
Proof.
  unfold endswith. split.
  - intros H. apply andb_prop in H. destruct H as [Hle Heq].
    apply Nat.leb_le in Hle. apply String.eqb_eq in Heq.
    exists (substring 0 (String.length s - String.length suffix) s).
    remember (String.length suffix) as m eqn:Hm.
    pose proof (substring_split s (String.length s - m)) as Hs.
    replace (String.length s - (String.length s - m))%nat with m in Hs by lia.
    rewrite Heq in Hs. symmetry. apply Hs. lia.
  - intros [name ->]. rewrite string_length_app.
    apply andb_true_intro. split.
    + apply Nat.leb_le. lia.
    + replace (String.length name + String.length suffix - String.length suffix)%nat
        with (String.length name) by lia.
      rewrite substring_after, substring_whole. apply String.eqb_refl.
Qed.

(** ** Login, logout and the session *)

(** X1: [login] opens a session only for an address of the form
    [name ++ "@gmail.com"] submitted with the Login button (the name may be
    empty), and then stops the run for a rerun with that address as the
    user; in every other case the session is left as it was.  It sends no
    request, asks no chat and leaves the log file alone. *)
Theorem login_admits_gmail_only {P : Platform} (i : inputs) (w : world P) :
  offline_step w (fst (login i w)) /\
  (forall name,
      login_clicked i = true -> email i = name ++ "@gmail.com" ->
      session_user (fst (login i w)) = Some (email i) /\
      snd (login i w) = Raise RerunException) /\
  ((login_clicked i = false \/ forall name, email i <> name ++ "@gmail.com") ->
   session_user (fst (login i w)) = session_user w /\
   snd (login i w) = Return tt).
Proof.
  unfold login. rewrite !bind_st.
  destruct (login_clicked i) eqn:Hc.
  - destruct (endswith (email i) "@gmail.com") eqn:He.
    + assert (Hn : negb (email i =? "") = true).
      { apply endswith_spec in He. destruct He as [name ->].
        destruct name; reflexivity. }
      rewrite Hn. cbv beta iota delta [andb].
      split; [repeat split|]. split.
      * intros name _ _. split; reflexivity.
      * intros [Hf | Hno]; [discriminate Hf|].
        apply endswith_spec in He. destruct He as [name Hname].
        exfalso. exact (Hno name Hname).
    + rewrite andb_false_r.
      split; [repeat split|]. split.
      * intros name _ Hname.
        assert (Ht : endswith (email i) "@gmail.com" = true)
          by (apply endswith_spec; exists name; exact Hname).
        rewrite He in Ht. discriminate Ht.
      * intros _. split; reflexivity.
  - split; [repeat split|]. split.
    + intros name Hf. discriminate Hf.
    + intros _. split; reflexivity.
Qed.

Lemma login_admits_gmail_only_witness :
  session_user
    (fst (login (P := Lab.offline) Runs.login_click
            (Runs.anonymous Lab.offline Missing)))
  = Some "agent@gmail.com" /\
  snd (login (P := Lab.offline) Runs.login_click
         (Runs.anonymous Lab.offline Missing))
  = Raise RerunException.
Proof.
  exact (proj1 (proj2 (login_admits_gmail_only (P := Lab.offline) Runs.login_click
                         (Runs.anonymous Lab.offline Missing)))
               "agent" eq_refl eq_refl).
Defined.

(** X2: without a session the script shows the login page and nothing
    else: whatever was typed or clicked on the page, no request is sent, no
    chat is asked and the log file is left alone. *)
Theorem anonymous_run_is_inert {P : Platform} (i : inputs) (w : world P) :
  session_user w = None ->
  offline_step w (fst (script i w)) /\
  exists more,
    rendered (fst (script i w))
    = (rendered w ++ [StTitle "Login"; StTextInput "Enter your Gmail address";
                      StButton "Login"] ++ more)%list /\
    (more = [] \/ more = [StError "Please use a valid Gmail address"]).
Proof.
  intros Hs. unfold script. rewrite Hs. unfold login. rewrite !bind_st.
  destruct (login_clicked i).
  - destruct (negb (email i =? "") && endswith (email i) "@gmail.com").
    + split; [repeat split|]. exists []. split; [|left; reflexivity].
      unfold bind, set_session_user, raise, render. cbn [fst rendered].
      rewrite <- !app_assoc. reflexivity.
    + split; [repeat split|]. exists [StError "Please use a valid Gmail address"].
      split; [|right; reflexivity].
      unfold st, render. cbn [fst rendered]. rewrite <- !app_assoc. reflexivity.
  - split; [repeat split|]. exists []. split; [|left; reflexivity].
    unfold ret, render. cbn [fst rendered]. rewrite <- !app_assoc. reflexivity.
Qed.

Lemma anonymous_run_is_inert_witness :
  offline_step (Runs.anonymous Lab.accepting Missing)
    (fst (script Runs.everything_clicked (Runs.anonymous Lab.accepting Missing))).
Proof.
  exact (proj1 (anonymous_run_is_inert Runs.everything_clicked
                  (Runs.anonymous Lab.accepting Missing) eq_refl)).
Defined.

(** X3: a click on Logout ends the session and stops the run for a rerun
    before anything else on the page is looked at: no call is started and
    no transcript fetched even if those buttons were clicked too, and the
    next run of the script shows the login page. *)
Theorem logout_ends_the_session {P : Platform} (i : inputs) (w : world P) (user : string) :
  session_user w = Some user ->
  logout_clicked i = true ->
  snd (app_main i w) = Raise RerunException /\
  session_user (fst (app_main i w)) = None /\
  offline_step w (fst (app_main i w)) /\
  rendered (fst (app_main i w))
  = (rendered w ++ [StSidebarWrite ("Logged in as: `" ++ user ++ "`");
                    StSidebarButton "Logout"])%list /\
  forall i', script i' (fst (app_main i w)) = login i' (fst (app_main i w)).
Proof.
  intros Hu Hlo.
  assert (Hrun : app_main i w
                 = ({| log_file := log_file w;
                       session_user := None;
                       requests_sent := requests_sent w;
                       chats_sent := chats_sent w;
                       rendered := (rendered w
                                      ++ [StSidebarWrite ("Logged in as: `" ++ user ++ "`");
                                          StSidebarButton "Logout"])%list |},
                    Raise RerunException)).
  { unfold app_main. unfold bind at 1. unfold session_state_user. rewrite Hu, Hlo.
    rewrite !bind_st. unfold bind, set_session_user, raise, render. cbn.
    rewrite <- !app_assoc. reflexivity. }
  rewrite Hrun. repeat split.
Qed.

Lemma logout_ends_the_session_witness :
  snd (app_main Runs.everything_clicked (Lab.fresh Lab.accepting Missing))
  = Raise RerunException /\
  requests_sent (fst (app_main Runs.everything_clicked (Lab.fresh Lab.accepting Missing)))
  = [].
Proof.
  pose proof (logout_ends_the_session Runs.everything_clicked
                (Lab.fresh Lab.accepting Missing) "agent@gmail.com" eq_refl eq_refl)
    as [Hr [_ [[Hq _] _]]].
  split; [exact Hr | exact Hq].
Defined.

(** ** The log store, further *)

Lemma save_log_frame {P : Platform} (entry : json) (w : world P) :
  session_user (fst (save_log entry w)) = session_user w /\
  requests_sent (fst (save_log entry w)) = requests_sent w /\
  chats_sent (fst (save_log entry w)) = chats_sent w /\
  rendered (fst (save_log entry w)) = rendered w.
Proof.
  destruct (stored_entries w) as [l|] eqn:Hl.
  - rewrite (save_log_well_formed w entry l Hl). repeat split.
  - destruct (save_log_ill_formed w entry Hl) as [e He]. rewrite He. repeat split.
Qed.

(** X4: [save_log] ends normally exactly when the log file is missing or
    holds a JSON list.  On an unreadable file it raises [PermissionError],
    on a file holding JSON that is no list (a dict, a string, a number,
    null) it raises [AttributeError]; either way the file and the rest of
    the world are as before. *)
Theorem save_log_succeeds_iff_store_is_a_list {P : Platform} (entry : json) (w : world P) :
  (snd (save_log entry w) = Return tt <-> stored_entries w <> None) /\
  (log_file w = Unreadable -> save_log entry w = (w, Raise PermissionError)) /\
  (forall t j,
      log_file w = Content t -> json_loads t = Some j -> (forall l, j <> JArr l) ->
      save_log entry w = (w, Raise AttributeError)).
Proof.
  split; [|split].
  - destruct (stored_entries w) as [l|] eqn:Hl.
    + rewrite (save_log_well_formed w entry l Hl). split; [discriminate | reflexivity].
    + destruct (save_log_ill_formed w entry Hl) as [e He]. rewrite He.
      split; [discriminate | intros H; now contradiction H].
  - intros Hf. unfold save_log, bind, try_except, json_load_log. rewrite Hf. reflexivity.
  - intros t j Hf Hj Hno. unfold save_log, bind, try_except, json_load_log.
    rewrite Hf, Hj.
    destruct j; try reflexivity. exfalso. exact (Hno items eq_refl).
Qed.

Lemma save_log_succeeds_iff_store_is_a_list_witness :
  save_log Lab.entry2 (Lab.fresh Lab.offline (Content (Lab.Doc (JStr "log"))))
  = (Lab.fresh Lab.offline (Content (Lab.Doc (JStr "log"))), Raise AttributeError).
Proof.
  refine (proj2 (proj2 (save_log_succeeds_iff_store_is_a_list Lab.entry2
                          (Lab.fresh Lab.offline (Content (Lab.Doc (JStr "log"))))))
                _ (JStr "log") eq_refl eq_refl _).
  intros l. discriminate.
Defined.

(** ** Start of a call, further *)

(** The four ways a run of [start_call] can go: the request or the decoding
    of the answer raises; the gateway refuses; the answer is no object; the
    entry is handed to [save_log]. *)
Lemma start_call_cases {P : Platform} (number : string) (w : world P) :
  (exists e, start_call number w = (sent (start_request number) w, Raise e)) \/
  start_call number w
  = (render [StError "Error: Unable to start call."] (sent (start_request number) w),
     Return tt) \/
  (exists data e, start_call number w = (call_accepted number data w, Raise e)) \/
  (exists data id,
      start_call number w
      = save_log (log_entry utcnow_isoformat id number) (call_accepted number data w)).
Proof.
  remember (start_call number w) as run eqn:Hrun.
  unfold start_call in Hrun. unfold bind at 1 in Hrun. unfold requests_call in Hrun.
  fold (sent (start_request number) w) in Hrun.
  destruct (requests_send (start_request number)) as [resp|e];
    [|left; exists e; exact Hrun].
  destruct (resp_ok resp); [|right; left; exact Hrun].
  unfold bind at 1 in Hrun. unfold lift at 1 in Hrun.
  destruct (response_json (resp_body resp)) as [data|];
    [|left; eexists; exact Hrun].
  cbv beta iota delta [of_option] in Hrun. rewrite !bind_st in Hrun.
  unfold bind at 1 in Hrun. unfold lift at 1 in Hrun.
  destruct (py_get data "id" JNull) as [id|e].
  - right. right. right. exists data, id. rewrite Hrun.
    unfold call_accepted, render, sent. cbn [rendered log_file session_user
                                               requests_sent chats_sent].
    reflexivity.
  - right. right. left. exists data, e. rewrite Hrun.
    unfold call_accepted, render, sent. cbn [rendered log_file session_user
                                               requests_sent chats_sent].
    reflexivity.
Qed.

(** X5: [start_call] sends exactly one request in every case, a POST to
    the call endpoint without timeout that carries the number as typed (an
    empty number included: nothing validates it), and it never asks the chat
    model nor touches the session. *)
Theorem start_call_sends_one_request {P : Platform} (number : string) (w : world P) :
  requests_sent (fst (start_call number w))
  = (requests_sent w ++ [start_request number])%list /\
  req_method (start_request number) = POST /\
  req_url (start_request number) = "https://api.vapi.ai/call/phone" /\
  req_timeout (start_request number) = None /\
  (exists payload,
      req_json (start_request number) = Some (JObj payload) /\
      dict_lookup "customer" payload = Some (JObj [("number", JStr number)])) /\
  chats_sent (fst (start_call number w)) = chats_sent w /\
  session_user (fst (start_call number w)) = session_user w.
Proof.
  assert (H : requests_sent (fst (start_call number w))
              = (requests_sent w ++ [start_request number])%list /\
              chats_sent (fst (start_call number w)) = chats_sent w /\
              session_user (fst (start_call number w)) = session_user w).
  { destruct (start_call_cases number w)
      as [[e Hr] | [Hr | [[data [e Hr]] | [data [id Hr]]]]]; rewrite Hr;
      try (repeat split; fail).
    destruct (save_log_frame (log_entry utcnow_isoformat id number)
                (call_accepted number data w)) as [Hu [Hq [Hc _]]].
    rewrite Hu, Hq, Hc. repeat split. }
  destruct H as [Hq [Hc Hu]].
  split; [exact Hq|]. split; [reflexivity|]. split; [reflexivity|].
  split; [reflexivity|]. split; [|split; assumption].
  eexists. split; reflexivity.
Qed.

(** X6: a success status does not make the body usable.  When the body of
    the success response cannot be decoded, [start_call] raises the
    decoding error before it renders anything; when it decodes to JSON that
    is no object, "Call initiated!" and the body are already on the page
    when the lookup of [id] raises [AttributeError].  In both cases the log
    file is left as it was. *)
Theorem start_call_unusable_success_body {P : Platform} (number : string) (w : world P)
        (resp : response text) :
  requests_send (start_request number) = Responded resp ->
  resp_ok resp = true ->
  (response_json (resp_body resp) = None ->
   start_call number w = (sent (start_request number) w, Raise JSONDecodeError)) /\
  (forall data,
      response_json (resp_body resp) = Some data -> is_dict data = false ->
      start_call number w = (call_accepted number data w, Raise AttributeError) /\
      log_file (call_accepted number data w) = log_file w).
Proof.
  intros Hs Hok. split.
  - intros Hj. unfold start_call, bind, requests_call, lift.
    rewrite Hs, Hok, Hj. reflexivity.
  - intros data Hj Hd. split; [|reflexivity].
    unfold start_call. unfold bind at 1. unfold requests_call. rewrite Hs, Hok.
    unfold bind at 1. unfold lift at 1. rewrite Hj.
    cbv beta iota delta [of_option]. rewrite !bind_st.
    unfold bind, lift. destruct data; try discriminate Hd; reflexivity.
Qed.

Lemma start_call_unusable_success_body_witness :
  start_call "+15551234567" (Lab.fresh Runs.answers_with_a_list Missing)
  = (call_accepted "+15551234567" (JArr [JStr "abc123"])
       (Lab.fresh Runs.answers_with_a_list Missing),
     Raise AttributeError).
Proof.
  exact (proj1 (proj2 (start_call_unusable_success_body "+15551234567"
                         (Lab.fresh Runs.answers_with_a_list Missing) _
                         eq_refl eq_refl)
                      (JArr [JStr "abc123"]) eq_refl eq_refl)).
Defined.

(** ** Fetching the details of a call, further *)

(** X7: [fetch_call_details] raises only when the request itself raises
    (connection error, timeout), and then with that exception.  On a success
    status it returns what [Response.json] decodes, and when that fails what
    [json.loads] decodes from the text, without rendering anything.  Once a
    response has arrived it always returns a value.  It never touches the log
    file, the session or the chat model. *)
Theorem fetch_call_details_outcome {P : Platform} (call_id : string) (w : world P) :
  (forall e, requests_send (fetch_request call_id) = NoResponse e ->
             fetch_call_details call_id w = (sent (fetch_request call_id) w, Raise e)) /\
  (forall resp j,
      requests_send (fetch_request call_id) = Responded resp -> resp_ok resp = true ->
      response_json (resp_body resp) = Some j ->
      fetch_call_details call_id w = (sent (fetch_request call_id) w, Return j)) /\
  (forall resp j,
      requests_send (fetch_request call_id) = Responded resp -> resp_ok resp = true ->
      response_json (resp_body resp) = None -> json_loads (resp_body resp) = Some j ->
      fetch_call_details call_id w = (sent (fetch_request call_id) w, Return j)) /\
  (forall resp,
      requests_send (fetch_request call_id) = Responded resp ->
      exists details, snd (fetch_call_details call_id w) = Return details) /\
  log_file (fst (fetch_call_details call_id w)) = log_file w /\
  session_user (fst (fetch_call_details call_id w)) = session_user w /\
  chats_sent (fst (fetch_call_details call_id w)) = chats_sent w.
Proof.
  split; [|split; [|split; [|split]]].
  - intros e Hs. unfold fetch_call_details, bind, requests_call. rewrite Hs. reflexivity.
  - intros resp j Hs Hok Hj. now apply fetch_call_details_decoded with (resp := resp).
  - intros resp j Hs Hok Hj Hl.
    unfold fetch_call_details, bind, requests_call, try_except, lift.
    rewrite Hs, Hok, Hj. simpl. rewrite Hl. reflexivity.
  - intros resp Hs. unfold fetch_call_details, bind, requests_call, try_except, lift.
    rewrite Hs. destruct (resp_ok resp); [|eexists; reflexivity].
    destruct (response_json (resp_body resp)); [eexists; reflexivity|]. simpl.
    destruct (json_loads (resp_body resp)); eexists; reflexivity.
  - unfold fetch_call_details, bind, requests_call, try_except, lift.
    destruct (requests_send (fetch_request call_id)) as [resp|e]; [|repeat split].
    destruct (resp_ok resp); [|repeat split].
    destruct (response_json (resp_body resp)); [repeat split|]. simpl.
    destruct (json_loads (resp_body resp)); repeat split.
Qed.

Lemma fetch_call_details_outcome_witness :
  fetch_call_details "abc123" (Lab.fresh Lab.offline Missing)
  = (sent (fetch_request (P := Lab.offline) "abc123") (Lab.fresh Lab.offline Missing),
     Raise RequestException).
Proof.
  exact (proj1 (fetch_call_details_outcome "abc123" (Lab.fresh Lab.offline Missing))
               RequestException eq_refl).
Defined.

(** ** The transcript action, further *)

(** X8: [show_transcript] goes on only with details that are a non-empty
    dict.  After a refused fetch the page carries two error lines, the one
    of [fetch_call_details] and the one of line 222; after a success whose
    body decodes to anything else (a list, a string, a number, null, the
    empty object) it carries the latter alone.  In both cases the action
    ends normally and the chat model is not asked. *)
Theorem show_transcript_needs_a_dict {P : Platform} (call_id : string) (w : world P)
        (resp : response text) :
  requests_send (fetch_request call_id) = Responded resp ->
  (resp_ok resp = false ->
   show_transcript call_id w
   = (render [StError "Failed to fetch call details.";
              StError "Could not fetch details or invalid response."]
        (sent (fetch_request call_id) w),
      Return tt)) /\
  (forall details,
      resp_ok resp = true ->
      response_json (resp_body resp) = Some details ->
      truthy details && is_dict details = false ->
      show_transcript call_id w
      = (render [StError "Could not fetch details or invalid response."]
           (sent (fetch_request call_id) w),
         Return tt)).
Proof.
  intros Hs. split.
  - intros Hok. unfold show_transcript. unfold bind at 1.
    unfold fetch_call_details. unfold bind at 1. unfold requests_call.
    rewrite Hs, Hok. rewrite bind_st. unfold ret. cbn [truthy andb].
    unfold st. rewrite render_render. reflexivity.
  - intros details Hok Hj Hd. unfold show_transcript. unfold bind at 1.
    rewrite (fetch_call_details_decoded call_id w resp details Hs Hok Hj).
    rewrite Hd. reflexivity.
Qed.

Lemma show_transcript_needs_a_dict_witness :
  show_transcript "abc123" (Lab.fresh Runs.answers_with_a_list Missing)
  = (render [StError "Could not fetch details or invalid response."]
       (sent (fetch_request (P := Runs.answers_with_a_list) "abc123")
          (Lab.fresh Runs.answers_with_a_list Missing)),
     Return tt).
Proof.
  exact (proj2 (show_transcript_needs_a_dict "abc123"
                  (Lab.fresh Runs.answers_with_a_list Missing) _ eq_refl)
               (JArr [JStr "abc123"]) eq_refl eq_refl eq_refl).
Defined.

Lemma show_transcript_dict {P : Platform} (call_id : string) (w : world P) resp fs :
  requests_send (fetch_request call_id) = Responded resp ->
  resp_ok resp = true ->
  response_json (resp_body resp) = Some (JObj fs) ->
  fs <> [] ->
  show_transcript call_id w
  = (parsed <- analyze_transcript (JObj fs) ;;
     structured <- lift (structured_data (JObj fs)) ;;
     export_workbook structured parsed) (sent (fetch_request call_id) w).
Proof.
  intros Hs Hok Hj Hne. unfold show_transcript. unfold bind at 1.
  rewrite (fetch_call_details_decoded call_id w resp (JObj fs) Hs Hok Hj).
  destruct fs as [|f fs]; [contradiction|]. reflexivity.
Qed.

Lemma analyze_transcript_absent {P : Platform} fs (w : world P) :
  truthy (dict_get fs "transcript" JNull) = false ->
  analyze_transcript (JObj fs) w
  = (render [StInfo "No transcript available for this call."] w, Return (JArr [])).
Proof.
  intros Ht. unfold analyze_transcript. unfold bind at 1. unfold lift at 1.
  unfold py_get. rewrite Ht. reflexivity.
Qed.

(** X9: when the details carry no transcript (none, null or the empty
    string), the page says so, neither TextBlob nor the chat model is
    called, and the export still takes place: with structured data the
    workbook is offered with the placeholder as its QA sheet. *)
Theorem no_transcript_no_evaluation {P : Platform} (call_id : string) (w : world P)
        resp fs structured df :
  requests_send (fetch_request call_id) = Responded resp ->
  resp_ok resp = true ->
  response_json (resp_body resp) = Some (JObj fs) ->
  fs <> [] ->
  truthy (dict_get fs "transcript" JNull) = false ->
  structured_data (JObj fs) = Return structured ->
  (truthy structured = true -> pd_DataFrame (JArr [structured]) = Return df) ->
  show_transcript call_id w
  = (render (StInfo "No transcript available for this call."
               :: export_widgets structured df)
       (sent (fetch_request call_id) w),
     Return tt) /\
  chats_sent (fst (show_transcript call_id w)) = chats_sent w.
Proof.
  intros Hs Hok Hj Hne Ht Hd Hdf.
  assert (Hrun : show_transcript call_id w
                 = (render (StInfo "No transcript available for this call."
                              :: export_widgets structured df)
                      (sent (fetch_request call_id) w),
                    Return tt)).
  { rewrite (show_transcript_dict call_id w resp fs Hs Hok Hj Hne).
    unfold bind at 1. rewrite (analyze_transcript_absent fs _ Ht).
    rewrite Hd, bind_lift_Return.
    rewrite (export_workbook_no_results structured df _ Hdf), render_render.
    reflexivity. }
  rewrite Hrun. split; reflexivity.
Qed.

Lemma no_transcript_no_evaluation_witness :
  rendered (fst (show_transcript "abc123" (Lab.fresh Runs.outcome_only Missing)))
  = [StInfo "No transcript available for this call.";
     download_button
       [("CallData",
         {| columns := [JStr "appointment"]; rows := [[Some (JStr "booked")]] |});
        ("QA Evaluation", placeholder_frame)]].
Proof.
  refine (f_equal (fun r => rendered (fst r))
            (proj1 (no_transcript_no_evaluation "abc123"
                      (Lab.fresh Runs.outcome_only Missing) _
                      [("transcript", JNull);
                       ("analysis",
                        JObj [("structuredData", JObj [("appointment", JStr "booked")])])]
                      (JObj [("appointment", JStr "booked")])
                      {| columns := [JStr "appointment"];
                         rows := [[Some (JStr "booked")]] |}
                      eq_refl eq_refl eq_refl _ eq_refl eq_refl (fun _ => eq_refl)))).
  discriminate.
Defined.

(** ** QA evaluation, further *)

(** X10: whatever the chat model does (an error, a completion without
    content, prose, any JSON), [evaluate_qa] ends normally.  It asks the
    model exactly once, leaves the log file, the session and the HTTP
    requests as they were, and adds no download button to the page. *)
Theorem evaluate_qa_always_returns {P : Platform} (s : string) (w : world P) :
  exists w' parsed new,
    evaluate_qa s w = (w', Return parsed) /\
    chats_sent w' = (chats_sent w ++ [qa_request s])%list /\
    log_file w' = log_file w /\
    session_user w' = session_user w /\
    requests_sent w' = requests_sent w /\
    rendered w' = (rendered w ++ new)%list /\
    existsb is_download_button new = false.
Proof.
  destruct (evaluate_qa_outcome s w) as [w' [parsed [Hrun He]]].
  destruct He as [Hl [Hu [Hq [Hc [new [Hr Hp]]]]]].
  exists w', parsed, new. repeat split; try assumption.
  now apply plain_no_button.
Qed.

Lemma try_qa_failed_value {P : Platform} (c : M (P := P) unit) (parsed : json)
      (w : world P) :
  tame c ->
  snd (try_except (c ;; ret parsed) is_Exception (fun e => qa_failed e ;; ret parsed) w)
  = Return parsed.
Proof.
  intros Hc. unfold try_except. unfold bind at 1.
  destruct (Hc w) as [_ Ho]. destruct (c w) as [w1 [[]|e]]; simpl in Ho.
  - reflexivity.
  - rewrite (Ho e eq_refl). unfold bind. rewrite qa_failed_run. reflexivity.
Qed.

(** X11: the QA result that [evaluate_qa] hands to the export is decided
    by the parsing alone.  When the content of the completion parses, the
    result is the parsed value, whether or not its rendering then fails;
    when the chat call fails or the completion has no content, the failure
    is reported and the result is the empty list. *)
Theorem evaluate_qa_result {P : Platform} (s : string) (w : world P) :
  (forall t parsed,
      groq_create (qa_request s) = Completion (Some t) ->
      json_loads t = Some parsed ->
      snd (evaluate_qa s w) = Return parsed) /\
  (forall e,
      groq_create (qa_request s) = ChatFailed e ->
      evaluate_qa s w
      = (render (qa_failure_widgets e) (asked (qa_request s) w), Return (JArr []))) /\
  (groq_create (qa_request s) = Completion None ->
   evaluate_qa s w
   = (render (qa_failure_widgets TypeError) (asked (qa_request s) w), Return (JArr []))).
Proof.
  split; [|split].
  - intros t parsed Hg Hl. rewrite (evaluate_qa_parsed s t parsed w Hg Hl).
    apply try_qa_failed_value. apply tame_render_results.
  - intros e Hg. unfold evaluate_qa, try_except at 1. unfold bind at 1.
    unfold groq_call. rewrite Hg. cbv beta iota delta [is_Exception].
    fold (asked (qa_request s) w). unfold bind. rewrite qa_failed_run. reflexivity.
  - intros Hg. unfold evaluate_qa, try_except at 1. unfold bind at 1.
    unfold groq_call. rewrite Hg. unfold bind at 1. unfold lift at 1.
    cbv beta iota delta [loads_content is_Exception].
    fold (asked (qa_request s) w). unfold bind. rewrite qa_failed_run. reflexivity.
Qed.

Lemma evaluate_qa_result_witness :
  snd (evaluate_qa "Hello, this is..." (Lab.fresh Lab.incomplete_item Missing))
  = Return (JArr [Lab.item_without_explanation]).
Proof.
  exact (proj1 (evaluate_qa_result "Hello, this is..."
                  (Lab.fresh Lab.incomplete_item Missing))
               (Lab.Doc (JArr [Lab.item_without_explanation]))
               (JArr [Lab.item_without_explanation]) eq_refl eq_refl).
Defined.

(** X12: an answer that is a JSON list is rendered up to its first item on
    which the loop body raises: a missing field ([KeyError]), an item that
    is no dict ([TypeError]), a rating that reads as digits but is no
    decimal number ([ValueError] from [int]), a score whose fifth is past
    the floats ([OverflowError]), a score above 5 ([StreamlitAPIException]),
    a numeric rating with a question that is no string.  The items before
    it stay on the page, the widgets of the failing item rendered so far
    too, then the failure is reported with the exception raised; the items
    after it are not looked at, and the whole parsed list is the QA result.
    Every list either goes through as a whole or has such a first failing
    item. *)
Theorem evaluate_qa_stops_at_first_failure {P : Platform} (s : string) (t : text)
        (items : list json) (w : world P) :
  groq_create (qa_request s) = Completion (Some t) ->
  json_loads t = Some (JArr items) ->
  (forallb renderable items = true \/
   exists good bad rest shown e,
     items = (good ++ bad :: rest)%list /\
     forallb renderable good = true /\
     item_failure bad = Some (shown, e)) /\
  (forall good bad rest shown e,
      items = (good ++ bad :: rest)%list ->
      forallb renderable good = true ->
      item_failure bad = Some (shown, e) ->
      evaluate_qa s w
      = (render ((StSubheader "📝 QA Evaluation Results"
                    :: flat_map item_widgets good ++ shown)
                 ++ qa_failure_widgets e)%list
           (asked (qa_request s) w),
         Return (JArr items))).
Proof.
  intros Hg Hl. split; [apply first_failure_split|].
  intros good bad rest shown e -> Hgood Hbad.
  rewrite (evaluate_qa_parsed s t _ w Hg Hl).
  unfold try_except. unfold bind at 1. unfold render_results.
  rewrite bind_st. unfold py_iter. rewrite bind_lift_Return.
  unfold bind at 1.
  rewrite (for_each_first_failure good bad rest shown e Hgood Hbad).
  rewrite (item_failure_ordinary bad shown e Hbad).
  unfold bind. rewrite qa_failed_run, !render_render. reflexivity.
Qed.

Lemma evaluate_qa_stops_at_first_failure_witness :
  rendered (fst (evaluate_qa "Hello, this is..." (Lab.fresh Runs.overrated Missing)))
  = [StSubheader "📝 QA Evaluation Results";
     StMarkdown "**Q:** Did the agent speak confidently?";
     StWrite "**Rating:** 4";
     StWrite "**Explanation:** Steady pace.";
     StProgress 4;
     StMarkdown scale_legend;
     StMarkdown "---";
     StMarkdown "**Q:** Was the agent professional throughout the call?";
     StWrite "**Rating:** 7";
     StWrite "**Explanation:** Beyond expectations.";
     StError "LLaMA evaluation failed.";
     StException StreamlitAPIException].
Proof.
  rewrite (proj2 (evaluate_qa_stops_at_first_failure (P := Runs.overrated)
                    "Hello, this is..." (Lab.Doc (JArr Runs.rating_above_scale))
                    Runs.rating_above_scale (Lab.fresh Runs.overrated Missing)
                    eq_refl eq_refl)
                 [JObj [("question", JStr "Did the agent speak confidently?");
                        ("rating", JInt 4);
                        ("explanation", JStr "Steady pace.")]]
                 (JObj [("question", JStr "Was the agent professional throughout the call?");
                        ("rating", JInt 7);
                        ("explanation", JStr "Beyond expectations.")])
                 [JObj [("question", JStr "Did the agent display active listening skills?");
                        ("rating", JInt 5);
                        ("explanation", JStr "Repeated the request back.")]]
                 [StMarkdown "**Q:** Was the agent professional throughout the call?";
                  StWrite "**Rating:** 7";
                  StWrite "**Explanation:** Beyond expectations."]
                 (Exc StreamlitAPIException)
                 eq_refl eq_refl eq_refl).
  reflexivity.
Defined.

Lemma chars_nonempty (s : string) : s <> "" -> exists c l, chars s = c :: l.
Proof.
  intros Hs. unfold chars. destruct s as [|c s]; [contradiction Hs; reflexivity|].
  cbn [chars_from]. destruct (chars_from s) as [more l].
  destruct (is_continuation c); eexists; eexists; reflexivity.
Qed.

(** X13: an answer that is valid JSON but no list.  A number, a boolean
    or null cannot be iterated; a non-empty object is iterated over its keys
    and a non-empty string over its characters, which cannot be indexed by
    a field name: in all these cases the evaluation is reported as failed
    with [TypeError] right under the results header, and the parsed value
    is kept as the QA result.  The empty object and the empty string give
    an empty loop: the header alone, no failure reported. *)
Theorem evaluate_qa_answer_not_a_list {P : Platform} (s : string) (t : text)
        (parsed : json) (w : world P) :
  groq_create (qa_request s) = Completion (Some t) ->
  json_loads t = Some parsed ->
  (forall l, parsed <> JArr l) ->
  ((parsed = JObj [] \/ parsed = JStr "") ->
   evaluate_qa s w
   = (render [StSubheader "📝 QA Evaluation Results"] (asked (qa_request s) w),
      Return parsed)) /\
  (parsed <> JObj [] -> parsed <> JStr "" ->
   evaluate_qa s w
   = (render (StSubheader "📝 QA Evaluation Results" :: qa_failure_widgets TypeError)
        (asked (qa_request s) w),
      Return parsed)).
Proof.
  intros Hg Hl Hno. rewrite (evaluate_qa_parsed s t parsed w Hg Hl). split.
  - intros [-> | ->]; unfold try_except, bind, render_results, bind, st, lift, ret;
      cbn [py_iter map chars chars_from for_each fst]; unfold ret; reflexivity.
  - intros Ho Hs.
    unfold try_except. unfold bind at 1. unfold render_results.
    rewrite bind_st.
    destruct parsed as [|b|n|f|str|items|fs].
    + cbn [py_iter]. rewrite bind_lift_Raise. cbv beta iota delta [is_Exception].
      unfold bind. rewrite qa_failed_run, render_render. reflexivity.
    + cbn [py_iter]. rewrite bind_lift_Raise. cbv beta iota delta [is_Exception].
      unfold bind. rewrite qa_failed_run, render_render. reflexivity.
    + cbn [py_iter]. rewrite bind_lift_Raise. cbv beta iota delta [is_Exception].
      unfold bind. rewrite qa_failed_run, render_render. reflexivity.
    + cbn [py_iter]. rewrite bind_lift_Raise. cbv beta iota delta [is_Exception].
      unfold bind. rewrite qa_failed_run, render_render. reflexivity.
    + destruct (chars_nonempty str) as [c [l Hc]];
        [intros ->; contradiction Hs; reflexivity|].
      unfold py_iter. rewrite bind_lift_Return, Hc. cbn [map].
      unfold bind at 1.
      rewrite (for_each_fails_at_head (JStr c) _ [] TypeError eq_refl).
      cbv beta iota delta [is_Exception].
      unfold bind. rewrite qa_failed_run, !render_render. reflexivity.
    + exfalso. exact (Hno items eq_refl).
    + destruct fs as [|[k x] fs]; [contradiction Ho; reflexivity|].
      unfold py_iter. rewrite bind_lift_Return. cbn [map fst].
      unfold bind at 1.
      rewrite (for_each_fails_at_head (JStr k) _ [] TypeError eq_refl).
      cbv beta iota delta [is_Exception].
      unfold bind. rewrite qa_failed_run, !render_render. reflexivity.
Qed.

Lemma evaluate_qa_answer_not_a_list_witness :
  evaluate_qa "Hello, this is..." (Lab.fresh Runs.wrapping Missing)
  = (render [StSubheader "📝 QA Evaluation Results";
             StError "LLaMA evaluation failed."; StException TypeError]
       (asked (qa_request "Hello, this is...") (Lab.fresh Runs.wrapping Missing)),
     Return Runs.wrapped_answer).
Proof.
  refine (proj2 (evaluate_qa_answer_not_a_list (P := Runs.wrapping)
                   "Hello, this is..." (Lab.Doc Runs.wrapped_answer) Runs.wrapped_answer
                   (Lab.fresh Runs.wrapping Missing) eq_refl eq_refl _) _ _).
  - intros l. discriminate.
  - discriminate.
  - discriminate.
Defined.

(** ** Ratings, as numbers and as text *)

Lemma uint_value_rev (d : Decimal.uint) (acc : N) :
  (uint_value d acc
   = DecimalPos.Unsigned.of_lu (Decimal.rev d) + acc * 10 ^ DecimalPos.Unsigned.usize d)%N.
Proof.
  revert acc. induction d; intros acc;
    [simpl; now rewrite N.mul_1_r | ..];
    cbn [DecimalPos.Unsigned.usize]; rewrite N.pow_succ_r';
    unfold Decimal.rev; cbn [Decimal.revapp];
    rewrite DecimalPos.Unsigned.of_lu_revapp; cbn [uint_value]; rewrite IHd;
    fold (Decimal.rev d);
    match goal with
    | |- context [DecimalPos.Unsigned.of_lu ?k] =>
        match k with
        | Decimal.rev _ => fail 1
        | _ => let v := eval vm_compute in (DecimalPos.Unsigned.of_lu k) in
               change (DecimalPos.Unsigned.of_lu k) with v
        end
    end; generalize (10 ^ DecimalPos.Unsigned.usize d)%N; intros p; nia.
Qed.

Lemma uint_value_of_uint (d : Decimal.uint) : uint_value d 0 = Pos.of_uint d.
Proof.
  rewrite uint_value_rev, DecimalPos.Unsigned.of_uint_alt.
  rewrite N.mul_0_l. apply N.add_0_r.
Qed.

Lemma digits_fold_uint (d : Decimal.uint) (acc : N) :
  fold_left (fun a c => (a * 10 + (Z.of_nat (nat_of_ascii c) - 48))%Z)
            (list_ascii_of_string (NilEmpty.string_of_uint d)) (Z.of_N acc)
  = Z.of_N (uint_value d acc).
Proof.
  revert acc. induction d; intros acc; [reflexivity | ..];
    cbn [NilEmpty.string_of_uint list_ascii_of_string fold_left uint_value];
    rewrite <- IHd; f_equal;
    match goal with
    | |- context [Z.of_nat (nat_of_ascii ?c)] =>
        let v := eval vm_compute in (Z.of_nat (nat_of_ascii c)) in
        change (Z.of_nat (nat_of_ascii c)) with v
    end; lia.
Qed.

Lemma digits_of_uint (d : Decimal.uint) :
  forallb is_digit_char (list_ascii_of_string (NilEmpty.string_of_uint d)) = true.
Proof. induction d; simpl; trivial. Qed.

Lemma ascii_of_uint (d : Decimal.uint) :
  forallb is_ascii_char (list_ascii_of_string (NilEmpty.string_of_uint d)) = true.
Proof. induction d; simpl; trivial. Qed.

(** [str(n)] is made of ASCII characters. *)
Lemma is_ascii_int_str (n : Z) : is_ascii (int_str n) = true.
Proof.
  assert (Hu : forall d, is_ascii (NilZero.string_of_uint d) = true).
  { intros d. unfold is_ascii, NilZero.string_of_uint.
    destruct d; try reflexivity; apply ascii_of_uint. }
  unfold int_str. destruct (Z.to_int n) as [d|d]; cbn [NilZero.string_of_int].
  - apply Hu.
  - unfold is_ascii. cbn [list_ascii_of_string forallb]. apply (Hu d).
Qed.

Lemma ascii_isdigit_int_str (n : Z) : ascii_isdigit (int_str n) = (0 <=? n)%Z.
Proof.
  unfold int_str. destruct n as [|p|p]; [reflexivity | | reflexivity].
  simpl Z.to_int. simpl NilZero.string_of_int. unfold NilZero.string_of_uint.
  pose proof (DecimalPos.Unsigned.to_uint_nonnil p) as Hn.
  destruct (Pos.to_uint p) eqn:Hd; try congruence;
    rewrite <- Hd; unfold ascii_isdigit;
    (destruct (NilEmpty.string_of_uint (Pos.to_uint p)) eqn:Hs;
     [rewrite Hd in Hs; discriminate Hs | rewrite <- Hs; apply digits_of_uint]).
Qed.

(** [str(n)] is a run of digits exactly when [n] is not negative. *)
Lemma isdigit_int_str {P : Platform} (n : Z) : isdigit (int_str n) = (0 <=? n)%Z.
Proof. unfold isdigit. rewrite is_ascii_int_str. apply ascii_isdigit_int_str. Qed.

(** [int(str(n))] is [n] again. *)
Lemma digits_value_int_str (n : Z) : (0 <= n)%Z -> digits_value (int_str n) = n.
Proof.
  intros Hn. unfold int_str, digits_value. destruct n as [|p|p]; [reflexivity | | lia].
  simpl Z.to_int. simpl NilZero.string_of_int. unfold NilZero.string_of_uint.
  pose proof (DecimalPos.Unsigned.to_uint_nonnil p) as Hnil.
  assert (H : fold_left (fun a c => (a * 10 + (Z.of_nat (nat_of_ascii c) - 48))%Z)
                (list_ascii_of_string (NilEmpty.string_of_uint (Pos.to_uint p))) 0%Z
              = Z.pos p).
  { change 0%Z with (Z.of_N 0). rewrite digits_fold_uint, uint_value_of_uint.
    rewrite DecimalPos.Unsigned.of_to. reflexivity. }
  destruct (Pos.to_uint p); try congruence; exact H.
Qed.

Lemma str_int_int_str {P : Platform} (n : Z) :
  (0 <= n)%Z -> str_int (int_str n) = Return n.
Proof.
  intros Hn. unfold str_int.
  rewrite is_ascii_int_str, ascii_isdigit_int_str, (digits_value_int_str n Hn).
  replace (0 <=? n)%Z with true by (symmetry; apply Z.leb_le; exact Hn).
  reflexivity.
Qed.

Lemma render_item_fields {P : Platform} (acc : list Z * list string) (q r x : json)
      (w : world P) :
  render_item acc (qa_item q r x) w
  = (acc' <- (if isdigit (pstr r) then
                score <- lift (py_int r) ;;
                st_progress score ;;
                st (StMarkdown scale_legend) ;;
                label <- lift (slice50_dots q) ;;
                ret ((fst acc ++ [score])%list, (snd acc ++ [label])%list)
              else
                st (StMarkdown "**Rating Scale:** N/A (Not Applicable)") ;;
                ret acc) ;;
     st (StMarkdown "---") ;;
     ret acc') (render (item_lines q r x) w).
Proof.
  unfold render_item, qa_item, item_lines.
  cbn [py_getitem dict_lookup String.eqb Ascii.eqb Bool.eqb].
  rewrite bind_lift_Return, bind_st, bind_lift_Return, bind_st, bind_lift_Return, bind_st.
  rewrite !render_render. reflexivity.
Qed.

(** X14: a rating that is a non-negative int and the rating that is its
    decimal text are the same to the loop body: the same lines, the same
    meter or the same refusal by the meter, the same score for the chart. *)
Theorem digit_string_rating_reads_as_int {P : Platform} (acc : list Z * list string)
        (q x : json) (n : Z) (w : world P) :
  (0 <= n)%Z ->
  render_item acc (qa_item q (JStr (int_str n)) x) w
  = render_item acc (qa_item q (JInt n) x) w.
Proof.
  intros Hn. rewrite !render_item_fields.
  unfold item_lines.
  change (pstr (JStr (int_str n))) with (int_str n).
  change (pstr (JInt n)) with (int_str n).
  cbn [py_int]. rewrite (str_int_int_str n Hn). reflexivity.
Qed.

Lemma digit_string_rating_reads_as_int_witness :
  render_item ([], []) (qa_item (JStr "Did the agent speak confidently?") (JStr "4")
                          (JStr "Steady pace."))
    (Lab.fresh Lab.offline Missing)
  = render_item ([], []) (qa_item (JStr "Did the agent speak confidently?") (JInt 4)
                            (JStr "Steady pace."))
      (Lab.fresh Lab.offline Missing).
Proof.
  refine (digit_string_rating_reads_as_int ([], [])
            (JStr "Did the agent speak confidently?") (JStr "Steady pace.") 4
            (Lab.fresh Lab.offline Missing) _).
  lia.
Defined.

(** X15: the rating as an int.  A negative one does not read as digits
    (its text starts with a sign): the item is shown as not applicable and
    adds nothing to the chart.  From 0 to 5 it is metered and goes to the
    chart with the first 50 characters of the question, and three dots, as
    its label.  Above 5 the loop body raises with the three lines of the
    item on the page: [StreamlitAPIException] from the meter as long as
    [score / 5] is a float, [OverflowError] from the division itself once
    the rounded quotient is past the largest float, that is from
    5 * (2^1024 - 2^970) on.  The meter is thus never refused for a value
    below its range. *)
Theorem int_rating_metering {P : Platform} (acc : list Z * list string)
        (q : string) (x : json) (n : Z) (w : world P) :
  ((n < 0)%Z ->
   render_item acc (qa_item (JStr q) (JInt n) x) w
   = (render (item_lines (JStr q) (JInt n) x
              ++ [StMarkdown "**Rating Scale:** N/A (Not Applicable)"; StMarkdown "---"])
        w,
      Return acc)) /\
  ((0 <= n <= 5)%Z ->
   render_item acc (qa_item (JStr q) (JInt n) x) w
   = (render (item_lines (JStr q) (JInt n) x
              ++ [StProgress n; StMarkdown scale_legend; StMarkdown "---"])
        w,
      Return ((fst acc ++ [n])%list,
              (snd acc ++ [(take_chars 50 q ++ "...")%string])%list))) /\
  ((5 < n < 5 * (2 ^ 1024 - 2 ^ 970))%Z ->
   render_item acc (qa_item (JStr q) (JInt n) x) w
   = (render (item_lines (JStr q) (JInt n) x) w, Raise StreamlitAPIException)) /\
  ((5 * (2 ^ 1024 - 2 ^ 970) <= n)%Z ->
   render_item acc (qa_item (JStr q) (JInt n) x) w
   = (render (item_lines (JStr q) (JInt n) x) w, Raise OverflowError)).
Proof.
  rewrite render_item_fields.
  change (pstr (JInt n)) with (int_str n). rewrite isdigit_int_str.
  pose proof scale_below_float_range as Hrange.
  unfold st_progress, div5_overflows.
  remember (5 * (2 ^ 1024 - 2 ^ 970))%Z as limit eqn:Hlimit. clear Hlimit.
  split; [|split; [|split]]; intros Hn.
  - replace (0 <=? n)%Z with false by (symmetry; apply Z.leb_gt; lia).
    cbv beta iota delta [bind st ret]. rewrite !render_render. reflexivity.
  - cbn [py_int slice50_dots].
    cbv beta iota delta [bind st ret lift andb].
    replace (limit <=? Z.abs n)%Z with false by (symmetry; apply Z.leb_gt; lia).
    replace (0 <=? n)%Z with true by (symmetry; apply Z.leb_le; lia).
    replace (n <=? 5)%Z with true by (symmetry; apply Z.leb_le; lia).
    rewrite !render_render. reflexivity.
  - cbn [py_int slice50_dots].
    cbv beta iota delta [bind st ret lift raise andb].
    replace (limit <=? Z.abs n)%Z with false by (symmetry; apply Z.leb_gt; lia).
    replace (0 <=? n)%Z with true by (symmetry; apply Z.leb_le; lia).
    replace (n <=? 5)%Z with false by (symmetry; apply Z.leb_gt; lia).
    reflexivity.
  - cbn [py_int slice50_dots].
    cbv beta iota delta [bind st ret lift raise andb].
    replace (0 <=? n)%Z with true by (symmetry; apply Z.leb_le; lia).
    replace (limit <=? Z.abs n)%Z with true by (symmetry; apply Z.leb_le; lia).
    reflexivity.
Qed.

Lemma int_rating_metering_witness :
  render_item ([], []) (qa_item (JStr "Did the agent speak confidently?") (JInt (10 ^ 400))
                          (JStr "Off the scale."))
    (Lab.fresh Lab.offline Missing)
  = (render (item_lines (P := Lab.offline) (JStr "Did the agent speak confidently?")
               (JInt (10 ^ 400)) (JStr "Off the scale."))
       (Lab.fresh Lab.offline Missing),
     Raise OverflowError).
Proof.
  refine (proj2 (proj2 (proj2 (int_rating_metering ([], [])
                                 "Did the agent speak confidently?"
                                 (JStr "Off the scale.") (10 ^ 400)
                                 (Lab.fresh Lab.offline Missing)))) _).
  apply Z.leb_le. vm_compute. reflexivity.
Defined.

(** ** The transcript action: values of the wrong type *)

(** X16: the analysis has to be a dict.  The default [{}] of line 204
    covers a missing [analysis] only: when the field is present with any
    other value (null, a string, a list) the second [.get] raises
    [AttributeError], which nothing catches.  Without a transcript this
    happens right after the notice; with one, after the whole QA
    evaluation.  No download button is reached. *)
Theorem analysis_must_be_a_dict {P : Platform} (call_id : string) (w : world P)
        resp fs a :
  requests_send (fetch_request call_id) = Responded resp ->
  resp_ok resp = true ->
  response_json (resp_body resp) = Some (JObj fs) ->
  dict_lookup "analysis" fs = Some a ->
  is_dict a = false ->
  (truthy (dict_get fs "transcript" JNull) = false ->
   show_transcript call_id w
   = (render [StInfo "No transcript available for this call."]
        (sent (fetch_request call_id) w),
      Raise AttributeError)) /\
  (forall s,
      dict_lookup "transcript" fs = Some (JStr s) -> s <> "" ->
      exists w1 parsed,
        evaluate_qa s (render (transcript_widgets s) (sent (fetch_request call_id) w))
        = (w1, Return parsed) /\
        show_transcript call_id w = (w1, Raise AttributeError)).
Proof.
  intros Hs Hok Hj Ha Hd.
  assert (Hsd : structured_data (JObj fs) = Raise AttributeError).
  { unfold structured_data, py_get, dict_get. rewrite Ha.
    destruct a; try reflexivity. discriminate Hd. }
  split.
  - intros Ht.
    rewrite (show_transcript_dict call_id w resp fs Hs Hok Hj).
    2:{ intros ->. discriminate Ha. }
    unfold bind at 1. rewrite (analyze_transcript_absent fs _ Ht).
    rewrite Hsd, bind_lift_Raise. reflexivity.
  - intros s Ht Hne.
    destruct (show_transcript_details call_id w resp fs s Hs Hok Hj Ht Hne)
      as [w1 [parsed [Hrun [_ Hshow]]]].
    exists w1, parsed. split; [exact Hrun|].
    rewrite Hshow, Hsd, bind_lift_Raise. reflexivity.
Qed.

Lemma analysis_must_be_a_dict_witness :
  show_transcript "abc123" (Lab.fresh Runs.analysis_null Missing)
  = (render [StInfo "No transcript available for this call."]
       (sent (fetch_request (P := Runs.analysis_null) "abc123")
          (Lab.fresh Runs.analysis_null Missing)),
     Raise AttributeError).
Proof.
  exact (proj1 (analysis_must_be_a_dict "abc123" (Lab.fresh Runs.analysis_null Missing)
                  _ [("transcript", JNull); ("analysis", JNull)] JNull
                  eq_refl eq_refl eq_refl eq_refl eq_refl)
               eq_refl).
Defined.

(** X17: the transcript has to be a string.  A transcript that is truthy
    but no string (a list of turns, a dict, a number) is put on the page as
    text, then [TextBlob] refuses it with [TypeError] before any sentiment
    line is written; the exception is outside the [try] block of the
    evaluation and ends the action: the chat model is not asked and nothing
    is exported. *)
Theorem transcript_must_be_a_string {P : Platform} (call_id : string) (w : world P)
        resp fs tr :
  requests_send (fetch_request call_id) = Responded resp ->
  resp_ok resp = true ->
  response_json (resp_body resp) = Some (JObj fs) ->
  dict_lookup "transcript" fs = Some tr ->
  truthy tr = true ->
  (forall s, tr <> JStr s) ->
  show_transcript call_id w
  = (render [StMarkdown "### 📄 Full Transcript"; StText (pstr tr);
             StSubheader "😊 Sentiment Analysis"]
       (sent (fetch_request call_id) w),
     Raise TypeError) /\
  chats_sent (fst (show_transcript call_id w)) = chats_sent w.
Proof.
  intros Hs Hok Hj Ht Htr Hno.
  assert (Hrun : show_transcript call_id w
                 = (render [StMarkdown "### 📄 Full Transcript"; StText (pstr tr);
                            StSubheader "😊 Sentiment Analysis"]
                      (sent (fetch_request call_id) w),
                    Raise TypeError)).
  { rewrite (show_transcript_dict call_id w resp fs Hs Hok Hj).
    2:{ intros ->. discriminate Ht. }
    unfold bind at 1. unfold analyze_transcript. unfold bind at 1. unfold lift at 1.
    unfold py_get, dict_get. rewrite Ht, Htr. rewrite !bind_st.
    assert (Hb : text_blob tr = Raise TypeError).
    { destruct tr; try reflexivity. exfalso. exact (Hno s eq_refl). }
    rewrite Hb, bind_lift_Raise, !render_render. reflexivity. }
  rewrite Hrun. split; reflexivity.
Qed.

Lemma transcript_must_be_a_string_witness :
  show_transcript "abc123" (Lab.fresh Runs.transcript_in_turns Missing)
  = (render [StMarkdown "### 📄 Full Transcript";
             StText (pstr (P := Runs.transcript_in_turns) Runs.turns);
             StSubheader "😊 Sentiment Analysis"]
       (sent (fetch_request (P := Runs.transcript_in_turns) "abc123")
          (Lab.fresh Runs.transcript_in_turns Missing)),
     Raise TypeError).
Proof.
  refine (proj1 (transcript_must_be_a_string "abc123"
                   (Lab.fresh Runs.transcript_in_turns Missing)
                   _ [("transcript", Runs.turns)] Runs.turns
                   eq_refl eq_refl eq_refl eq_refl eq_refl _)).
  intros s. discriminate.
Defined.

(** ** The traffic of a whole run *)

Section Traffic.
Context {P : Platform} {X : Type}.
Variable proj : world P -> X.
(** [proj] looks at the requests and the chats only. *)
Hypothesis proj_traffic :
  forall w w' : world P,
    requests_sent w' = requests_sent w -> chats_sent w' = chats_sent w ->
    proj w' = proj w.

Lemma leaves_ret {A : Type} (a : A) : leaves proj (ret a).
Proof. intros w. reflexivity. Qed.

Lemma leaves_raise {A : Type} (e : exn) : leaves proj (@raise _ A e).
Proof. intros w. reflexivity. Qed.

Lemma leaves_lift {A : Type} (r : result A) : leaves proj (lift r).
Proof. intros w. reflexivity. Qed.

Lemma leaves_st (x : widget) : leaves proj (st x).
Proof. intros w. apply proj_traffic; reflexivity. Qed.

Lemma leaves_set_session_user (u : option string) : leaves proj (set_session_user u).
Proof. intros w. apply proj_traffic; reflexivity. Qed.

Lemma leaves_session_state_user : leaves proj session_state_user.
Proof. intros w. unfold session_state_user. destruct (session_user w); reflexivity. Qed.

Lemma leaves_bind {A B : Type} (c : M A) (k : A -> M (P := P) B) :
  leaves proj c -> (forall a, leaves proj (k a)) -> leaves proj (bind c k).
Proof.
  intros Hc Hk w. unfold bind. specialize (Hc w).
  destruct (c w) as [w1 [a|e]]; simpl in *; [|exact Hc].
  rewrite (Hk a w1). exact Hc.
Qed.

Lemma leaves_if {A : Type} (b : bool) (c1 c2 : M (P := P) A) :
  leaves proj c1 -> leaves proj c2 -> leaves proj (if b then c1 else c2).
Proof. destruct b; auto. Qed.

Lemma leaves_tame {A : Type} (c : M (P := P) A) : tame c -> leaves proj c.
Proof.
  intros Hc w. destruct (Hc w) as [[_ [_ [Hq [Hch _]]]] _].
  apply proj_traffic; assumption.
Qed.

Lemma leaves_save_log (entry : json) : leaves proj (save_log entry).
Proof.
  intros w. destruct (save_log_frame entry w) as [_ [Hq [Hc _]]].
  apply proj_traffic; assumption.
Qed.

Lemma leaves_load_logs : leaves proj load_logs.
Proof. intros w. rewrite load_logs_unchanged. reflexivity. Qed.

Lemma leaves_st_dataframe (logs : json) : leaves proj (st_dataframe logs).
Proof.
  unfold st_dataframe. destruct (dataframe_error logs);
    [apply leaves_raise | apply leaves_st].
Qed.

Lemma leaves_show_logs : leaves proj show_logs.
Proof.
  unfold show_logs.
  repeat (apply leaves_bind; [apply leaves_st | intros _]).
  apply leaves_bind; [apply leaves_load_logs | intros logs].
  apply leaves_if; [apply leaves_st_dataframe | apply leaves_st].
Qed.

Lemma leaves_login (i : inputs) : leaves proj (login i).
Proof.
  unfold login.
  repeat (apply leaves_bind; [apply leaves_st | intros _]).
  repeat apply leaves_if.
  - apply leaves_bind; [apply leaves_set_session_user | intros _; apply leaves_raise].
  - apply leaves_st.
  - apply leaves_ret.
Qed.

Lemma leaves_export_workbook (structured parsed : json) :
  leaves proj (export_workbook structured parsed).
Proof.
  unfold export_workbook. apply leaves_if; [|apply leaves_ret].
  repeat (apply leaves_bind; [apply leaves_lift | intros ?]).
  apply leaves_st.
Qed.

End Traffic.

Section Emits.
Context {P : Platform} {X : Type}.
Variable proj : world P -> list X.

Lemma emits_exactly {A : Type} (out : list X) (c : M (P := P) A) :
  (forall w, proj (fst (c w)) = (proj w ++ out)%list) -> emits proj out c.
Proof.
  intros Hc w. split; [|intros a _; apply Hc].
  exists (List.length out). rewrite firstn_all. apply Hc.
Qed.

Lemma emits_nothing {A : Type} (c : M (P := P) A) : leaves proj c -> emits proj [] c.
Proof. intros Hc. apply emits_exactly. intros w. rewrite app_nil_r. apply Hc. Qed.

Lemma firstn_prefix (k : nat) (a b : list X) :
  firstn (List.length (firstn k a)) (a ++ b) = firstn k a.
Proof.
  revert a. induction k as [|k IH]; intros [|x a]; try reflexivity.
  simpl. f_equal. apply IH.
Qed.

Lemma emits_bind {A B : Type} (a1 a2 : list X) (c : M A) (k : A -> M (P := P) B) :
  emits proj a1 c -> (forall a, emits proj a2 (k a)) ->
  emits proj (a1 ++ a2) (bind c k).
Proof.
  intros Hc Hk w. unfold bind. destruct (Hc w) as [[n Hn] Hret].
  destruct (c w) as [w1 [a|e]]; simpl in *.
  - specialize (Hret a eq_refl). destruct (Hk a w1) as [[m Hm] Hret2]. split.
    + exists (List.length a1 + m). rewrite firstn_app_2, Hm, Hret, <- app_assoc. reflexivity.
    + intros b Hb. rewrite (Hret2 b Hb), Hret, <- app_assoc. reflexivity.
  - split; [|discriminate]. exists (List.length (firstn n a1)).
    rewrite firstn_prefix. exact Hn.
Qed.

Lemma emits_after {A B : Type} (out : list X) (c : M A) (k : A -> M (P := P) B) :
  leaves proj c -> (forall a, emits proj out (k a)) -> emits proj out (bind c k).
Proof.
  intros Hc Hk. change out with ([] ++ out)%list.
  apply emits_bind; [apply emits_nothing, Hc | exact Hk].
Qed.

Lemma emits_then {A B : Type} (out : list X) (c : M A) (k : A -> M (P := P) B) :
  emits proj out c -> (forall a, leaves proj (k a)) -> emits proj out (bind c k).
Proof.
  intros Hc Hk. rewrite <- (app_nil_r out).
  apply emits_bind; [exact Hc | intros a; apply emits_nothing, Hk].
Qed.

End Emits.

Lemma requests_view {P : Platform} (w w' : world P) :
  requests_sent w' = requests_sent w -> chats_sent w' = chats_sent w ->
  requests_sent w' = requests_sent w.
Proof. intros H _. exact H. Qed.

Lemma chats_view {P : Platform} (w w' : world P) :
  requests_sent w' = requests_sent w -> chats_sent w' = chats_sent w ->
  chats_sent w' = chats_sent w.
Proof. intros _ H. exact H. Qed.

Lemma requests_evaluate_qa {P : Platform} (s : string) :
  leaves (P := P) requests_sent (evaluate_qa s).
Proof.
  intros w. destruct (evaluate_qa_outcome s w) as [w' [parsed [Hrun [_ [_ [Hq _]]]]]].
  rewrite Hrun. exact Hq.
Qed.

Lemma requests_analyze_transcript {P : Platform} (details : json) :
  leaves (P := P) requests_sent (analyze_transcript details).
Proof.
  unfold analyze_transcript.
  apply leaves_bind; [apply leaves_lift | intros transcript].
  apply leaves_if.
  - repeat (apply leaves_bind;
            [first [apply (leaves_st _ requests_view) | apply leaves_lift] | intros ?]).
    apply requests_evaluate_qa.
  - apply leaves_bind; [apply (leaves_st _ requests_view) | intros _; apply leaves_ret].
Qed.

Lemma start_call_request {P : Platform} (number : string) (w : world P) :
  requests_sent (fst (start_call number w))
  = (requests_sent w ++ [start_request number])%list.
Proof.
  destruct (start_call_cases number w)
    as [[e Hr] | [Hr | [[data [e Hr]] | [data [id Hr]]]]]; rewrite Hr;
    try reflexivity.
  destruct (save_log_frame (log_entry utcnow_isoformat id number)
              (call_accepted number data w)) as [_ [Hq _]].
  rewrite Hq. reflexivity.
Qed.

Lemma fetch_call_details_request {P : Platform} (call_id : string) (w : world P) :
  requests_sent (fst (fetch_call_details call_id w))
  = (requests_sent w ++ [fetch_request call_id])%list.
Proof.
  unfold fetch_call_details, bind, requests_call, try_except, lift.
  destruct (requests_send (fetch_request call_id)) as [resp|e]; [|reflexivity].
  destruct (resp_ok resp); [|reflexivity].
  destruct (response_json (resp_body resp)); [reflexivity|]. simpl.
  destruct (json_loads (resp_body resp)); reflexivity.
Qed.

Lemma requests_start_call {P : Platform} (number : string) :
  emits (P := P) requests_sent [start_request number] (start_call number).
Proof. apply emits_exactly. apply start_call_request. Qed.

Lemma requests_fetch_call_details {P : Platform} (call_id : string) :
  emits (P := P) requests_sent [fetch_request call_id] (fetch_call_details call_id).
Proof. apply emits_exactly. apply fetch_call_details_request. Qed.

Lemma requests_show_transcript {P : Platform} (call_id : string) :
  emits (P := P) requests_sent [fetch_request call_id] (show_transcript call_id).
Proof.
  unfold show_transcript.
  apply emits_then; [apply requests_fetch_call_details | intros details].
  apply leaves_if; [|apply (leaves_st _ requests_view)].
  apply leaves_bind; [apply requests_analyze_transcript | intros parsed].
  apply leaves_bind; [apply leaves_lift | intros structured].
  apply (leaves_export_workbook _ requests_view).
Qed.

Lemma requests_app_main {P : Platform} (i : inputs) :
  emits (P := P) requests_sent (requests_of_clicks i) (app_main i).
Proof.
  unfold app_main, requests_of_clicks.
  apply emits_after; [apply leaves_session_state_user | intros user].
  do 2 (apply emits_after; [apply (leaves_st _ requests_view) | intros _]).
  apply emits_after.
  { apply leaves_if; [|apply leaves_ret].
    apply leaves_bind; [apply (leaves_set_session_user _ requests_view) | intros _].
    apply leaves_raise. }
  intros _.
  do 4 (apply emits_after; [apply (leaves_st _ requests_view) | intros _]).
  apply emits_bind.
  { destruct (submitted i); [apply requests_start_call | apply emits_nothing, leaves_ret]. }
  intros _.
  do 4 (apply emits_after; [apply (leaves_st _ requests_view) | intros _]).
  apply emits_then; [|intros _; apply (leaves_show_logs _ requests_view)].
  destruct (get_transcript i);
    [apply requests_show_transcript | apply emits_nothing, leaves_ret].
Qed.

(** X18: requests follow clicks.  In a whole run of the script the only
    requests sent are the POST of a clicked "Start Call" and then the GET of
    a clicked "Get Transcript", each once and in this order; a run that is
    cut short by an exception has sent the first of them, both or none.
    Nothing else (the login, the logout, the saved logs, the QA evaluation)
    sends a request, and a run of the page that ends normally has sent all
    the requests clicked for. *)
Theorem script_requests_follow_clicks {P : Platform} (i : inputs) (w : world P) :
  (exists k,
      requests_sent (fst (script i w))
      = (requests_sent w ++ firstn k (requests_of_clicks i))%list) /\
  (forall user,
      session_user w = Some user -> snd (script i w) = Return tt ->
      requests_sent (fst (script i w)) = (requests_sent w ++ requests_of_clicks i)%list).
Proof.
  unfold script. destruct (session_user w) as [u|] eqn:Hu.
  - destruct (requests_app_main i w) as [Hk Hret]. split; [exact Hk|].
    intros user _ Hr. exact (Hret tt Hr).
  - split; [|discriminate]. exists 0%nat.
    rewrite (leaves_login _ requests_view i w). cbn [firstn]. now rewrite app_nil_r.
Qed.

Lemma script_requests_follow_clicks_witness :
  requests_sent (fst (script Runs.start_click (Lab.fresh Lab.accepting Missing)))
  = [start_request (P := Lab.accepting) "+15551234567"].
Proof.
  exact (proj2 (script_requests_follow_clicks Runs.start_click
                  (Lab.fresh Lab.accepting Missing))
               "agent@gmail.com" eq_refl eq_refl).
Defined.

Lemma chats_requests_call {P : Platform} (r : request) :
  leaves (P := P) chats_sent (requests_call r).
Proof. intros w. reflexivity. Qed.

Lemma chats_fetch_call_details {P : Platform} (call_id : string) :
  leaves (P := P) chats_sent (fetch_call_details call_id).
Proof.
  intros w. unfold fetch_call_details, bind, requests_call, try_except, lift.
  destruct (requests_send (fetch_request call_id)) as [resp|e]; [|reflexivity].
  destruct (resp_ok resp); [|reflexivity].
  destruct (response_json (resp_body resp)); [reflexivity|]. simpl.
  destruct (json_loads (resp_body resp)); reflexivity.
Qed.

Lemma chats_start_call {P : Platform} (number : string) :
  leaves (P := P) chats_sent (start_call number).
Proof.
  intros w.
  destruct (start_call_cases number w)
    as [[e Hr] | [Hr | [[data [e Hr]] | [data [id Hr]]]]]; rewrite Hr;
    try reflexivity.
  destruct (save_log_frame (log_entry utcnow_isoformat id number)
              (call_accepted number data w)) as [_ [_ [Hc _]]].
  rewrite Hc. reflexivity.
Qed.

Lemma asks_leaves {P : Platform} {A : Type} (clicked : bool) (c : M (P := P) A) :
  leaves chats_sent c -> asks_at_most_once clicked c.
Proof. intros Hc w. left. apply Hc. Qed.

Lemma asks_after {P : Platform} {A B : Type} (clicked : bool) (c : M A)
      (k : A -> M (P := P) B) :
  leaves chats_sent c -> (forall a, asks_at_most_once clicked (k a)) ->
  asks_at_most_once clicked (bind c k).
Proof.
  intros Hc Hk w. unfold bind. specialize (Hc w).
  destruct (c w) as [w1 [a|e]]; simpl in *; [|left; exact Hc].
  rewrite <- Hc. apply Hk.
Qed.

Lemma asks_then {P : Platform} {A B : Type} (clicked : bool) (c : M A)
      (k : A -> M (P := P) B) :
  asks_at_most_once clicked c -> (forall a, leaves chats_sent (k a)) ->
  asks_at_most_once clicked (bind c k).
Proof.
  intros Hc Hk w. unfold bind. specialize (Hc w).
  destruct (c w) as [w1 [a|e]]; simpl in *; [|exact Hc].
  rewrite (Hk a w1). exact Hc.
Qed.

Lemma asks_evaluate_qa {P : Platform} (s : string) :
  asks_at_most_once (P := P) true (evaluate_qa s).
Proof.
  intros w. destruct (evaluate_qa_outcome s w) as [w' [parsed [Hrun [_ [_ [_ [Hc _]]]]]]].
  rewrite Hrun. right. split; [reflexivity|]. exists s. exact Hc.
Qed.

Lemma asks_analyze_transcript {P : Platform} (details : json) :
  asks_at_most_once (P := P) true (analyze_transcript details).
Proof.
  unfold analyze_transcript.
  apply asks_after; [apply leaves_lift | intros transcript].
  destruct (truthy transcript).
  - repeat (apply asks_after;
            [first [apply (leaves_st _ chats_view) | apply leaves_lift] | intros ?]).
    apply asks_evaluate_qa.
  - apply asks_leaves.
    apply leaves_bind; [apply (leaves_st _ chats_view) | intros _; apply leaves_ret].
Qed.

Lemma asks_show_transcript {P : Platform} (call_id : string) :
  asks_at_most_once (P := P) true (show_transcript call_id).
Proof.
  unfold show_transcript.
  apply asks_after; [apply chats_fetch_call_details | intros details].
  destruct (truthy details && is_dict details);
    [|apply asks_leaves, (leaves_st _ chats_view)].
  apply asks_then; [apply asks_analyze_transcript | intros parsed].
  apply leaves_bind; [apply leaves_lift | intros structured].
  apply (leaves_export_workbook _ chats_view).
Qed.

Lemma asks_app_main {P : Platform} (i : inputs) :
  asks_at_most_once (P := P) (get_transcript i) (app_main i).
Proof.
  unfold app_main.
  apply asks_after; [apply leaves_session_state_user | intros user].
  do 2 (apply asks_after; [apply (leaves_st _ chats_view) | intros _]).
  apply asks_after.
  { apply leaves_if; [|apply leaves_ret].
    apply leaves_bind; [apply (leaves_set_session_user _ chats_view) | intros _].
    apply leaves_raise. }
  intros _.
  do 4 (apply asks_after; [apply (leaves_st _ chats_view) | intros _]).
  apply asks_after.
  { apply leaves_if; [apply chats_start_call | apply leaves_ret]. }
  intros _.
  do 4 (apply asks_after; [apply (leaves_st _ chats_view) | intros _]).
  apply asks_then; [|intros _; apply (leaves_show_logs _ chats_view)].
  destruct (get_transcript i);
    [apply asks_show_transcript | apply asks_leaves, leaves_ret].
Qed.

(** X19: the chat model is asked at most once in a run of the script, for
    a QA evaluation, and only in a session in which "Get Transcript" was
    clicked: the login page, the logout, the start of a call and the saved
    logs never reach it. *)
Theorem script_asks_at_most_once {P : Platform} (i : inputs) (w : world P) :
  chats_sent (fst (script i w)) = chats_sent w \/
  (get_transcript i = true /\ session_user w <> None /\
   exists s, chats_sent (fst (script i w)) = (chats_sent w ++ [qa_request s])%list).
Proof.
  unfold script. destruct (session_user w) as [u|] eqn:Hu.
  - destruct (asks_app_main i w) as [H | [Hg H]]; [left; exact H|].
    right. split; [exact Hg|]. split; [discriminate | exact H].
  - left. apply (leaves_login _ chats_view).
Qed.

(** ** The saved logs at the bottom of the page *)

(** X21: what the section of the saved logs shows.  Whatever the log file
    decodes to is handed to [st.dataframe] as it is when it is truthy: a
    non-empty list of entries, but also a dict, a string or a number that
    some other program left there.  When Streamlit makes a table of the
    value, the table is shown; when it does not, its exception leaves the
    section, the two headers being on the page, and nothing catches it.  A
    file that is missing, unreadable or no JSON, and a file holding an empty
    or falsy value, all give the same notice that no calls are logged, and
    never make the section raise. *)
Theorem show_logs_display {P : Platform} (w : world P) :
  (forall t logs,
      log_file w = Content t -> json_loads t = Some logs -> truthy logs = true ->
      (dataframe_error logs = None ->
       show_logs w
       = (render [StMarkdown "---"; StSubheader "📁 Saved Call Logs"; StDataframe logs] w,
          Return tt)) /\
      (forall e,
          dataframe_error logs = Some e ->
          show_logs w
          = (render [StMarkdown "---"; StSubheader "📁 Saved Call Logs"] w, Raise e))) /\
  (log_file w = Missing \/ log_file w = Unreadable \/
   (exists t, log_file w = Content t /\
              (json_loads t = None \/
               exists logs, json_loads t = Some logs /\ truthy logs = false)) ->
   show_logs w
   = (render [StMarkdown "---"; StSubheader "📁 Saved Call Logs";
              StInfo "No calls logged yet."] w,
      Return tt)).
Proof.
  rewrite show_logs_section. unfold logs_section. cbv zeta. split.
  - intros t logs Hf Hl Ht. rewrite Hf, Hl, Ht. split.
    + intros Hd. rewrite Hd. reflexivity.
    + intros e Hd. rewrite Hd. reflexivity.
  - intros [Hf | [Hf | [t [Hf [Hl | [logs [Hl Ht]]]]]]]; rewrite Hf;
      try rewrite Hl; try rewrite Ht; reflexivity.
Qed.

Lemma show_logs_display_witness :
  show_logs (Lab.fresh Lab.offline (Content (Lab.Doc (JArr [Lab.entry1]))))
  = (render [StMarkdown "---"; StSubheader "📁 Saved Call Logs";
             StDataframe (JArr [Lab.entry1])]
       (Lab.fresh Lab.offline (Content (Lab.Doc (JArr [Lab.entry1])))),
     Return tt).
Proof.
  exact (proj1 (proj1 (show_logs_display
                         (Lab.fresh Lab.offline (Content (Lab.Doc (JArr [Lab.entry1])))))
                      (Lab.Doc (JArr [Lab.entry1])) (JArr [Lab.entry1])
                      eq_refl eq_refl eq_refl)
               eq_refl).
Defined.

Lemma logs_section_entries {P : Platform} (RT : JsonRoundTrip P) (w : world P)
      (l : list json) (entry : json) :
  log_file w = Content (json_dumps (JArr (l ++ [entry])%list)) ->
  logs_section w
  = match dataframe_error (JArr (l ++ [entry])%list) with
    | None =>
        ([StMarkdown "---"; StSubheader "📁 Saved Call Logs";
          StDataframe (JArr (l ++ [entry])%list)],
         Return tt)
    | Some e => ([StMarkdown "---"; StSubheader "📁 Saved Call Logs"], Raise e)
    end.
Proof.
  intros Hf. unfold logs_section. cbv zeta. rewrite Hf, loads_dumps.
  replace (truthy (JArr (l ++ [entry])%list)) with true by (destruct l; reflexivity).
  reflexivity.
Qed.

(** X20: a call started in a run is logged, and listed in the same run if
    Streamlit makes a table of the log.  When the gateway accepts the call
    with a JSON object and the log holds the entries [l], the page carries
    the confirmation and the log file then holds [l] followed by the new
    entry, with the id the gateway gave ([None] when it gave none).  The
    section of the saved logs hands that list to [st.dataframe]: when it
    makes a table of it, the table closes the page and the run ends
    normally; when it refuses it (an older entry that is no dict, say), the
    run ends with its exception below the two headers, the call being
    placed and logged all the same. *)
Theorem started_call_is_listed {P : Platform} (RT : JsonRoundTrip P) (i : inputs)
        (w : world P) user resp fs l :
  session_user w = Some user ->
  logout_clicked i = false ->
  submitted i = true ->
  get_transcript i = false ->
  requests_send (start_request (number i)) = Responded resp ->
  resp_ok resp = true ->
  response_json (resp_body resp) = Some (JObj fs) ->
  stored_entries w = Some l ->
  let logs := (l ++ [log_entry utcnow_isoformat (dict_get fs "id" JNull) (number i)])%list in
  stored_entries (fst (script i w)) = Some logs /\
  (dataframe_error (JArr logs) = None ->
   snd (script i w) = Return tt /\
   rendered (fst (script i w))
   = (rendered w ++ page_top user
      ++ [StSuccess "Call initiated!"; StJson (JObj fs)]
      ++ fetch_section
      ++ [StMarkdown "---"; StSubheader "📁 Saved Call Logs";
          StDataframe (JArr logs)])%list) /\
  (forall e,
      dataframe_error (JArr logs) = Some e ->
      snd (script i w) = Raise e /\
      rendered (fst (script i w))
      = (rendered w ++ page_top user
         ++ [StSuccess "Call initiated!"; StJson (JObj fs)]
         ++ fetch_section
         ++ [StMarkdown "---"; StSubheader "📁 Saved Call Logs"])%list).
Proof.
  intros Hu Hlo Hsub Hget Hs Hok Hj Hl logs.
  remember (script i w) as run eqn:Hrun.
  unfold script in Hrun. rewrite Hu in Hrun. unfold app_main in Hrun.
  unfold bind at 1 in Hrun. unfold session_state_user in Hrun.
  rewrite Hu, Hlo, Hsub, Hget in Hrun.
  rewrite !bind_st, bind_ret, !bind_st in Hrun.
  unfold bind at 1 in Hrun.
  rewrite (start_call_accepted (number i) _ resp fs Hs Hok Hj) in Hrun.
  rewrite (save_log_well_formed _ _ l) in Hrun by exact Hl.
  rewrite !bind_st, bind_ret in Hrun.
  rewrite show_logs_section in Hrun.
  rewrite (logs_section_entries RT _ l (log_entry utcnow_isoformat (dict_get fs "id" JNull)
                                          (number i))) in Hrun by reflexivity.
  fold logs in Hrun.
  match type of Hrun with _ = (render _ ?W, _) => remember W as w1 eqn:Hw1 end.
  assert (Hw : rendered w1
               = (rendered w ++ page_top user
                  ++ [StSuccess "Call initiated!"; StJson (JObj fs)]
                  ++ fetch_section)%list /\
               stored_entries w1 = Some logs).
  { rewrite Hw1. split.
    - autorewrite with project. cbn [rendered]. unfold call_accepted. cbn [rendered].
      autorewrite with project. unfold page_top, fetch_section.
      rewrite <- !app_assoc. reflexivity.
    - unfold stored_entries. autorewrite with project. cbn [log_file].
      rewrite loads_dumps. reflexivity. }
  clear Hw1. destruct Hw as [Hp Hst].
  destruct (dataframe_error (JArr logs)) as [e0|] eqn:Hd; cbn [fst snd] in Hrun;
    rewrite Hrun; unfold fst, snd;
    rewrite stored_entries_render, rendered_render, Hp, Hst.
  - split; [reflexivity|]. split; [discriminate|].
    intros e He. injection He as <-. split; [reflexivity|].
    rewrite <- !app_assoc. reflexivity.
  - split; [reflexivity|]. split; [|discriminate].
    intros _. split; [reflexivity|]. rewrite <- !app_assoc. reflexivity.
Qed.

Lemma started_call_is_listed_witness :
  stored_entries (fst (script Runs.start_click
                         (Lab.fresh Lab.accepting (Content (Lab.Doc (JArr [Lab.entry1]))))))
  = Some [Lab.entry1;
          log_entry "2024-05-01T12:00:00" (JStr "abc123") "+15551234567"].
Proof.
  exact (proj1 (started_call_is_listed
                  (lab_round_trip (Lab.gateway_says true
                                     (Lab.Doc (JObj [("id", JStr "abc123")])))
                                  Lab.model_down)
                  Runs.start_click
                  (Lab.fresh Lab.accepting (Content (Lab.Doc (JArr [Lab.entry1]))))
                  "agent@gmail.com" _ [("id", JStr "abc123")] [Lab.entry1]
                  eq_refl eq_refl eq_refl eq_refl eq_refl eq_refl eq_refl eq_refl)).
Defined.

(** ** The export of an evaluation *)

Lemma records_of_length (items : list json) rs :
  records_of items = Some rs -> List.length rs = List.length items.
Proof.
  revert rs. induction items as [|item items IH]; intros rs H.
  - injection H as <-. reflexivity.
  - destruct item; try discriminate H. simpl in H.
    destruct (records_of items) as [rs'|]; [|discriminate H].
    injection H as <-. simpl. f_equal. now apply IH.
Qed.

Lemma evaluate_qa_value {P : Platform} (s : string) (t : text) (parsed : json)
      (w : world P) :
  groq_create (qa_request s) = Completion (Some t) ->
  json_loads t = Some parsed ->
  snd (evaluate_qa s w) = Return parsed.
Proof.
  intros Hg Hl. rewrite (evaluate_qa_parsed s t parsed w Hg Hl).
  apply try_qa_failed_value. apply tame_render_results.
Qed.

Lemma show_transcript_evaluated {P : Platform} (call_id : string) (w : world P)
      resp fs s t parsed :
  requests_send (fetch_request call_id) = Responded resp ->
  resp_ok resp = true ->
  response_json (resp_body resp) = Some (JObj fs) ->
  dict_lookup "transcript" fs = Some (JStr s) ->
  s <> "" ->
  groq_create (qa_request s) = Completion (Some t) ->
  json_loads t = Some parsed ->
  exists w1,
    evaluate_qa s (render (transcript_widgets s) (sent (fetch_request call_id) w))
    = (w1, Return parsed) /\
    show_transcript call_id w
    = (structured <- lift (structured_data (JObj fs)) ;;
       export_workbook structured parsed) w1.
Proof.
  intros Hs Hok Hj Ht Hne Hg Hl.
  destruct (show_transcript_details call_id w resp fs s Hs Hok Hj Ht Hne)
    as [w1 [parsed' [Hrun [_ Hshow]]]].
  pose proof (evaluate_qa_value s t parsed
                (render (transcript_widgets s) (sent (fetch_request call_id) w)) Hg Hl)
    as Hv.
  rewrite Hrun in Hv. simpl in Hv. injection Hv as ->.
  exists w1. split; assumption.
Qed.

(** X22: the QA sheet holds the whole answer of the chat model.  When the
    answer parses as a non-empty list of dicts, the workbook offered for
    download has, next to the call data, a QA sheet with one row per item of
    the answer, whether or not the items were all shown: an evaluation cut
    short on the page (a missing field, a rating above the scale) is still
    exported in full, the items after the failing one included. *)
Theorem export_holds_every_parsed_item {P : Platform} (call_id : string) (w : world P)
        resp fs s t items rs structured df :
  requests_send (fetch_request call_id) = Responded resp ->
  resp_ok resp = true ->
  response_json (resp_body resp) = Some (JObj fs) ->
  dict_lookup "transcript" fs = Some (JStr s) ->
  s <> "" ->
  groq_create (qa_request s) = Completion (Some t) ->
  json_loads t = Some (JArr items) ->
  items <> [] ->
  records_of items = Some rs ->
  structured_data (JObj fs) = Return structured ->
  truthy structured = true ->
  pd_DataFrame (JArr [structured]) = Return df ->
  exists w1,
    evaluate_qa s (render (transcript_widgets s) (sent (fetch_request call_id) w))
    = (w1, Return (JArr items)) /\
    show_transcript call_id w
    = (render [download_button [("CallData", df);
                                ("QA Evaluation", frame_of_records rs)]] w1,
       Return tt) /\
    List.length (rows (frame_of_records rs)) = List.length items.
Proof.
  intros Hs Hok Hj Ht Hne Hg Hl Hitems Hrs Hsd Hst Hdf.
  destruct (show_transcript_evaluated call_id w resp fs s t (JArr items)
              Hs Hok Hj Ht Hne Hg Hl) as [w1 [Hrun Hshow]].
  exists w1. split; [exact Hrun|]. split.
  - rewrite Hshow, Hsd, bind_lift_Return. unfold export_workbook.
    rewrite Hst, Hdf, bind_lift_Return.
    replace (truthy (JArr items)) with true
      by (destruct items; [contradiction Hitems|]; reflexivity).
    unfold pd_DataFrame. rewrite Hrs, bind_lift_Return. reflexivity.
  - unfold frame_of_records. cbn [rows]. rewrite length_map.
    now apply records_of_length.
Qed.

Lemma export_holds_every_parsed_item_witness :
  exists w1,
    show_transcript "abc123" (Lab.fresh Runs.call_overrated Missing)
    = (render [download_button
                 [("CallData",
                   {| columns := [JStr "appointment"];
                      rows := [[Some (JStr "booked")]] |});
                  ("QA Evaluation",
                   {| columns := [JStr "question"; JStr "rating"; JStr "explanation"];
                      rows :=
                        [[Some (JStr "Did the agent speak confidently?");
                          Some (JInt 4); Some (JStr "Steady pace.")];
                         [Some (JStr "Was the agent professional throughout the call?");
                          Some (JInt 7); Some (JStr "Beyond expectations.")];
                         [Some (JStr "Did the agent display active listening skills?");
                          Some (JInt 5); Some (JStr "Repeated the request back.")]] |})]]
         w1,
       Return tt) /\
    In (StException StreamlitAPIException) (rendered w1).
Proof.
  destruct (export_holds_every_parsed_item (P := Runs.call_overrated) "abc123"
              (Lab.fresh Runs.call_overrated Missing) _
              [("transcript", JStr "Hello, this is...");
               ("analysis", JObj [("structuredData", JObj [("appointment", JStr "booked")])])]
              "Hello, this is..." (Lab.Doc (JArr Runs.rating_above_scale))
              Runs.rating_above_scale
              [[("question", JStr "Did the agent speak confidently?");
                ("rating", JInt 4);
                ("explanation", JStr "Steady pace.")];
               [("question", JStr "Was the agent professional throughout the call?");
                ("rating", JInt 7);
                ("explanation", JStr "Beyond expectations.")];
               [("question", JStr "Did the agent display active listening skills?");
                ("rating", JInt 5);
                ("explanation", JStr "Repeated the request back.")]]
              (JObj [("appointment", JStr "booked")])
              {| columns := [JStr "appointment"]; rows := [[Some (JStr "booked")]] |}
              eq_refl eq_refl eq_refl eq_refl
              ltac:(discriminate) eq_refl eq_refl ltac:(discriminate)
              eq_refl eq_refl eq_refl eq_refl)
    as [w1 [Hrun [Hshow _]]].
  exists w1. split; [exact Hshow|].
  injection Hrun as <-. vm_compute. tauto.
Defined.

(** X23: an answer that is a bare scalar breaks the export.  When the
    chat model answers with JSON that is a truthy boolean, number or string
    (["N/A"] in quotes, say), the evaluation itself ends normally, but the
    value is kept as the QA result and, once there is structured data,
    handed to [pd.DataFrame], which refuses it: the transcript action raises
    [ValueError] and no workbook is offered. *)
Theorem scalar_answer_breaks_export {P : Platform} (call_id : string) (w : world P)
        resp fs s t parsed structured df :
  requests_send (fetch_request call_id) = Responded resp ->
  resp_ok resp = true ->
  response_json (resp_body resp) = Some (JObj fs) ->
  dict_lookup "transcript" fs = Some (JStr s) ->
  s <> "" ->
  groq_create (qa_request s) = Completion (Some t) ->
  json_loads t = Some parsed ->
  scalar parsed = true ->
  truthy parsed = true ->
  structured_data (JObj fs) = Return structured ->
  truthy structured = true ->
  pd_DataFrame (JArr [structured]) = Return df ->
  exists w1,
    evaluate_qa s (render (transcript_widgets s) (sent (fetch_request call_id) w))
    = (w1, Return parsed) /\
    show_transcript call_id w = (w1, Raise ValueError).
Proof.
  intros Hs Hok Hj Ht Hne Hg Hl Hsc Htr Hsd Hst Hdf.
  destruct (show_transcript_evaluated call_id w resp fs s t parsed
              Hs Hok Hj Ht Hne Hg Hl) as [w1 [Hrun Hshow]].
  exists w1. split; [exact Hrun|].
  rewrite Hshow, Hsd, bind_lift_Return. unfold export_workbook.
  rewrite Hst, Hdf, bind_lift_Return, Htr.
  destruct parsed; try discriminate Hsc; cbn [pd_DataFrame];
    rewrite bind_lift_Raise; reflexivity.
Qed.

Lemma scalar_answer_breaks_export_witness :
  snd (show_transcript "abc123" (Lab.fresh Runs.call_unrated Missing))
  = Raise ValueError.
Proof.
  destruct (scalar_answer_breaks_export (P := Runs.call_unrated) "abc123"
              (Lab.fresh Runs.call_unrated Missing) _
              [("transcript", JStr "Hello, this is...");
               ("analysis", JObj [("structuredData", JObj [("appointment", JStr "booked")])])]
              "Hello, this is..." (Lab.Doc (JStr "N/A")) (JStr "N/A")
              (JObj [("appointment", JStr "booked")])
              {| columns := [JStr "appointment"]; rows := [[Some (JStr "booked")]] |}
              eq_refl eq_refl eq_refl eq_refl
              ltac:(discriminate) eq_refl eq_refl eq_refl eq_refl
              eq_refl eq_refl eq_refl)
    as [w1 [_ Hshow]].
  rewrite Hshow. reflexivity.
Defined.

(** ** The prompt of the evaluation *)

Lemma string_app_inv_head (a b c : string) : a ++ b = a ++ c -> b = c.
Proof.
  induction a as [|x a IH]; simpl; intros H; [exact H|].
  injection H as H. now apply IH.
Qed.

Lemma string_app_inv_tail (a b c : string) : a ++ c = b ++ c -> a = b.
Proof.
  revert b. induction a as [|x a IH]; intros [|y b] H.
  - reflexivity.
  - apply (f_equal String.length) in H. simpl in H.
    rewrite string_length_app in H. lia.
  - apply (f_equal String.length) in H. simpl in H.
    rewrite string_length_app in H. lia.
  - simpl in H. injection H as -> H. f_equal. now apply IH.
Qed.

Lemma fold_left_lines (qs : list string) (prompt : string) :
  fold_left (fun prompt q => prompt ++ "- " ++ q ++ nl) qs prompt
  = prompt ++ fold_right (fun q rest => "- " ++ q ++ nl ++ rest) "" qs.
Proof.
  revert prompt. induction qs as [|q qs IH]; intros prompt.
  - simpl. now rewrite string_app_nil_r.
  - cbn [fold_left fold_right]. rewrite IH. rewrite !string_app_assoc. reflexivity.
Qed.

(** X24: the prompt of lines 140-152 is a fixed text, the transcript as
    it came, and the list of the questions, one per line behind a dash, in
    the order of [qa_questions].  The transcript is neither trimmed nor
    escaped, so that two transcripts never give the same prompt. *)
Theorem qa_prompt_embeds_transcript :
  (exists head,
      forall t,
        qa_prompt t
        = head ++ t ++ nl ++ nl ++ "Questions:" ++ nl
          ++ fold_right (fun q rest => "- " ++ q ++ nl ++ rest) "" qa_questions) /\
  (forall t1 t2, qa_prompt t1 = qa_prompt t2 -> t1 = t2).
Proof.
  assert (Hshape : forall t,
             qa_prompt t
             = ("You are a call QA evaluator." ++ nl ++
                "Based on the transcript below, evaluate the following questions." ++ nl ++
                "Respond as a JSON list with each item containing:" ++ nl ++
                "- question" ++ nl ++
                "- rating (1–5 or 'N/A')" ++ nl ++
                "- explanation" ++ nl ++ nl ++
                "Rating Scale: 1 = Very Poor, 2 = Poor, 3 = Average, 4 = Good, 5 = Excellent, N/A = Not Applicable" ++ nl ++ nl ++
                "Transcript:" ++ nl)
               ++ t ++ (nl ++ nl ++ "Questions:" ++ nl
                        ++ fold_right (fun q rest => "- " ++ q ++ nl ++ rest) "" qa_questions)).
  { intros t. unfold qa_prompt. cbv zeta. rewrite fold_left_lines.
    generalize (fold_right (fun q rest => "- " ++ q ++ nl ++ rest) "" qa_questions).
    intros lines. rewrite !string_app_assoc. reflexivity. }
  split.
  - eexists. intros t. rewrite (Hshape t). reflexivity.
  - intros t1 t2 H. rewrite !Hshape in H.
    apply string_app_inv_head in H. now apply string_app_inv_tail in H.
Qed.

(** ** Configuration *)

(** X25: nothing checks the configuration before a request goes out.
    With none of the three environment variables set, [start_call] still
    posts, with the header [Authorization: Bearer None] and null ids next to
    the number, and [fetch_call_details] still gets the URL of the call with
    the same header. *)
Theorem requests_without_configuration {P : Platform} (number call_id : string)
        (w : world P) :
  API_KEY = None -> ASSISTANT_ID = None -> PHONE_ID = None ->
  req_headers (start_request number)
  = [("Authorization", "Bearer None"); ("Content-Type", "application/json")] /\
  req_json (start_request number)
  = Some (JObj [("assistantId", JNull); ("phoneNumberId", JNull);
                ("customer", JObj [("number", JStr number)])]) /\
  req_headers (fetch_request call_id) = req_headers (start_request number) /\
  requests_sent (fst (start_call number w))
  = (requests_sent w ++ [start_request number])%list /\
  requests_sent (fst (fetch_call_details call_id w))
  = (requests_sent w ++ [fetch_request call_id])%list.
Proof.
  intros Hk Ha Hp.
  split; [|split; [|split; [|split]]].
  - unfold start_request, HEADERS. cbn [req_headers]. rewrite Hk. reflexivity.
  - unfold start_request. cbn [req_json]. rewrite Ha, Hp. reflexivity.
  - reflexivity.
  - apply start_call_request.
  - apply fetch_call_details_request.
Qed.

Lemma requests_without_configuration_witness :
  requests_sent (fst (start_call "+15551234567" (Lab.fresh Runs.unconfigured Missing)))
  = [{| req_method := POST;
        req_url := "https://api.vapi.ai/call/phone";
        req_headers := [("Authorization", "Bearer None");
                        ("Content-Type", "application/json")];
        req_json := Some (JObj [("assistantId", JNull); ("phoneNumberId", JNull);
                                ("customer", JObj [("number", JStr "+15551234567")])]);
        req_timeout := None |}].
Proof.
  exact (proj1 (proj2 (proj2 (proj2 (requests_without_configuration
                                       (P := Runs.unconfigured) "+15551234567" "abc123"
                                       (Lab.fresh Runs.unconfigured Missing)
                                       eq_refl eq_refl eq_refl))))).
Defined.

(** ** Exceptions nobody catches *)

(** X26: the page has no handler of its own.  An exception that leaves
    [start_call] (the request fails, the body of a success is unusable, the
    log cannot be extended) ends the run right there: the fetch section and
    the saved logs are not rendered and no transcript is fetched, even when
    asked for.  An exception that leaves the transcript action ends the run
    before the saved logs.  The world is the one the failing step left. *)
Theorem uncaught_exception_ends_the_run {P : Platform} (i : inputs) (w : world P)
        (user : string) (e : exn) :
  session_user w = Some user ->
  logout_clicked i = false ->
  (submitted i = true ->
   snd (start_call (number i) (render (page_top user) w)) = Raise e ->
   script i w = (fst (start_call (number i) (render (page_top user) w)), Raise e)) /\
  (submitted i = false ->
   get_transcript i = true ->
   snd (show_transcript (call_id i) (render (page_top user ++ fetch_section) w)) = Raise e ->
   script i w
   = (fst (show_transcript (call_id i) (render (page_top user ++ fetch_section) w)),
      Raise e)).
Proof.
  intros Hu Hlo. split.
  - intros Hsub Hr.
    remember (script i w) as run eqn:Hrun.
    unfold script in Hrun. rewrite Hu in Hrun. unfold app_main in Hrun.
    unfold bind at 1 in Hrun. unfold session_state_user in Hrun.
    rewrite Hu, Hlo, Hsub in Hrun.
    rewrite !bind_st, bind_ret, !bind_st in Hrun.
    rewrite !render_render in Hrun. cbn [app] in Hrun.
    fold (page_top user) in Hrun.
    unfold bind at 1 in Hrun.
    destruct (start_call (number i) (render (page_top user) w)) as [w1 r].
    simpl in Hr. subst r. exact Hrun.
  - intros Hsub Hget Hr.
    unfold script. rewrite Hu.
    rewrite (app_main_get_transcript i w user Hu Hlo Hsub Hget).
    unfold bind.
    destruct (show_transcript (call_id i) (render (page_top user ++ fetch_section) w))
      as [w1 r].
    simpl in Hr. subst r. reflexivity.
Qed.

Lemma uncaught_exception_ends_the_run_witness :
  snd (script Runs.start_click (Lab.fresh Lab.accepting (Content (Lab.Raw "<html>"))))
  = Raise JSONDecodeError /\
  rendered (fst (script Runs.start_click
                   (Lab.fresh Lab.accepting (Content (Lab.Raw "<html>")))))
  = (page_top "agent@gmail.com"
     ++ [StSuccess "Call initiated!"; StJson (JObj [("id", JStr "abc123")])])%list.
Proof.
  rewrite (proj1 (uncaught_exception_ends_the_run Runs.start_click
                    (Lab.fresh Lab.accepting (Content (Lab.Raw "<html>")))
                    "agent@gmail.com" JSONDecodeError eq_refl eq_refl)
                 eq_refl eq_refl).
  split; reflexivity.
Defined.
